(** * TabTransformer / FTTransformer: data-flow model and its properties

    A shallow embedding of [tab_transformer_pytorch/ft_transformer.py] and
    [tab_transformer_pytorch/tab_transformer_pytorch.py].

    The numerical kernels of the tensor framework (LayerNorm, Linear,
    softmax, GELU, the fused attention kernel) are an interface, the class
    [Kernels]; everything the two Python files write themselves (offset
    arithmetic, broadcasting, concatenation, the layer loop, the chunk loop,
    assertions, attribute accesses) is written out. *)

From Stdlib Require Import ZArith Lia List.
From stdpp Require Import base option list gmap strings pretty.

Local Open Scope Z_scope.

(** ** Python exceptions and fallible computations *)

Inductive exn : Type :=
| AssertionError (msg : string)
| AttributeError (name : string)
| UnboundLocalError (name : string)
| TypeError
| ValueError
| IndexError
| ZeroDivisionError
| RuntimeError.

Inductive result (A : Type) : Type :=
| Ok (a : A)
| Raise (e : exn).
Arguments Ok {A} a.
Arguments Raise {A} e.

#[global] Instance result_ret : MRet result := fun _ a => Ok a.
#[global] Instance result_bind : MBind result := fun _ _ f m =>
  match m with
  | Ok a => f a
  | Raise e => Raise e
  end.
#[global] Instance result_fmap : FMap result := fun _ _ f m =>
  match m with
  | Ok a => Ok (f a)
  | Raise e => Raise e
  end.

Definition is_Ok {A} (m : result A) : Prop := exists a, m = Ok a.

(** [assert cond, msg] *)
Definition py_assert (cond : bool) (msg : string) : result unit :=
  if cond then Ok tt else Raise (AssertionError msg).

(** [range(start, stop, step)], as the list of the values it yields. *)
Definition py_range (start stop step : Z) : result (list Z) :=
  if step =? 0 then Raise ValueError
  else if 0 <? step then
    Ok (map (fun k => start + Z.of_nat k * step)
            (seq 0 (Z.to_nat ((stop - start + step - 1) / step))))
  else
    Ok (map (fun k => start + Z.of_nat k * step)
            (seq 0 (Z.to_nat ((start - stop - step - 1) / (- step))))).

(** ** int64 tensors: arithmetic wraps around *)

Definition int64_min : Z := - 2 ^ 63.
Definition int64_max : Z := 2 ^ 63 - 1.
Definition in_int64 (z : Z) : bool := (int64_min <=? z) && (z <=? int64_max).
Definition wrap64 (z : Z) : Z := (z + 2 ^ 63) mod 2 ^ 64 - 2 ^ 63.
Definition add64 (a b : Z) : Z := wrap64 (a + b).

(** [torch.tensor(list_of_ints)]: a 1-D int64 tensor; a value that does not
    fit raises. *)
Definition torch_tensor (l : list Z) : result (list Z) :=
  if forallb in_int64 l then Ok l else Raise RuntimeError.

(** [F.pad(t, (1, 0), value = v)] on a 1-D int64 tensor. *)
Definition F_pad_left (t : list Z) (v : Z) : list Z := wrap64 v :: t.

(** [t.cumsum(dim = -1)] on a 1-D int64 tensor. *)
Fixpoint cumsum_from (acc : Z) (t : list Z) : list Z :=
  match t with
  | [] => []
  | x :: t' => add64 acc x :: cumsum_from (add64 acc x) t'
  end.
Definition cumsum (t : list Z) : list Z := cumsum_from 0 t.

(** [t[:-1]] *)
Definition drop_last {A} (t : list A) : list A := removelast t.

(** Python's [sum] and [len] on a sequence of ints (unbounded). *)
Definition py_sum (l : list Z) : Z := fold_right Z.add 0 l.
Definition py_len {A} (l : list A) : Z := Z.of_nat (length l).

(** ** Two-dimensional input tensors

    The inputs of the models are 2-D tensors; the trailing dimension is kept
    beside the rows, so that an empty batch still has a shape. *)

Record tensor2 (A : Type) : Type := Tensor2 {
  shape1 : nat;
  rows : list (list A)
}.
Arguments Tensor2 {A} shape1 rows.
Arguments shape1 {A} t.
Arguments rows {A} t.

Definition shape0 {A} (t : tensor2 A) : nat := length (rows t).

Definition wf_tensor2 {A} (t : tensor2 A) : Prop :=
  Forall (fun r => length r = shape1 t) (rows t).

(** [t[start:stop]] along the leading dimension, for non-negative bounds. *)
Definition slice_list {A} (l : list A) (start stop : Z) : list A :=
  firstn (Z.to_nat stop - Z.to_nat start) (skipn (Z.to_nat start) l).
Definition slice0 {A} (t : tensor2 A) (start stop : Z) : tensor2 A :=
  Tensor2 (shape1 t) (slice_list (rows t) start stop).

(** Broadcasting of two dimensions of sizes [c] and [n]: equal sizes pair
    up, a size of one is stretched to the other size, anything else is an
    error. *)
Definition broadcastable (c n : nat) : bool :=
  Nat.eqb c n || Nat.eqb c 1 || Nat.eqb n 1.
Definition broadcast_size (c n : nat) : nat := if Nat.eqb c 1 then n else c.
Definition broadcast_with {A B C} (f : A -> B -> C) (xs : list A) (ys : list B)
  : list C :=
  match xs, ys with
  | [x], _ => map (f x) ys
  | _, [y] => map (fun x => f x y) xs
  | _, _ => zip_with f xs ys
  end.

(** [x + offset] for an int64 [x] of shape (b, c) and [offset] of shape (n). *)
Definition add_offset (x : tensor2 Z) (offset : list Z) : result (tensor2 Z) :=
  if broadcastable (shape1 x) (length offset) then
    Ok (Tensor2 (broadcast_size (shape1 x) (length offset))
                (map (fun r => broadcast_with add64 r offset) (rows x)))
  else Raise RuntimeError.

(** ** The kernels of the tensor framework *)

Class Kernels : Type := {
  (** floating-point scalars and their arithmetic *)
  scalar : Type;
  fzero : scalar;
  fadd : scalar -> scalar -> scalar;
  fsub : scalar -> scalar -> scalar;
  fmul : scalar -> scalar -> scalar;
  fdiv : scalar -> scalar -> scalar;
  (** [n ** -0.5] *)
  pow_neg_half : Z -> scalar;
  F_gelu : scalar -> scalar;
  F_relu : scalar -> scalar;
  (** [softmax] over one vector *)
  softmax : list scalar -> list scalar;
  (** the weights of an [nn.LayerNorm] and its action on one vector *)
  LayerNormW : Type;
  layer_norm : LayerNormW -> list scalar -> list scalar;
  (** the weights of an [nn.Linear] and its action on one vector *)
  LinearW : Type;
  linear : LinearW -> list scalar -> list scalar;
  (** [flash_attn_qkvpacked_func(qkv, dropout_p, softmax_scale, causal)],
      a function of its arguments: exact for [dropout_p] = 0; with a
      positive [dropout_p] the kernel drops at random in every mode. On
      one batch element: [qkv] of shape (seqlen, 3, nheads, headdim), the
      result of shape (seqlen, nheads, headdim) *)
  flash_attn_qkvpacked_func :
    list (list (list (list scalar))) -> scalar -> scalar -> bool ->
    list (list (list scalar))
}.

(** A vector (last dimension), the tokens of one batch element (n, d), and
    a batch of them (b, n, d). *)
Abbreviation vec := (list scalar).
Abbreviation tokens := (list (list scalar)).
Abbreviation batch := (list (list (list scalar))).

Section Tensors.
Context `{K : Kernels}.

Definition vec_add (u v : vec) : vec := zip_with fadd u v.
Definition tokens_add (s t : tokens) : tokens := zip_with vec_add s t.
(** [s + t] for two tensors of shape (b, n, d) *)
Definition batch_add (s t : batch) : batch := zip_with tokens_add s t.
(** [s + t] for [s] of shape (n, d) and [t] of shape (b, n, d) *)
Definition tokens_add_batch (s : tokens) (t : batch) : batch :=
  map (tokens_add s) t.

(** [torch.cat(xs, dim = 1)] for tensors whose leading dimension is the
    batch: the list must not be empty and the batch sizes must agree. *)
Fixpoint torch_cat_dim1 {A} (xs : list (list (list A))) : result (list (list A)) :=
  match xs with
  | [] => Raise RuntimeError
  | [x] => Ok x
  | x :: xs' =>
      y ← torch_cat_dim1 xs';
      if Nat.eqb (length x) (length y) then Ok (zip_with (@app A) x y)
      else Raise RuntimeError
  end.

(** [torch.cat(xs, dim = 0)]: the list must not be empty. *)
Definition torch_cat_dim0 {A} (xs : list (list A)) : result (list A) :=
  match xs with
  | [] => Raise RuntimeError
  | _ => Ok (concat xs)
  end.

(** [torch.stack(xs)]: the list must not be empty. *)
Definition torch_stack {A} (xs : list A) : result (list A) :=
  match xs with
  | [] => Raise RuntimeError
  | _ => Ok xs
  end.

(** [a, b = t] for a tensor [t]: iteration runs over the leading
    dimension, which has to be of size two. *)
Definition unpack2 {A} (t : list A) : result (A * A) :=
  match t with
  | [a; b] => Ok (a, b)
  | _ => Raise ValueError
  end.

(** [v.chunk(k, dim = -1)] on one vector: pieces of size ceil(len / k). *)
Fixpoint pieces (fuel size : nat) (v : vec) : list vec :=
  match fuel with
  | O => []
  | S fuel' =>
      match v with
      | [] => []
      | _ => firstn size v :: pieces fuel' size (skipn size v)
      end
  end.
Definition chunk (k : nat) (v : vec) : list vec :=
  pieces k (Nat.div (length v + k - 1) k) v.
Definition chunk_nth (k i : nat) (v : vec) : vec := nth i (chunk k v) [].

(** [nn.Dropout]: the identity, which is what the module computes for
    probability 0 (the default of both models) in every mode, and in
    evaluation mode for every probability. In training mode with a positive
    probability the module masks at random; the theorems that compare the
    values of two calls therefore assume probability 0, the theorems about
    errors and shapes hold in either mode. *)
Definition nn_Dropout (p : scalar) {A} (x : A) : A := x.

(** [torch.utils.checkpoint.checkpoint(f, x)] returns the value of [f(x)]. *)
Definition checkpoint {A B} (f : A -> B) (x : A) : B := f x.

Record LayerNorm : Type := {
  normalized_shape : Z;
  ln_weights : LayerNormW
}.
Definition LayerNorm_forward (m : LayerNorm) (x : batch) : batch :=
  map (map (layer_norm (ln_weights m))) x.

Record Linear : Type := {
  in_features : Z;
  out_features : Z;
  has_bias : bool;
  lin_weights : LinearW
}.
Definition Linear_forward (m : Linear) (x : batch) : batch :=
  map (map (linear (lin_weights m))) x.

(** [nn.Embedding(num_embeddings, embedding_dim)]: one row per id; an id
    outside the table raises. *)
Record Embedding : Type := {
  num_embeddings : Z;
  embedding_dim : Z;
  emb_weight : list vec
}.
Definition Embedding_lookup (m : Embedding) (id : Z) : result vec :=
  if (0 <=? id) && (id <? num_embeddings m) then
    match nth_error (emb_weight m) (Z.to_nat id) with
    | Some v => Ok v
    | None => Raise IndexError
    end
  else Raise IndexError.
Definition Embedding_forward (m : Embedding) (x : tensor2 Z) : result batch :=
  mapM (mapM (Embedding_lookup m)) (rows x).
End Tensors.

Section Construction.
Context `{K : Kernels}.

(** [nn.Embedding(n, d)]: a table of [n] rows of [d] entries, filled from
    the initial values [w]. A size that is negative or does not fit an
    int64 raises; running out of memory is not modelled. *)
Definition Embedding_init (n d : Z) (w : nat -> nat -> scalar) : result Embedding :=
  if (n <? 0) || (d <? 0) || (int64_max <? n) || (int64_max <? d)
  then Raise RuntimeError
  else Ok {| num_embeddings := n; embedding_dim := d;
             emb_weight := map (fun i => map (w i) (seq 0 (Z.to_nat d)))
                               (seq 0 (Z.to_nat n)) |}.

(** [torch.randn(n, d)] and the like: an (n, d) matrix of initial values. *)
Definition tabulate2 (n d : Z) (w : nat -> nat -> scalar) : list vec :=
  map (fun i => map (w i) (seq 0 (Z.to_nat d))) (seq 0 (Z.to_nat n)).

(** [rearrange(t, 'b n (h d) -> b h n d', h = h)] on one batch element. *)
Definition split_heads (h : nat) (t : tokens) : list tokens :=
  map (fun i => map (fun v => firstn (Nat.div (length v) h)
                                     (skipn (i * Nat.div (length v) h) v)) t)
      (seq 0 h).

(** [rearrange(out, 'b h n d -> b n (h d)')] on one batch element. *)
Fixpoint merge_heads (out : list tokens) : tokens :=
  match out with
  | [] => []
  | [t] => t
  | t :: out' => zip_with (@app scalar) t (merge_heads out')
  end.

Definition dot (u v : vec) : scalar :=
  fold_right fadd fzero (zip_with fmul u v).

(** [einsum('b h i d, b h j d -> b h i j', q, k)] on one head of one batch
    element. *)
Definition einsum_qk (q k : tokens) : tokens :=
  map (fun qi => map (fun kj => dot qi kj) k) q.

(** [einsum('b h i j, b h j d -> b h i d', attn, v)] on one head of one
    batch element. *)
Definition weighted_sum (a : vec) (v : tokens) : vec :=
  fold_right vec_add
             (repeat fzero (length (List.hd [] v)))
             (zip_with (fun aj vj => map (fmul aj) vj) a v).
Definition einsum_av (attn v : tokens) : tokens :=
  map (fun ai => weighted_sum ai v) attn.

(** [torch.stack([q, k, v], dim = 2)] on one batch element: from three
    tensors of shape (h, n, d) to one of shape (h, 3, n, d). *)
Fixpoint stack_qkv (q k v : list tokens) : list (list tokens) :=
  match q, k, v with
  | qh :: q', kh :: k', vh :: v' => [qh; kh; vh] :: stack_qkv q' k' v'
  | _, _, _ => []
  end.
End Construction.

(** ** ft_transformer.py *)

Module ft_transformer.

Module GEGLU.
Section Defs.
Context `{K : Kernels}.
(** [x, gates = x.chunk(2, dim = -1); return x * F.gelu(gates)] *)
Definition forward (x : vec) : vec :=
  let gates := chunk_nth 2 1 x in
  let x := chunk_nth 2 0 x in
  zip_with fmul x (map F_gelu gates).
End Defs.
End GEGLU.

Module FeedForward.
Section Defs.
Context `{K : Kernels}.
(** the [nn.Sequential] built by [FeedForward(dim, mult, dropout)] *)
Record t : Type := {
  norm : LayerNorm;
  proj_in : Linear;
  dropout : scalar;
  proj_out : Linear
}.
Definition init (dim mult : Z) (dropout : scalar)
           (w : LayerNormW * LinearW * LinearW) : t :=
  {| norm := {| normalized_shape := dim; ln_weights := w.1.1 |};
     proj_in := {| in_features := dim; out_features := dim * mult * 2;
                   has_bias := true; lin_weights := w.1.2 |};
     dropout := dropout;
     proj_out := {| in_features := dim * mult; out_features := dim;
                    has_bias := true; lin_weights := w.2 |} |}.
Definition forward (self : t) (x : batch) : batch :=
  let x := LayerNorm_forward (norm self) x in
  let x := Linear_forward (proj_in self) x in
  let x := map (map GEGLU.forward) x in
  let x := nn_Dropout (dropout self) x in
  Linear_forward (proj_out self) x.
End Defs.
End FeedForward.

Module Attention.
Section Defs.
Context `{K : Kernels}.
Record t : Type := {
  heads : Z;
  scale : scalar;
  norm : LayerNorm;
  to_qkv : Linear;
  to_out : Linear;
  dropout : scalar;
  use_flash_attn : bool
}.
(** [__init__]: the fields of the module. [dim_head ** -0.5] is taken from
    the kernels; the error that Python raises for [dim_head] = 0 and the
    errors of [nn.Linear] on negative sizes are outside this model, which
    is why a successful construction is a hypothesis of the theorems and a
    conclusion only at concrete configurations with positive sizes. *)
Definition init (dim heads dim_head : Z) (dropout : scalar)
           (use_flash_attn : bool) (w : LayerNormW * LinearW * LinearW) : t :=
  let inner_dim := dim_head * heads in
  {| heads := heads;
     scale := pow_neg_half dim_head;
     norm := {| normalized_shape := dim; ln_weights := w.1.1 |};
     to_qkv := {| in_features := dim; out_features := inner_dim * 3;
                  has_bias := false; lin_weights := w.1.2 |};
     to_out := {| in_features := inner_dim; out_features := dim;
                  has_bias := false; lin_weights := w.2 |};
     dropout := dropout;
     use_flash_attn := use_flash_attn |}.

(** The body of [forward] on one batch element: every operation of the
    method acts on each element of the leading dimension separately. *)
Definition attend (self : t) (x : tokens) : tokens :=
  let h := Z.to_nat (heads self) in
  let x := map (layer_norm (ln_weights (norm self))) x in
  let qkv := map (linear (lin_weights (to_qkv self))) x in
  let q := split_heads h (map (chunk_nth 3 0) qkv) in
  let k := split_heads h (map (chunk_nth 3 1) qkv) in
  let v := split_heads h (map (chunk_nth 3 2) qkv) in
  let out :=
    if use_flash_attn self then
      merge_heads
        (flash_attn_qkvpacked_func (stack_qkv q k v) (dropout self)
                                   (scale self) false)
    else
      let sim := zip_with (fun qh kh =>
                   map (map (fun s => fmul s (scale self))) (einsum_qk qh kh)) q k in
      let attn := map (map softmax) sim in
      let attn := nn_Dropout (dropout self) attn in
      merge_heads (zip_with einsum_av attn v)
  in
  map (linear (lin_weights (to_out self))) out.

(** [forward(self, x, return_attn = False)]: the flag is accepted and
    never read; the one value returned is [self.to_out(out)], of shape
    (b, n, dim). Splitting the last dimension into [h] heads fails for
    [h <= 0]. *)
Definition forward (self : t) (x : batch) (return_attn : bool) : result batch :=
  if heads self <=? 0 then Raise RuntimeError
  else Ok (map (attend self) x).
End Defs.
End Attention.

Module Transformer.
Section Defs.
Context `{K : Kernels}.
Record t : Type := {
  layers : list (Attention.t * FeedForward.t);
  checkpoint_grads : bool
}.
Definition init (dim depth heads dim_head : Z) (attn_dropout ff_dropout : scalar)
           (checkpoint_grads use_flash_attn : bool)
           (w : nat -> (LayerNormW * LinearW * LinearW) * (LayerNormW * LinearW * LinearW))
  : t :=
  {| layers :=
       map (fun i =>
              (Attention.init dim heads dim_head attn_dropout use_flash_attn (w i).1,
               FeedForward.init dim 4 ff_dropout (w i).2))
           (seq 0 (Z.to_nat depth));
     checkpoint_grads := checkpoint_grads |}.

(** What [forward] returns: [x], or the pair [(x, torch.stack(...))]. The
    entries of [post_softmax_attns] are what unpacking the value of
    [attn(...)] yields as its second component: slices of shape
    (n, dim) of the attention block's output. *)
Inductive out : Type :=
| Hidden (x : batch)
| HiddenAttns (x : batch) (attns : list tokens).

(** One round of the loop [for attn, ff in self.layers]. *)
Definition layer (self : t) (return_attn : bool)
           (st : batch * list tokens) (l : Attention.t * FeedForward.t)
  : result (batch * list tokens) :=
  let '(x, post_softmax_attns) := st in
  let '(attn, ff) := l in
  if return_attn then
    r ← Attention.forward attn x true;
    '(attn_out, post_softmax_attn) ← unpack2 r;
    let post_softmax_attns := post_softmax_attns ++ [post_softmax_attn] in
    if checkpoint_grads self then
      let x := checkpoint (fun _ : unit => tokens_add_batch attn_out x) tt in
      let x := batch_add (checkpoint (FeedForward.forward ff) x) x in
      Ok (x, post_softmax_attns)
    else
      let x := tokens_add_batch attn_out x in
      let x := batch_add (FeedForward.forward ff x) x in
      Ok (x, post_softmax_attns)
  else
    attn_out ← Attention.forward attn x false;
    if checkpoint_grads self then
      let x := checkpoint (fun _ : unit => batch_add attn_out x) tt in
      let x := batch_add (checkpoint (FeedForward.forward ff) x) x in
      Ok (x, post_softmax_attns)
    else
      let x := batch_add attn_out x in
      let x := batch_add (FeedForward.forward ff x) x in
      Ok (x, post_softmax_attns).

Fixpoint loop (self : t) (return_attn : bool)
         (ls : list (Attention.t * FeedForward.t)) (st : batch * list tokens)
  : result (batch * list tokens) :=
  match ls with
  | [] => Ok st
  | l :: ls' => st' ← layer self return_attn st l; loop self return_attn ls' st'
  end.

Definition forward (self : t) (x : batch) (return_attn : bool) : result out :=
  '(x, post_softmax_attns) ← loop self return_attn (layers self) (x, []);
  if negb return_attn then Ok (Hidden x)
  else
    stacked ← torch_stack post_softmax_attns;
    Ok (HiddenAttns x stacked).
End Defs.
End Transformer.

Module NumericalEmbedder.
Section Defs.
Context `{K : Kernels}.
Record t : Type := {
  weights : list vec;
  biases : list vec
}.
(** two parameters of shape (num_numerical_types, dim), from [torch.randn] *)
Definition init (dim num_numerical_types : Z)
           (w : (nat -> nat -> scalar) * (nat -> nat -> scalar)) : t :=
  {| weights := tabulate2 num_numerical_types dim w.1;
     biases := tabulate2 num_numerical_types dim w.2 |}.

(** [x = rearrange(x, 'b n -> b n 1'); return x * self.weights + self.biases]:
    (b, c, 1) against (n, dim) broadcasts the field dimensions [c] and
    [n] and stretches the trailing 1 over [dim]. *)
Definition forward_row (self : t) (r : list scalar) : tokens :=
  let x := map (fun v => [v]) r in
  let x := broadcast_with (broadcast_with fmul) x (weights self) in
  broadcast_with (broadcast_with fadd) x (biases self).
Definition forward (self : t) (x : tensor2 scalar) : result batch :=
  if broadcastable (shape1 x) (length (weights self))
  then Ok (map (forward_row self) (rows x))
  else Raise RuntimeError.
End Defs.
End NumericalEmbedder.

Module FTTransformer.
Section Defs.
Context `{K : Kernels}.

(** The keyword arguments of [__init__]. *)
Record config : Type := {
  categories : list Z;
  num_continuous : Z;
  dim : Z;
  depth : Z;
  heads : Z;
  dim_head : Z;
  dim_out : Z;
  num_special_tokens : Z;
  attn_dropout : scalar;
  ff_dropout : scalar;
  checkpoint_grads : bool;
  use_flash_attn : bool
}.

(** The initial values of the learned parameters ([torch.randn] and the
    default initialisers of the framework). *)
Record weights : Type := {
  w_categorical_embeds : nat -> nat -> scalar;
  w_numerical_embedder : (nat -> nat -> scalar) * (nat -> nat -> scalar);
  w_cls_token : nat -> scalar;
  w_transformer :
    nat -> (LayerNormW * LinearW * LinearW) * (LayerNormW * LinearW * LinearW);
  w_to_logits : LayerNormW * LinearW
}.

(** The values an attribute of the module can hold. *)
Inductive attr : Type :=
| AInt (z : Z)
| ABuffer (b : list Z)
| AEmbedding (m : Embedding)
| ANumericalEmbedder (m : NumericalEmbedder.t)
| AParameter (p : vec)
| ATransformer (m : Transformer.t)
| ASequential (ln : LayerNorm) (lin : Linear).

(** [self.name]: an attribute that was never set raises. *)
Definition getattr (self : gmap string attr) (name : string) : result attr :=
  match self !! name with
  | Some a => Ok a
  | None => Raise (AttributeError name)
  end.
Definition as_int (a : attr) : result Z :=
  match a with AInt z => Ok z | _ => Raise TypeError end.
Definition as_buffer (a : attr) : result (list Z) :=
  match a with ABuffer b => Ok b | _ => Raise TypeError end.
Definition as_embedding (a : attr) : result Embedding :=
  match a with AEmbedding m => Ok m | _ => Raise TypeError end.
Definition as_numerical_embedder (a : attr) : result NumericalEmbedder.t :=
  match a with ANumericalEmbedder m => Ok m | _ => Raise TypeError end.
Definition as_parameter (a : attr) : result vec :=
  match a with AParameter p => Ok p | _ => Raise TypeError end.
Definition as_transformer (a : attr) : result Transformer.t :=
  match a with ATransformer m => Ok m | _ => Raise TypeError end.
Definition as_sequential (a : attr) : result (LayerNorm * Linear) :=
  match a with ASequential ln lin => Ok (ln, lin) | _ => Raise TypeError end.

(** The offset table of [__init__]:
    [F.pad(torch.tensor(list(categories)), (1, 0), value = num_special_tokens)]
    followed by [.cumsum(dim = -1)[:-1]]. *)
Definition categories_offset (categories : list Z) (num_special_tokens : Z)
  : result (list Z) :=
  t ← torch_tensor categories;
  let categories_offset := F_pad_left t num_special_tokens in
  Ok (drop_last (cumsum categories_offset)).

Definition init (c : config) (w : weights) : result (gmap string attr) :=
  _ ← py_assert (forallb (fun n => 0 <? n) (categories c))
                "number of each category must be positive";
  _ ← py_assert (0 <? py_len (categories c) + num_continuous c)
                "input shape must not be null";
  let self : gmap string attr := ∅ in
  let self := <["num_categories" := AInt (py_len (categories c))]> self in
  let self := <["num_unique_categories" := AInt (py_sum (categories c))]> self in
  let self := <["num_special_tokens" := AInt (num_special_tokens c)]> self in
  let total_tokens := py_sum (categories c) + num_special_tokens c in
  self ←
    (if 0 <? py_sum (categories c) then
       offset ← categories_offset (categories c) (num_special_tokens c);
       let self := <["categories_offset" := ABuffer offset]> self in
       e ← Embedding_init total_tokens (dim c) (w_categorical_embeds w);
       Ok (<["categorical_embeds" := AEmbedding e]> self)
     else Ok self);
  let self := <["num_continuous" := AInt (num_continuous c)]> self in
  let self :=
    if 0 <? num_continuous c then
      <["numerical_embedder" :=
          ANumericalEmbedder
            (NumericalEmbedder.init (dim c) (num_continuous c)
                                    (w_numerical_embedder w))]> self
    else self in
  let self :=
    <["cls_token" := AParameter (map (w_cls_token w) (seq 0 (Z.to_nat (dim c))))]> self in
  let self :=
    <["transformer" :=
        ATransformer
          (Transformer.init (dim c) (depth c) (heads c) (dim_head c)
                            (attn_dropout c) (ff_dropout c)
                            (checkpoint_grads c) (use_flash_attn c)
                            (w_transformer w))]> self in
  let self :=
    <["to_logits" :=
        ASequential {| normalized_shape := dim c; ln_weights := (w_to_logits w).1 |}
                    {| in_features := dim c; out_features := dim_out c;
                       has_bias := true; lin_weights := (w_to_logits w).2 |}]> self in
  Ok self.

(** [x_categ + self.categories_offset]: the global ids *)
Definition offset_codes (self : gmap string attr) (x_categ : tensor2 Z)
  : result (tensor2 Z) :=
  offset ← getattr self "categories_offset" ≫= as_buffer;
  add_offset x_categ offset.

(** [self.categorical_embeds(x_categ)] *)
Definition lookup_codes (self : gmap string attr) (x_categ : tensor2 Z)
  : result batch :=
  categorical_embeds ← getattr self "categorical_embeds" ≫= as_embedding;
  Embedding_forward categorical_embeds x_categ.

(** The embedding steps shared by [forward] and [get_embeddings]: the
    list [xs] of embedded field groups. *)
Definition embed_categ (self : gmap string attr) (x_categ : tensor2 Z)
  : result (list batch) :=
  num_unique_categories ← getattr self "num_unique_categories" ≫= as_int;
  if 0 <? num_unique_categories then
    x_categ ← offset_codes self x_categ;
    x_categ ← lookup_codes self x_categ;
    Ok [x_categ]
  else Ok [].

Definition embed_numer (self : gmap string attr) (x_numer : tensor2 scalar)
  : result (list batch) :=
  num_continuous ← getattr self "num_continuous" ≫= as_int;
  if 0 <? num_continuous then
    numerical_embedder ← getattr self "numerical_embedder" ≫= as_numerical_embedder;
    x_numer ← NumericalEmbedder.forward numerical_embedder x_numer;
    Ok [x_numer]
  else Ok [].

(** [torch.cat((cls_tokens, x), dim = 1)] with the CLS token repeated over
    the batch. *)
Definition prepend_cls (self : gmap string attr) (x : batch) : result batch :=
  cls_token ← getattr self "cls_token" ≫= as_parameter;
  Ok (map (fun t => cls_token :: t) x).

Inductive out : Type :=
| Logits (logits : list vec)
| LogitsAttns (logits : list vec) (attns : list tokens).

(** [x[:, 0]] *)
Definition first_token (x : batch) : result (list vec) :=
  mapM (fun t => match t with v :: _ => Ok v | [] => Raise IndexError end) x.

Definition forward (self : gmap string attr) (x_categ : tensor2 Z)
           (x_numer : tensor2 scalar) (return_attn : bool) : result out :=
  num_categories ← getattr self "num_categories" ≫= as_int;
  _ ← py_assert (Z.of_nat (shape1 x_categ) =? num_categories)
                ("you must pass in " +:+ pretty num_categories
                   +:+ " values for your categories input");
  xs1 ← embed_categ self x_categ;
  xs2 ← embed_numer self x_numer;
  x ← torch_cat_dim1 (xs1 ++ xs2);
  x ← prepend_cls self x;
  transformer ← getattr self "transformer" ≫= as_transformer;
  r ← Transformer.forward transformer x return_attn;
  let to_logits (ln_lin : LayerNorm * Linear) (x : list vec) : list vec :=
    map (fun v => linear (lin_weights ln_lin.2)
                    (map F_relu (layer_norm (ln_weights ln_lin.1) v))) x in
  match r with
  | Transformer.Hidden x =>
      x ← first_token x;
      m ← getattr self "to_logits" ≫= as_sequential;
      Ok (Logits (to_logits m x))
  | Transformer.HiddenAttns x attns =>
      x ← first_token x;
      m ← getattr self "to_logits" ≫= as_sequential;
      Ok (LogitsAttns (to_logits m x) attns)
  end.

(** The body that [get_embeddings] runs on the whole input
    ([batch_size is None]) and on every chunk (the two copies in the
    source differ in the names of their variables only). *)
Definition embed (self : gmap string attr) (x_categ : tensor2 Z)
           (x_cont : tensor2 scalar) : result batch :=
  xs1 ← embed_categ self x_categ;
  xs2 ← embed_numer self x_cont;
  x ← torch_cat_dim1 (xs1 ++ xs2);
  x ← prepend_cls self x;
  transformer ← getattr self "transformer" ≫= as_transformer;
  r ← Transformer.forward transformer x false;
  match r with
  | Transformer.Hidden x => Ok (map (fun t => List.tl t) x)
  | Transformer.HiddenAttns _ _ => Raise TypeError
  end.

Definition get_embeddings (self : gmap string attr) (x_categ : tensor2 Z)
           (x_cont : tensor2 scalar) (batch_size : option Z) : result batch :=
  match batch_size with
  | None => embed self x_categ x_cont
  | Some batch_size =>
      starts ← py_range 0 (Z.of_nat (shape0 x_categ)) batch_size;
      embeddings ←
        mapM (fun i =>
                let start := i in
                let end_ := Z.min (start + batch_size) (Z.of_nat (shape0 x_categ)) in
                let x_categ_batch := slice0 x_categ start end_ in
                let x_cont_batch := slice0 x_cont start end_ in
                embed self x_categ_batch x_cont_batch)
             starts;
      torch_cat_dim0 embeddings
  end.
End Defs.
End FTTransformer.

End ft_transformer.

(** ** tab_transformer_pytorch.py *)

Module tab_transformer_pytorch.

(** [exists(val)] and [default(val, d)] *)
Definition exists_ {A} (val : option A) : bool :=
  match val with Some _ => true | None => false end.
Definition default {A} (val : option A) (d : A) : A :=
  match val with Some v => v | None => d end.

(** The value that flows through the layer loop: a batch of shape
    (b, n, d), or one of its slices of shape (n, d). *)
Inductive hidden `{K : Kernels} : Type :=
| Rank3 (x : batch)
| Rank2 (x : tokens).

Section Hidden.
Context `{K : Kernels}.
Definition hidden_map (f : vec -> vec) (x : hidden) : hidden :=
  match x with
  | Rank3 x => Rank3 (map (map f) x)
  | Rank2 x => Rank2 (map f x)
  end.
(** [x + y] *)
Definition hidden_add (x y : hidden) : hidden :=
  match x, y with
  | Rank3 x, Rank3 y => Rank3 (batch_add x y)
  | Rank2 x, Rank3 y => Rank3 (tokens_add_batch x y)
  | Rank3 x, Rank2 y => Rank3 (map (fun t => tokens_add t y) x)
  | Rank2 x, Rank2 y => Rank2 (tokens_add x y)
  end.
End Hidden.

(** [class Attention] and [class GEGLU] are the same text as in
    ft_transformer.py. *)
Module GEGLU := ft_transformer.GEGLU.
Module Attention := ft_transformer.Attention.

Module FeedForward.
Section Defs.
Context `{K : Kernels}.
Record t : Type := {
  proj_in : Linear;
  dropout : scalar;
  proj_out : Linear
}.
Definition init (dim hidden_dim : Z) (dropout : scalar) (w : LinearW * LinearW) : t :=
  {| proj_in := {| in_features := dim; out_features := hidden_dim;
                   has_bias := true; lin_weights := w.1 |};
     dropout := dropout;
     proj_out := {| in_features := hidden_dim; out_features := dim;
                    has_bias := true; lin_weights := w.2 |} |}.
(** [self.net(x)]: Linear, GELU, Dropout, Linear, Dropout *)
Definition forward (self : t) (x : hidden) : hidden :=
  let x := hidden_map (linear (lin_weights (proj_in self))) x in
  let x := hidden_map (map F_gelu) x in
  let x := nn_Dropout (dropout self) x in
  let x := hidden_map (linear (lin_weights (proj_out self))) x in
  nn_Dropout (dropout self) x.
End Defs.
End FeedForward.

Module PreNorm.
Section Defs.
Context `{K : Kernels}.
Record t (Fn : Type) : Type := {
  norm : LayerNorm;
  fn : Fn
}.
Arguments norm {Fn} _.
Arguments fn {Fn} _.
(** [forward(self, x)] called as [self(x, ** kwargs)]: the method takes no
    keyword argument, so a call that passes one raises; otherwise
    [self.fn(self.norm(x))]. *)
Definition forward {Fn B} (call : Fn -> hidden -> result B) (self : t Fn)
           (x : hidden) (kwargs : list (string * bool)) : result B :=
  match kwargs with
  | [] => call (fn self) (hidden_map (layer_norm (ln_weights (norm self))) x)
  | _ :: _ => Raise TypeError
  end.
End Defs.
Arguments norm {K Fn} _.
Arguments fn {K Fn} _.
End PreNorm.

Module Residual.
Section Defs.
Context `{K : Kernels}.
(** [self.fn(x, ** kwargs) + x] *)
Definition forward (fn : hidden -> list (string * bool) -> result hidden)
           (x : hidden) (kwargs : list (string * bool)) : result hidden :=
  y ← fn x kwargs; Ok (hidden_add y x).
End Defs.
End Residual.

Module Transformer.
Section Defs.
Context `{K : Kernels}.
Record t : Type := {
  layers : list (PreNorm.t Attention.t * PreNorm.t FeedForward.t);
  checkpoint_grads : bool
}.
Definition init (dim depth heads dim_head : Z) (attn_dropout ff_dropout : scalar)
           (ff_hidden_mult : Z) (checkpoint_grads use_flash_attn : bool)
           (w : nat -> (LayerNormW * (LayerNormW * LinearW * LinearW))
                       * (LayerNormW * (LinearW * LinearW)))
  : t :=
  {| layers :=
       map (fun i =>
              ({| PreNorm.norm := {| normalized_shape := dim; ln_weights := (w i).1.1 |};
                  PreNorm.fn := Attention.init dim heads dim_head attn_dropout
                                               use_flash_attn (w i).1.2 |},
               {| PreNorm.norm := {| normalized_shape := dim; ln_weights := (w i).2.1 |};
                  PreNorm.fn := FeedForward.init dim (dim * ff_hidden_mult)
                                                 ff_dropout (w i).2.2 |}))
           (seq 0 (Z.to_nat depth));
     checkpoint_grads := checkpoint_grads |}.

(** [Attention.forward] wants a tensor of shape (b, n, dim). *)
Definition call_attention (a : Attention.t) (x : hidden) : result batch :=
  match x with
  | Rank3 x => Attention.forward a x false
  | Rank2 _ => Raise RuntimeError
  end.
Definition call_feedforward (f : FeedForward.t) (x : hidden) : result hidden :=
  Ok (FeedForward.forward f x).

Inductive out : Type :=
| Hidden (x : hidden)
| HiddenAttns (x : hidden) (attns : list tokens).

(** One round of the loop [for attn, ff in self.layers]. *)
Definition layer (self : t) (return_attn : bool)
           (st : hidden * list tokens)
           (l : PreNorm.t Attention.t * PreNorm.t FeedForward.t)
  : result (hidden * list tokens) :=
  let '(x, post_softmax_attns) := st in
  let '(attn, ff) := l in
  '(x, post_softmax_attns) ←
    (if return_attn then
       r ← PreNorm.forward call_attention attn x [("return_attn", true)];
       '(x, post_softmax_attn) ← unpack2 r;
       Ok (Rank2 x, post_softmax_attns ++ [post_softmax_attn])
     else
       a ← PreNorm.forward call_attention attn x [];
       Ok (hidden_add x (Rank3 a), post_softmax_attns));
  if checkpoint_grads self then
    y ← checkpoint (fun x => PreNorm.forward call_feedforward ff x []) x;
    Ok (hidden_add x y, post_softmax_attns)
  else
    y ← PreNorm.forward call_feedforward ff x [];
    Ok (hidden_add x y, post_softmax_attns).

Fixpoint loop (self : t) (return_attn : bool)
         (ls : list (PreNorm.t Attention.t * PreNorm.t FeedForward.t))
         (st : hidden * list tokens) : result (hidden * list tokens) :=
  match ls with
  | [] => Ok st
  | l :: ls' => st' ← layer self return_attn st l; loop self return_attn ls' st'
  end.

Definition forward (self : t) (x : hidden) (return_attn : bool) : result out :=
  '(x, post_softmax_attns) ← loop self return_attn (layers self) (x, []);
  if negb return_attn then Ok (Hidden x)
  else
    stacked ← torch_stack post_softmax_attns;
    Ok (HiddenAttns x stacked).
End Defs.
End Transformer.

Module MLP.
Section Defs.
Context `{K : Kernels}.
Inductive module : Type :=
| MLinear (l : Linear)
| MAct (act : vec -> vec).
Record t : Type := { mlp : list module }.

(** the loop over [enumerate(dims_pairs)] *)
Fixpoint build (ind : nat) (n_pairs : nat) (dims_pairs : list (Z * Z))
         (act : option (vec -> vec)) (w : nat -> LinearW) : list module :=
  match dims_pairs with
  | [] => []
  | (dim_in, dim_out) :: rest =>
      let is_last := Z.of_nat n_pairs - 1 <=? Z.of_nat ind in
      let linear := MLinear {| in_features := dim_in; out_features := dim_out;
                               has_bias := true; lin_weights := w ind |} in
      if is_last then linear :: build (S ind) n_pairs rest act w
      else
        let act := default act (map F_relu) in
        linear :: MAct act :: build (S ind) n_pairs rest (Some act) w
  end.
Definition init (dims : list Z) (act : option (vec -> vec)) (w : nat -> LinearW) : t :=
  let dims_pairs := zip (removelast dims) (List.tl dims) in
  {| mlp := build 0 (length dims_pairs) dims_pairs act w |}.
Definition apply (m : module) (v : vec) : vec :=
  match m with
  | MLinear l => linear (lin_weights l) v
  | MAct act => act v
  end.
Definition forward (self : t) (x : list vec) : list vec :=
  map (fun v => fold_left (fun v m => apply m v) (mlp self) v) x.
End Defs.
End MLP.

Module TabTransformer.
Section Defs.
Context `{K : Kernels}.

(** The keyword arguments of [__init__]. *)
Record config : Type := {
  categories : list Z;
  num_continuous : Z;
  dim : Z;
  depth : Z;
  heads : Z;
  dim_head : Z;
  dim_out : Z;
  mlp_hidden_mults : list Z;
  mlp_act : option (vec -> vec);
  num_special_tokens : Z;
  continuous_mean_std : option (tensor2 scalar);
  attn_dropout : scalar;
  ff_dropout : scalar;
  use_shared_categ_embed : bool;
  shared_categ_dim_divisor : Z;
  checkpoint_grads : bool;
  use_flash_attn : bool
}.

(** The initial values of the learned parameters. *)
Record weights : Type := {
  w_category_embed : nat -> nat -> scalar;
  w_shared_category_embed : nat -> nat -> scalar;
  w_norm : LayerNormW;
  w_transformer :
    nat -> (LayerNormW * (LayerNormW * LinearW * LinearW))
           * (LayerNormW * (LinearW * LinearW));
  w_mlp : nat -> LinearW
}.

(** The values an attribute of the module can hold. *)
Inductive attr : Type :=
| AInt (z : Z)
| ABool (b : bool)
| ANone
| ABuffer (b : list Z)
| ABuffer2 (b : tensor2 scalar)
| AEmbedding (m : Embedding)
| ANumericalEmbedder (m : ft_transformer.NumericalEmbedder.t)
| AParameter (p : list vec)
| AParameter3 (p : vec)
| ALayerNorm (m : LayerNorm)
| ATransformer (m : Transformer.t)
| AMLP (m : MLP.t).

(** [self.name]: an attribute that was never set raises. *)
Definition getattr (self : gmap string attr) (name : string) : result attr :=
  match self !! name with
  | Some a => Ok a
  | None => Raise (AttributeError name)
  end.
Definition as_int (a : attr) : result Z :=
  match a with AInt z => Ok z | _ => Raise TypeError end.
Definition as_bool (a : attr) : result bool :=
  match a with ABool b => Ok b | _ => Raise TypeError end.
Definition as_buffer (a : attr) : result (list Z) :=
  match a with ABuffer b => Ok b | _ => Raise TypeError end.
Definition as_optional_buffer2 (a : attr) : result (option (tensor2 scalar)) :=
  match a with
  | ABuffer2 b => Ok (Some b)
  | ANone => Ok None
  | _ => Raise TypeError
  end.
Definition as_embedding (a : attr) : result Embedding :=
  match a with AEmbedding m => Ok m | _ => Raise TypeError end.
Definition as_numerical_embedder (a : attr)
  : result ft_transformer.NumericalEmbedder.t :=
  match a with ANumericalEmbedder m => Ok m | _ => Raise TypeError end.
Definition as_parameter (a : attr) : result (list vec) :=
  match a with AParameter p => Ok p | _ => Raise TypeError end.
Definition as_parameter3 (a : attr) : result vec :=
  match a with AParameter3 p => Ok p | _ => Raise TypeError end.
Definition as_layer_norm (a : attr) : result LayerNorm :=
  match a with ALayerNorm m => Ok m | _ => Raise TypeError end.
Definition as_transformer (a : attr) : result Transformer.t :=
  match a with ATransformer m => Ok m | _ => Raise TypeError end.
Definition as_mlp (a : attr) : result MLP.t :=
  match a with AMLP m => Ok m | _ => Raise TypeError end.

(** The offset table of [__init__], the same two lines as in
    ft_transformer.py. *)
Definition categories_offset (categories : list Z) (num_special_tokens : Z)
  : result (list Z) :=
  t ← torch_tensor categories;
  let categories_offset := F_pad_left t num_special_tokens in
  Ok (drop_last (cumsum categories_offset)).

Definition continuous_mean_std_msg (num_continuous : Z) : string :=
  "continuous_mean_std must have a shape of (" +:+ pretty num_continuous
    +:+ ", 2) where the last dimension contains the mean and variance respectively".

Definition init (c : config) (w : weights) : result (gmap string attr) :=
  _ ← py_assert (forallb (fun n => 0 <? n) (categories c))
                "number of each category must be positive";
  _ ← py_assert (0 <? py_len (categories c) + num_continuous c)
                "input shape must not be null";
  let self : gmap string attr := ∅ in
  let self := <["num_categories" := AInt (py_len (categories c))]> self in
  let self := <["num_unique_categories" := AInt (py_sum (categories c))]> self in
  let self := <["num_special_tokens" := AInt (num_special_tokens c)]> self in
  let total_tokens := py_sum (categories c) + num_special_tokens c in
  shared_embed_dim ←
    (if negb (use_shared_categ_embed c) then Ok 0
     else if shared_categ_dim_divisor c =? 0 then Raise ZeroDivisionError
     else Ok (dim c / shared_categ_dim_divisor c));
  e ← Embedding_init total_tokens (dim c - shared_embed_dim) (w_category_embed w);
  let self := <["category_embed" := AEmbedding e]> self in
  let self := <["use_shared_categ_embed" := ABool (use_shared_categ_embed c)]> self in
  self ←
    (if use_shared_categ_embed c then
       if shared_embed_dim <? 0 then Raise RuntimeError
       else Ok (<["shared_category_embed" :=
                    AParameter (tabulate2 (py_len (categories c)) shared_embed_dim
                                          (w_shared_category_embed w))]> self)
     else Ok self);
  self ←
    (if 0 <? py_sum (categories c) then
       offset ← categories_offset (categories c) (num_special_tokens c);
       Ok (<["categories_offset" := ABuffer offset]> self)
     else Ok self);
  let self := <["num_continuous" := AInt (num_continuous c)]> self in
  self ←
    (if 0 <? num_continuous c then
       _ ← match continuous_mean_std c with
           | Some s =>
               py_assert ((Z.of_nat (shape0 s) =? num_continuous c)
                            && Nat.eqb (shape1 s) 2)
                         (continuous_mean_std_msg (num_continuous c))
           | None => Ok tt
           end;
       let self :=
         <["continuous_mean_std" :=
             match continuous_mean_std c with
             | Some s => ABuffer2 s
             | None => ANone
             end]> self in
       Ok (<["norm" := ALayerNorm {| normalized_shape := num_continuous c;
                                     ln_weights := w_norm w |}]> self)
     else Ok self);
  let self :=
    <["transformer" :=
        ATransformer
          (Transformer.init (dim c) (depth c) (heads c) (dim_head c)
                            (attn_dropout c) (ff_dropout c) 2
                            (checkpoint_grads c) (use_flash_attn c)
                            (w_transformer w))]> self in
  let input_size := dim c * py_len (categories c) + num_continuous c in
  let hidden_dimensions := map (fun t => input_size * t) (mlp_hidden_mults c) in
  let all_dimensions := input_size :: hidden_dimensions ++ [dim_out c] in
  let self := <["mlp" := AMLP (MLP.init all_dimensions (mlp_act c) (w_mlp w))]> self in
  Ok self.

Inductive out : Type :=
| Logits (logits : list vec)
| LogitsAttns (logits : list vec) (attns : list tokens).

Definition categories_msg (num_categories : Z) : string :=
  "you must pass in " +:+ pretty num_categories +:+ " values for your categories input".
Definition continuous_msg (num_continuous : Z) : string :=
  "you must pass in " +:+ pretty num_continuous +:+ " values for your continuous input".

(** [rearrange(x, 'b ... -> b (...)')] *)
Definition flatten (x : hidden) : list vec :=
  match x with
  | Rank3 x => map (@concat scalar) x
  | Rank2 x => x
  end.

(** [mean, std = self.continuous_mean_std.unbind(dim = -1)] *)
Definition unbind_mean_std (s : tensor2 scalar) : result (vec * vec) :=
  if Nat.eqb (shape1 s) 2 then
    Ok (map (fun r => nth 0 r fzero) (rows s), map (fun r => nth 1 r fzero) (rows s))
  else Raise ValueError.

(** [(x_cont - mean) / std] for [x_cont] of shape (b, c) and [mean], [std]
    of shape (n) *)
Definition standardize (x_cont : tensor2 scalar) (mean std : vec)
  : result (tensor2 scalar) :=
  if broadcastable (shape1 x_cont) (length mean) then
    Ok (Tensor2 (broadcast_size (shape1 x_cont) (length mean))
                (map (fun r => broadcast_with fdiv (broadcast_with fsub r mean) std)
                     (rows x_cont)))
  else Raise RuntimeError.

(** [x_categ + self.categories_offset]: the global ids *)
Definition offset_codes (self : gmap string attr) (x_categ : tensor2 Z)
  : result (tensor2 Z) :=
  offset ← getattr self "categories_offset" ≫= as_buffer;
  add_offset x_categ offset.

(** [self.category_embed(x_categ)] *)
Definition lookup_codes (self : gmap string attr) (x_categ : tensor2 Z)
  : result batch :=
  category_embed ← getattr self "category_embed" ≫= as_embedding;
  Embedding_forward category_embed x_categ.

(** The categorical half of [forward]: the tokens that went through the
    transformer, flattened, and the attention maps if there are any. *)
Definition forward_categ (self : gmap string attr) (x_categ : tensor2 Z)
           (return_attn : bool) : result (list (list vec) * option (list tokens)) :=
  num_unique_categories ← getattr self "num_unique_categories" ≫= as_int;
  if 0 <? num_unique_categories then
    x_categ ← offset_codes self x_categ;
    categ_embed ← lookup_codes self x_categ;
    use_shared_categ_embed ← getattr self "use_shared_categ_embed" ≫= as_bool;
    categ_embed ←
      (if (use_shared_categ_embed : bool) then
         shared_category_embed ← getattr self "shared_category_embed" ≫= as_parameter;
         if Nat.eqb (shape1 x_categ) (length shared_category_embed) then
           Ok (map (fun t => zip_with (@app scalar) t shared_category_embed) categ_embed)
         else Raise RuntimeError
       else Ok categ_embed);
    transformer ← getattr self "transformer" ≫= as_transformer;
    r ← Transformer.forward transformer (Rank3 categ_embed) return_attn;
    match r with
    | Transformer.Hidden x => Ok ([flatten x], None)
    | Transformer.HiddenAttns x attns => Ok ([flatten x], Some attns)
    end
  else Ok ([], None).

(** The continuous half of [forward]. *)
Definition forward_cont (self : gmap string attr) (x_cont : tensor2 scalar)
  : result (list (list vec)) :=
  num_continuous ← getattr self "num_continuous" ≫= as_int;
  _ ← py_assert (Z.of_nat (shape1 x_cont) =? num_continuous)
                (continuous_msg num_continuous);
  if 0 <? num_continuous then
    continuous_mean_std ← getattr self "continuous_mean_std" ≫= as_optional_buffer2;
    x_cont ←
      (match continuous_mean_std with
       | Some s =>
           '(mean, std) ← unbind_mean_std s;
           standardize x_cont mean std
       | None => Ok x_cont
       end);
    norm ← getattr self "norm" ≫= as_layer_norm;
    Ok [map (layer_norm (ln_weights norm)) (rows x_cont)]
  else Ok [].

Definition forward (self : gmap string attr) (x_categ : tensor2 Z)
           (x_cont : tensor2 scalar) (return_attn : bool) : result out :=
  num_categories ← getattr self "num_categories" ≫= as_int;
  _ ← py_assert (Z.of_nat (shape1 x_categ) =? num_categories)
                (categories_msg num_categories);
  '(xs1, attns) ← forward_categ self x_categ return_attn;
  xs2 ← forward_cont self x_cont;
  x ← torch_cat_dim1 (xs1 ++ xs2);
  mlp ← getattr self "mlp" ≫= as_mlp;
  let logits := MLP.forward mlp x in
  if negb return_attn then Ok (Logits logits)
  else
    match attns with
    | Some attns => Ok (LogitsAttns logits attns)
    | None => Raise (UnboundLocalError "attns")
    end.

(** The body that [get_embeddings] runs on the whole input and on every
    chunk: the same text as in ft_transformer.py, reading
    [categorical_embeds], [numerical_embedder] and [cls_token]. *)
Definition embed (self : gmap string attr) (x_categ : tensor2 Z)
           (x_cont : tensor2 scalar) : result hidden :=
  num_unique_categories ← getattr self "num_unique_categories" ≫= as_int;
  xs1 ←
    (if 0 <? num_unique_categories then
       offset ← getattr self "categories_offset" ≫= as_buffer;
       x_categ ← add_offset x_categ offset;
       categorical_embeds ← getattr self "categorical_embeds" ≫= as_embedding;
       x_categ ← Embedding_forward categorical_embeds x_categ;
       Ok [x_categ]
     else Ok []);
  num_continuous ← getattr self "num_continuous" ≫= as_int;
  xs2 ←
    (if 0 <? num_continuous then
       numerical_embedder ← getattr self "numerical_embedder" ≫= as_numerical_embedder;
       x_cont ← ft_transformer.NumericalEmbedder.forward numerical_embedder x_cont;
       Ok [x_cont]
     else Ok []);
  x ← torch_cat_dim1 (xs1 ++ xs2);
  cls_token ← getattr self "cls_token" ≫= as_parameter3;
  let x := map (fun t => cls_token :: t) x in
  transformer ← getattr self "transformer" ≫= as_transformer;
  r ← Transformer.forward transformer (Rank3 x) false;
  match r with
  | Transformer.Hidden (Rank3 x) => Ok (Rank3 (map (fun t => List.tl t) x))
  | Transformer.Hidden (Rank2 x) => Ok (Rank2 (map (fun t => List.tl t) x))
  | Transformer.HiddenAttns _ _ => Raise TypeError
  end.

(** [torch.cat(embeddings, dim = 0)] *)
Definition cat_hidden (embeddings : list hidden) : result hidden :=
  match embeddings with
  | [] => Raise RuntimeError
  | Rank3 _ :: _ =>
      xs ← mapM (fun e => match e with Rank3 y => Ok y | Rank2 _ => Raise RuntimeError end)
                embeddings;
      Ok (Rank3 (concat xs))
  | Rank2 _ :: _ =>
      xs ← mapM (fun e => match e with Rank2 y => Ok y | Rank3 _ => Raise RuntimeError end)
                embeddings;
      Ok (Rank2 (concat xs))
  end.

Definition get_embeddings (self : gmap string attr) (x_categ : tensor2 Z)
           (x_cont : tensor2 scalar) (batch_size : option Z) : result hidden :=
  match batch_size with
  | None => embed self x_categ x_cont
  | Some batch_size =>
      starts ← py_range 0 (Z.of_nat (shape0 x_categ)) batch_size;
      embeddings ←
        mapM (fun i =>
                let start := i in
                let end_ := Z.min (start + batch_size) (Z.of_nat (shape0 x_categ)) in
                let x_categ_batch := slice0 x_categ start end_ in
                let x_cont_batch := slice0 x_cont start end_ in
                embed self x_categ_batch x_cont_batch)
             starts;
      cat_hidden embeddings
  end.
End Defs.
End TabTransformer.

End tab_transformer_pytorch.

(** ** A small instance of the kernels, for running the model

    Scalars are integers; a LayerNorm leaves a vector as it is; a Linear
    layer of [n] output features maps a vector to [n] small entries derived
    from its sum; the fused kernel returns the values [v]. *)

Module Toy.
#[export] Instance kernels : Kernels := {|
  scalar := Z;
  fzero := 0;
  fadd := fun a b => (a + b) mod 1000;
  fsub := fun a b => (a - b) mod 1000;
  fmul := fun a b => (a * b) mod 1000;
  fdiv := Z.div;
  pow_neg_half := fun _ => 1;
  F_gelu := fun x => x;
  F_relu := fun x => Z.max 0 x;
  softmax := fun v => map (fun x => x mod 10) v;
  LayerNormW := unit;
  layer_norm := fun _ v => v;
  LinearW := nat;
  linear := fun n v => map (fun j => (fold_right Z.add 0 v + Z.of_nat j) mod 100) (seq 0 n);
  flash_attn_qkvpacked_func := fun qkv _ _ _ => map (fun l => nth 2 l []) qkv
|}.

(** Initial weights for a model of width [dim], [heads] heads of width
    [dim_head], and [dim_out] outputs. *)
Definition ft_weights (dim heads dim_head dim_out : nat)
  : ft_transformer.FTTransformer.weights :=
  {| ft_transformer.FTTransformer.w_categorical_embeds := fun i j => Z.of_nat (10 * i + j);
     ft_transformer.FTTransformer.w_numerical_embedder :=
       (fun i j => Z.of_nat (i + j + 1), fun i j => Z.of_nat (100 * i + j));
     ft_transformer.FTTransformer.w_cls_token := fun j => Z.of_nat j;
     ft_transformer.FTTransformer.w_transformer := fun _ =>
       ((tt, (3 * heads * dim_head)%nat, dim), (tt, (8 * dim)%nat, dim));
     ft_transformer.FTTransformer.w_to_logits := (tt, dim_out) |}.

Definition tab_weights (dim heads dim_head : nat) (mlp_out : nat -> nat)
  : tab_transformer_pytorch.TabTransformer.weights :=
  {| tab_transformer_pytorch.TabTransformer.w_category_embed :=
       fun i j => Z.of_nat (10 * i + j);
     tab_transformer_pytorch.TabTransformer.w_shared_category_embed :=
       fun i j => Z.of_nat (i + j);
     tab_transformer_pytorch.TabTransformer.w_norm := tt;
     tab_transformer_pytorch.TabTransformer.w_transformer := fun _ =>
       ((tt, (tt, (3 * heads * dim_head)%nat, dim)), (tt, ((2 * dim)%nat, dim)));
     tab_transformer_pytorch.TabTransformer.w_mlp := mlp_out |}.
End Toy.

(** * Vocabulary of the statements *)

Module FT := ft_transformer.FTTransformer.
Module Tab := tab_transformer_pytorch.TabTransformer.


(** ** The offset table as the specification describes it *)

(** Either of the two models: what it is built from, and what is built. *)
Inductive model_config `{K : Kernels} : Type :=
| FTConfig (c : FT.config) (w : FT.weights)
| TabConfig (c : Tab.config) (w : Tab.weights).

Inductive model `{K : Kernels} : Type :=
| FTModel (self : gmap string FT.attr)
| TabModel (self : gmap string Tab.attr).

Section Models.
Context `{K : Kernels}.

Definition construct (mc : model_config) : result model :=
  match mc with
  | FTConfig c w => FTModel <$> FT.init c w
  | TabConfig c w => TabModel <$> Tab.init c w
  end.

Definition categories_of (mc : model_config) : list Z :=
  match mc with
  | FTConfig c _ => FT.categories c
  | TabConfig c _ => Tab.categories c
  end.
Definition num_continuous_of (mc : model_config) : Z :=
  match mc with
  | FTConfig c _ => FT.num_continuous c
  | TabConfig c _ => Tab.num_continuous c
  end.
Definition num_special_tokens_of (mc : model_config) : Z :=
  match mc with
  | FTConfig c _ => FT.num_special_tokens c
  | TabConfig c _ => Tab.num_special_tokens c
  end.

(** The buffer [categories_offset] of a model, if it has one. *)
Definition categories_offset_of (m : model) : option (list Z) :=
  match m with
  | FTModel self =>
      match self !! "categories_offset" with Some (FT.ABuffer b) => Some b | _ => None end
  | TabModel self =>
      match self !! "categories_offset" with Some (Tab.ABuffer b) => Some b | _ => None end
  end.

(** The global ids and the table lookup of [forward]. *)
Definition offset_codes_of (m : model) (x_categ : tensor2 Z) : result (tensor2 Z) :=
  match m with
  | FTModel self => FT.offset_codes self x_categ
  | TabModel self => Tab.offset_codes self x_categ
  end.
Definition lookup_codes_of (m : model) (ids : tensor2 Z) : result batch :=
  match m with
  | FTModel self => FT.lookup_codes self ids
  | TabModel self => Tab.lookup_codes self ids
  end.

(** [forward] of either model: the logits, and the attention maps when
    the call returns a pair. *)
Definition forward_of (m : model) (x_categ : tensor2 Z) (x_cont : tensor2 scalar)
           (return_attn : bool) : result (list vec * option (list tokens)) :=
  match m with
  | FTModel self =>
      r ← FT.forward self x_categ x_cont return_attn;
      match r with
      | FT.Logits l => Ok (l, None)
      | FT.LogitsAttns l a => Ok (l, Some a)
      end
  | TabModel self =>
      r ← Tab.forward self x_categ x_cont return_attn;
      match r with
      | Tab.Logits l => Ok (l, None)
      | Tab.LogitsAttns l a => Ok (l, Some a)
      end
  end.
End Models.

(** offset[0] = num_special_tokens, offset[i] = offset[i-1] + cardinality[i-1] *)
Fixpoint offset_table (num_special_tokens : Z) (categories : list Z) : list Z :=
  match categories with
  | [] => []
  | c :: cs => num_special_tokens :: offset_table (num_special_tokens + c) cs
  end.

(** The number of rows of the shared embedding table. *)
Definition total_tokens (categories : list Z) (num_special_tokens : Z) : Z :=
  py_sum categories + num_special_tokens.

(** Every raw code of a row lies in [0, cardinality) of its field. *)
Definition valid_codes (categories : list Z) (row : list Z) : Prop :=
  Forall2 (fun code card => 0 <= code < card) row categories.

(** What [FTTransformer.__init__] leaves in [self] when it returns. *)
Record ft_constructed `{K : Kernels} (c : FT.config) (w : FT.weights)
       (self : gmap string FT.attr) : Prop := {
  ftc_positive : forallb (fun n => 0 <? n) (FT.categories c) = true;
  ftc_not_null : 0 < py_len (FT.categories c) + FT.num_continuous c;
  ftc_num_categories :
    self !! "num_categories" = Some (FT.AInt (py_len (FT.categories c)));
  ftc_num_unique_categories :
    self !! "num_unique_categories" = Some (FT.AInt (py_sum (FT.categories c)));
  ftc_num_continuous :
    self !! "num_continuous" = Some (FT.AInt (FT.num_continuous c));
  ftc_categ :
    if 0 <? py_sum (FT.categories c) then
      exists offset e,
        FT.categories_offset (FT.categories c) (FT.num_special_tokens c) = Ok offset /\
        Embedding_init (py_sum (FT.categories c) + FT.num_special_tokens c) (FT.dim c)
                       (FT.w_categorical_embeds w) = Ok e /\
        self !! "categories_offset" = Some (FT.ABuffer offset) /\
        self !! "categorical_embeds" = Some (FT.AEmbedding e)
    else
      self !! "categories_offset" = None /\ self !! "categorical_embeds" = None;
  ftc_numerical_embedder :
    self !! "numerical_embedder" =
      if 0 <? FT.num_continuous c then
        Some (FT.ANumericalEmbedder
                (ft_transformer.NumericalEmbedder.init
                   (FT.dim c) (FT.num_continuous c) (FT.w_numerical_embedder w)))
      else None;
  ftc_cls_token :
    self !! "cls_token" =
      Some (FT.AParameter (map (FT.w_cls_token w) (seq 0 (Z.to_nat (FT.dim c)))));
  ftc_transformer :
    self !! "transformer" =
      Some (FT.ATransformer
              (ft_transformer.Transformer.init
                 (FT.dim c) (FT.depth c) (FT.heads c) (FT.dim_head c)
                 (FT.attn_dropout c) (FT.ff_dropout c)
                 (FT.checkpoint_grads c) (FT.use_flash_attn c) (FT.w_transformer w)));
  ftc_to_logits : exists ln lin, self !! "to_logits" = Some (FT.ASequential ln lin)
}.

(** What [TabTransformer.__init__] leaves in [self] when it returns. *)
Record tab_constructed `{K : Kernels} (c : Tab.config) (w : Tab.weights)
       (self : gmap string Tab.attr) : Prop := {
  tbc_positive : forallb (fun n => 0 <? n) (Tab.categories c) = true;
  tbc_not_null : 0 < py_len (Tab.categories c) + Tab.num_continuous c;
  tbc_num_categories :
    self !! "num_categories" = Some (Tab.AInt (py_len (Tab.categories c)));
  tbc_num_unique_categories :
    self !! "num_unique_categories" = Some (Tab.AInt (py_sum (Tab.categories c)));
  tbc_num_continuous :
    self !! "num_continuous" = Some (Tab.AInt (Tab.num_continuous c));
  tbc_category_embed :
    exists d e,
      Embedding_init (py_sum (Tab.categories c) + Tab.num_special_tokens c) d
                     (Tab.w_category_embed w) = Ok e /\
      self !! "category_embed" = Some (Tab.AEmbedding e);
  tbc_use_shared :
    self !! "use_shared_categ_embed" = Some (Tab.ABool (Tab.use_shared_categ_embed c));
  tbc_shared :
    if Tab.use_shared_categ_embed c then
      exists p, self !! "shared_category_embed" = Some (Tab.AParameter p) /\
                length p = length (Tab.categories c)
    else self !! "shared_category_embed" = None;
  tbc_offset :
    if 0 <? py_sum (Tab.categories c) then
      exists offset,
        Tab.categories_offset (Tab.categories c) (Tab.num_special_tokens c) = Ok offset /\
        self !! "categories_offset" = Some (Tab.ABuffer offset)
    else self !! "categories_offset" = None;
  tbc_stats :
    if 0 <? Tab.num_continuous c then
      match Tab.continuous_mean_std c with
      | Some s =>
          Z.of_nat (shape0 s) = Tab.num_continuous c /\ shape1 s = 2%nat /\
          self !! "continuous_mean_std" = Some (Tab.ABuffer2 s)
      | None => self !! "continuous_mean_std" = Some Tab.ANone
      end /\
      exists ln, self !! "norm" = Some (Tab.ALayerNorm ln)
    else self !! "continuous_mean_std" = None /\ self !! "norm" = None;
  tbc_transformer :
    self !! "transformer" =
      Some (Tab.ATransformer
              (tab_transformer_pytorch.Transformer.init
                 (Tab.dim c) (Tab.depth c) (Tab.heads c) (Tab.dim_head c)
                 (Tab.attn_dropout c) (Tab.ff_dropout c) 2
                 (Tab.checkpoint_grads c) (Tab.use_flash_attn c) (Tab.w_transformer w)));
  tbc_mlp : exists m, self !! "mlp" = Some (Tab.AMLP m);
  tbc_categorical_embeds : self !! "categorical_embeds" = None;
  tbc_numerical_embedder : self !! "numerical_embedder" = None;
  tbc_cls_token : self !! "cls_token" = None
}.

(** The layer stack as the specification describes it: for each layer in
    order, x = x + Attention(x), then x = x + FeedForward(x). *)
Section ResidualStack.
Context `{K : Kernels}.

Definition ft_residual_stack
           (layers : list (ft_transformer.Attention.t * ft_transformer.FeedForward.t))
           (x : batch) : batch :=
  fold_left (fun x l =>
               let x := batch_add (map (ft_transformer.Attention.attend l.1) x) x in
               batch_add (ft_transformer.FeedForward.forward l.2 x) x)
            layers x.

Definition tab_attention (l : tab_transformer_pytorch.PreNorm.t
                                tab_transformer_pytorch.Attention.t)
           (x : batch) : batch :=
  map (tab_transformer_pytorch.Attention.attend (tab_transformer_pytorch.PreNorm.fn l))
      (map (map (layer_norm (ln_weights (tab_transformer_pytorch.PreNorm.norm l)))) x).

Definition tab_feedforward (l : tab_transformer_pytorch.PreNorm.t
                                  tab_transformer_pytorch.FeedForward.t)
           (x : batch) : batch :=
  let ff := tab_transformer_pytorch.PreNorm.fn l in
  let x := map (map (layer_norm (ln_weights (tab_transformer_pytorch.PreNorm.norm l)))) x in
  let x := map (map (linear (lin_weights (tab_transformer_pytorch.FeedForward.proj_in ff)))) x in
  let x := map (map (map F_gelu)) x in
  map (map (linear (lin_weights (tab_transformer_pytorch.FeedForward.proj_out ff)))) x.

Definition tab_residual_stack
           (layers : list (tab_transformer_pytorch.PreNorm.t
                             tab_transformer_pytorch.Attention.t
                           * tab_transformer_pytorch.PreNorm.t
                               tab_transformer_pytorch.FeedForward.t))
           (x : batch) : batch :=
  fold_left (fun x l =>
               let x := batch_add x (tab_attention l.1 x) in
               batch_add x (tab_feedforward l.2 x))
            layers x.
End ResidualStack.

Module NE := ft_transformer.NumericalEmbedder.
Module FTT := ft_transformer.Transformer.
Module TabT := tab_transformer_pytorch.Transformer.

(** The embedding extraction of FTTransformer, read one row at a time: what
    [get_embeddings] computes for one row of codes and one row of continuous
    values, once the attributes are resolved and the shapes are checked. *)
Section RowWise.
Context `{K : Kernels}.

(** FeedForward and the layer stack on one batch element *)
Definition ft_feedforward_tokens (f : ft_transformer.FeedForward.t) (t : tokens) : tokens :=
  map (fun v =>
         linear (lin_weights (ft_transformer.FeedForward.proj_out f))
           (ft_transformer.GEGLU.forward
              (linear (lin_weights (ft_transformer.FeedForward.proj_in f))
                 (layer_norm (ln_weights (ft_transformer.FeedForward.norm f)) v)))) t.

Definition ft_example_stack
           (layers : list (ft_transformer.Attention.t * ft_transformer.FeedForward.t))
           (t : tokens) : tokens :=
  fold_left (fun t l =>
               let t := tokens_add (ft_transformer.Attention.attend l.1 t) t in
               tokens_add (ft_feedforward_tokens l.2 t) t)
            layers t.

(** the global ids of one row, looked up in the table *)
Definition categ_row (e : Embedding) (offset : list Z) (row : list Z) : result tokens :=
  mapM (Embedding_lookup e) (broadcast_with add64 row offset).

Definition embed_row_of (self : gmap string FT.attr) (c c' : nat)
  : result (list Z -> list scalar -> result tokens) :=
  num_unique_categories ← FT.getattr self "num_unique_categories" ≫= FT.as_int;
  categ ←
    (if 0 <? num_unique_categories then
       offset ← FT.getattr self "categories_offset" ≫= FT.as_buffer;
       if broadcastable c (length offset) then
         e ← FT.getattr self "categorical_embeds" ≫= FT.as_embedding;
         Ok (Some (categ_row e offset))
       else Raise RuntimeError
     else Ok None);
  num_continuous ← FT.getattr self "num_continuous" ≫= FT.as_int;
  numer ←
    (if 0 <? num_continuous then
       ne ← FT.getattr self "numerical_embedder" ≫= FT.as_numerical_embedder;
       if broadcastable c' (length (ft_transformer.NumericalEmbedder.weights ne)) then
         Ok (Some (ft_transformer.NumericalEmbedder.forward_row ne))
       else Raise RuntimeError
     else Ok None);
  _ ← match categ, numer with
      | None, None => Raise RuntimeError
      | _, _ => Ok tt
      end;
  cls_token ← FT.getattr self "cls_token" ≫= FT.as_parameter;
  transformer ← FT.getattr self "transformer" ≫= FT.as_transformer;
  if forallb (fun l => 0 <? ft_transformer.Attention.heads l.1)
             (ft_transformer.Transformer.layers transformer)
  then
    Ok (fun row srow =>
          x ← match categ with Some f => f row | None => Ok [] end;
          let n := match numer with Some g => g srow | None => [] end in
          Ok (List.tl (ft_example_stack (ft_transformer.Transformer.layers transformer)
                                        (cls_token :: x ++ n))))
  else Raise RuntimeError.

(** Every code of the batch is valid and both inputs have the configured
    widths. *)
Definition valid_input (c : FT.config) (x_categ : tensor2 Z) (x_cont : tensor2 scalar)
  : Prop :=
  shape1 x_categ = length (FT.categories c) /\
  Forall (valid_codes (FT.categories c)) (rows x_categ) /\
  shape1 x_cont = Z.to_nat (FT.num_continuous c).
End RowWise.

(** Example models, on the kernels of [Toy]. *)

Module Examples.
Import Toy.
(** The schema of the specification's example: categories = [3, 5],
    num_continuous = 2, num_special_tokens = 2. *)
Definition ft_config (depth : Z) (use_flash_attn : bool)
  : ft_transformer.FTTransformer.config :=
  {| ft_transformer.FTTransformer.categories := [3; 5];
     ft_transformer.FTTransformer.num_continuous := 2;
     ft_transformer.FTTransformer.dim := 4;
     ft_transformer.FTTransformer.depth := depth;
     ft_transformer.FTTransformer.heads := 2;
     ft_transformer.FTTransformer.dim_head := 2;
     ft_transformer.FTTransformer.dim_out := 1;
     ft_transformer.FTTransformer.num_special_tokens := 2;
     ft_transformer.FTTransformer.attn_dropout := 0;
     ft_transformer.FTTransformer.ff_dropout := 0;
     ft_transformer.FTTransformer.checkpoint_grads := false;
     ft_transformer.FTTransformer.use_flash_attn := use_flash_attn |}.

Definition tab_config (categories : list Z) (num_continuous depth : Z)
           (continuous_mean_std : option (tensor2 Z))
  : tab_transformer_pytorch.TabTransformer.config :=
  {| tab_transformer_pytorch.TabTransformer.categories := categories;
     tab_transformer_pytorch.TabTransformer.num_continuous := num_continuous;
     tab_transformer_pytorch.TabTransformer.dim := 8;
     tab_transformer_pytorch.TabTransformer.depth := depth;
     tab_transformer_pytorch.TabTransformer.heads := 2;
     tab_transformer_pytorch.TabTransformer.dim_head := 2;
     tab_transformer_pytorch.TabTransformer.dim_out := 1;
     tab_transformer_pytorch.TabTransformer.mlp_hidden_mults := [4; 2];
     tab_transformer_pytorch.TabTransformer.mlp_act := None;
     tab_transformer_pytorch.TabTransformer.num_special_tokens := 2;
     tab_transformer_pytorch.TabTransformer.continuous_mean_std := continuous_mean_std;
     tab_transformer_pytorch.TabTransformer.attn_dropout := 0;
     tab_transformer_pytorch.TabTransformer.ff_dropout := 0;
     tab_transformer_pytorch.TabTransformer.use_shared_categ_embed := true;
     tab_transformer_pytorch.TabTransformer.shared_categ_dim_divisor := 8;
     tab_transformer_pytorch.TabTransformer.checkpoint_grads := false;
     tab_transformer_pytorch.TabTransformer.use_flash_attn := false |}.

Definition ft (depth : Z) (use_flash_attn : bool) : model_config :=
  FTConfig (ft_config depth use_flash_attn) (ft_weights 4 2 2 1).
Definition tab (categories : list Z) (num_continuous depth : Z)
           (continuous_mean_std : option (tensor2 Z)) : model_config :=
  TabConfig (tab_config categories num_continuous depth continuous_mean_std)
            (tab_weights 8 2 2 (fun i => match i with O => 72 | 1 => 36 | _ => 1 end)%nat).
End Examples.

(** * Properties *)

(** ** Fallible computations *)

Lemma bind_Ok_inv {A B} (m : result A) (f : A -> result B) (b : B) :
  m ≫= f = Ok b -> exists a, m = Ok a /\ f a = Ok b.
Proof. destruct m as [a|e]; simpl; [eauto | discriminate]. Qed.

(** Running a computation and testing its value in one evaluation. *)
Lemma result_check {A} (r : result A) (p : A -> bool) :
  match r with Ok a => p a | Raise _ => false end = true ->
  exists a, r = Ok a /\ p a = true.
Proof. destruct r as [a|e]; [eauto | discriminate]. Qed.

Lemma py_assert_Ok cond msg : py_assert cond msg = Ok tt -> cond = true.
Proof. unfold py_assert. destruct cond; [reflexivity | discriminate]. Qed.

Lemma mapM_app {A B} (f : A -> result B) (l1 l2 : list A) :
  mapM f (l1 ++ l2) = (y1 ← mapM f l1; y2 ← mapM f l2; Ok (y1 ++ y2)).
Proof.
  induction l1 as [|a l1 IH]; simpl.
  - destruct (mapM f l2); reflexivity.
  - destruct (f a) as [b|e]; simpl; [|reflexivity].
    rewrite IH. destruct (mapM f l1) as [y1|e]; simpl; [|reflexivity].
    destruct (mapM f l2); reflexivity.
Qed.

Lemma mapM_Ok_length {A B} (f : A -> result B) (l : list A) (k : list B) :
  mapM f l = Ok k -> length k = length l.
Proof.
  revert k. induction l as [|a l IH]; simpl; intros k H.
  - injection H as <-. reflexivity.
  - destruct (f a) as [b|e]; simpl in H; [|discriminate].
    destruct (mapM f l) as [k'|e]; simpl in H; [|discriminate].
    injection H as <-. simpl. f_equal. apply IH. reflexivity.
Qed.

Lemma mapM_Ok_Forall {A B} (f : A -> result B) (l : list A) :
  Forall (fun a => is_Ok (f a)) l -> is_Ok (mapM f l).
Proof.
  induction 1 as [|a l [b Hb] _ [k Hk]]; simpl.
  - eexists. reflexivity.
  - rewrite Hb. simpl. rewrite Hk. simpl. eexists. reflexivity.
Qed.

(** ** int64 arithmetic without overflow *)

Lemma wrap64_small z : int64_min <= z <= int64_max -> wrap64 z = z.
Proof.
  unfold wrap64, int64_min, int64_max. intros H.
  rewrite Z.mod_small by lia. lia.
Qed.

Lemma add64_small a b : int64_min <= a + b <= int64_max -> add64 a b = a + b.
Proof. apply wrap64_small. Qed.

Lemma py_sum_cons (c : Z) (l : list Z) : py_sum (c :: l) = c + py_sum l.
Proof. reflexivity. Qed.

Lemma py_sum_nonneg (l : list Z) : forallb (fun n => 0 <? n) l = true -> 0 <= py_sum l.
Proof.
  induction l as [|c l IH]; [intros _; cbv; discriminate|].
  simpl forallb. rewrite py_sum_cons. intros H.
  apply andb_prop in H as [Hc Hl]. apply Z.ltb_lt in Hc.
  specialize (IH Hl). lia.
Qed.

Lemma py_sum_pos (l : list Z) :
  forallb (fun n => 0 <? n) l = true -> l <> [] -> 0 < py_sum l.
Proof.
  destruct l as [|c l]; [congruence|]. simpl forallb. rewrite py_sum_cons.
  intros H _. apply andb_prop in H as [Hc Hl]. apply Z.ltb_lt in Hc.
  apply py_sum_nonneg in Hl. lia.
Qed.

Lemma cumsum_from_exact (acc : Z) (cs : list Z) :
  int64_min <= acc ->
  forallb (fun n => 0 <? n) cs = true ->
  acc + py_sum cs <= int64_max ->
  drop_last (acc :: cumsum_from acc cs) = offset_table acc cs.
Proof.
  revert acc. induction cs as [|c cs IH]; intros acc Hlo Hpos Hhi.
  - reflexivity.
  - simpl in Hpos. apply andb_prop in Hpos as [Hc Hcs]. apply Z.ltb_lt in Hc.
    pose proof (py_sum_nonneg cs Hcs) as Hnn.
    rewrite py_sum_cons in Hhi.
    assert (Hadd : add64 acc c = acc + c) by (apply add64_small; lia).
    change (cumsum_from acc (c :: cs))
      with (add64 acc c :: cumsum_from (add64 acc c) cs).
    rewrite Hadd. unfold drop_last in *.
    change (removelast (acc :: acc + c :: cumsum_from (acc + c) cs))
      with (acc :: removelast (acc + c :: cumsum_from (acc + c) cs)).
    rewrite IH by (assumption || lia). reflexivity.
Qed.

Lemma offset_table_length nst cs : length (offset_table nst cs) = length cs.
Proof. revert nst. induction cs; intros; simpl; auto. Qed.

Lemma offset_table_lookup nst cs i :
  (i < length cs)%nat ->
  offset_table nst cs !! i = Some (nst + py_sum (take i cs)).
Proof.
  revert nst i. induction cs as [|c cs IH]; intros nst i Hi; simpl in Hi; [lia|].
  destruct i as [|i].
  - simpl. f_equal. change (py_sum []) with 0. lia.
  - simpl offset_table. simpl take. rewrite py_sum_cons.
    change ((nst :: offset_table (nst + c) cs) !! S i)
      with (offset_table (nst + c) cs !! i).
    rewrite IH by lia. f_equal. lia.
Qed.

Lemma py_sum_take_le cs i :
  forallb (fun n => 0 <? n) cs = true -> py_sum (take i cs) <= py_sum cs.
Proof.
  revert i. induction cs as [|c cs IH]; intros i H.
  - destruct i; simpl; lia.
  - destruct i as [|i].
    + apply py_sum_nonneg in H. exact H.
    + simpl take. rewrite !py_sum_cons. simpl in H.
      apply andb_prop in H as [Hc Hcs]. specialize (IH i Hcs). lia.
Qed.

Lemma py_sum_take_S cs i c :
  cs !! i = Some c -> py_sum (take (S i) cs) = py_sum (take i cs) + c.
Proof.
  revert i. induction cs as [|c' cs IH]; intros i H; [discriminate|].
  destruct i as [|i].
  - injection H as ->. rewrite take_0. destruct cs; cbn; lia.
  - change ((c' :: cs) !! S i) with (cs !! i) in H. specialize (IH i H).
    change (take (S (S i)) (c' :: cs)) with (c' :: take (S i) cs).
    change (take (S i) (c' :: cs)) with (c' :: take i cs).
    rewrite !py_sum_cons. lia.
Qed.

(** The code's two lines compute the table of the specification, as long as
    the table of [total_tokens] rows can exist at all. *)
Lemma categories_offset_exact (categories : list Z) (nst : Z) :
  forallb (fun n => 0 <? n) categories = true ->
  0 <= nst ->
  total_tokens categories nst <= int64_max ->
  ft_transformer.FTTransformer.categories_offset categories nst
  = Ok (offset_table nst categories).
Proof.
  intros Hpos Hnst Htot. unfold total_tokens in Htot.
  pose proof (py_sum_nonneg _ Hpos) as Hnn.
  unfold ft_transformer.FTTransformer.categories_offset, torch_tensor.
  assert (Hin : forallb in_int64 categories = true).
  { clear Hnn. induction categories as [|c cs IH]; [reflexivity|].
    simpl in Hpos. apply andb_prop in Hpos as [Hc Hcs]. apply Z.ltb_lt in Hc.
    pose proof (py_sum_nonneg _ Hcs) as Hnn.
    rewrite py_sum_cons in Htot.
    simpl. rewrite IH by (assumption || lia).
    unfold in_int64, int64_min, int64_max in *.
    rewrite andb_true_r. apply andb_true_intro. split; lia. }
  rewrite Hin. simpl. f_equal.
  unfold F_pad_left, cumsum.
  assert (Hw : wrap64 nst = nst).
  { apply wrap64_small. unfold int64_min, int64_max in *. lia. }
  rewrite Hw.
  change (cumsum_from 0 (nst :: categories))
    with (add64 0 nst :: cumsum_from (add64 0 nst) categories).
  assert (Ha : add64 0 nst = nst).
  { unfold add64. rewrite Z.add_0_l. exact Hw. }
  rewrite Ha. apply cumsum_from_exact; [unfold int64_min; lia | assumption | lia].
Qed.

(** ** What the constructors leave behind *)

Section Constructors.
Context `{K : Kernels}.

Lemma FT_init_inv (c : FT.config) (w : FT.weights) (self : gmap string FT.attr) :
  FT.init c w = Ok self -> ft_constructed c w self.
Proof.
  unfold FT.init. intros H.
  apply bind_Ok_inv in H as [[] [Hpos H]]. apply py_assert_Ok in Hpos.
  apply bind_Ok_inv in H as [[] [Hnull H]]. apply py_assert_Ok in Hnull.
  apply Z.ltb_lt in Hnull.
  apply bind_Ok_inv in H as [self1 [Hself1 H]].
  destruct (0 <? py_sum (FT.categories c)) eqn:Hnuc.
  - apply bind_Ok_inv in Hself1 as [offset [Hoff Hself1]].
    apply bind_Ok_inv in Hself1 as [e [He Hself1]].
    injection Hself1 as <-.
    destruct (0 <? FT.num_continuous c) eqn:Hnc; injection H as <-;
      (split; try rewrite Hnuc; try rewrite Hnc; try assumption; try reflexivity;
       [ exists offset, e; repeat split; (assumption || reflexivity)
       | eexists _, _; reflexivity ]).
  - injection Hself1 as <-.
    destruct (0 <? FT.num_continuous c) eqn:Hnc; injection H as <-;
      (split; try rewrite Hnuc; try rewrite Hnc; try assumption; try reflexivity;
       [ split; reflexivity
       | eexists _, _; reflexivity ]).
Qed.

Lemma tabulate2_length (n d : Z) (w : nat -> nat -> scalar) :
  length (tabulate2 n d w) = Z.to_nat n.
Proof. unfold tabulate2. rewrite length_map, length_seq. reflexivity. Qed.

Lemma Tab_init_inv (c : Tab.config) (w : Tab.weights) (self : gmap string Tab.attr) :
  Tab.init c w = Ok self -> tab_constructed c w self.
Proof.
  unfold Tab.init. intros H.
  apply bind_Ok_inv in H as [[] [Hpos H]]. apply py_assert_Ok in Hpos.
  apply bind_Ok_inv in H as [[] [Hnull H]]. apply py_assert_Ok in Hnull.
  apply Z.ltb_lt in Hnull.
  apply bind_Ok_inv in H as [sed [Hsed H]].
  apply bind_Ok_inv in H as [e [He H]].
  apply bind_Ok_inv in H as [self1 [Hself1 H]].
  apply bind_Ok_inv in H as [self2 [Hself2 H]].
  apply bind_Ok_inv in H as [self3 [Hself3 H]].
  injection H as <-.
  assert (Hlen : length (tabulate2 (py_len (Tab.categories c)) sed
                                   (Tab.w_shared_category_embed w))
                 = length (Tab.categories c)).
  { rewrite tabulate2_length. unfold py_len. apply Nat2Z.id. }
  destruct (Tab.use_shared_categ_embed c) eqn:Hshared;
    [ destruct (sed <? 0); [discriminate|] | ];
    injection Hself1 as <-;
    (destruct (0 <? py_sum (Tab.categories c)) eqn:Hnuc;
     [ apply bind_Ok_inv in Hself2 as [offset [Hoff Hself2]] | ];
     injection Hself2 as <-);
    (destruct (0 <? Tab.num_continuous c) eqn:Hnc;
     [ apply bind_Ok_inv in Hself3 as [[] [Hstats Hself3]] | ];
     injection Hself3 as <-).
  all: split; try rewrite Hnuc; try rewrite Hnc; try rewrite Hshared;
    try assumption; try reflexivity.
  all: try (eexists _, e; split; [exact He | reflexivity]).
  all: try (eexists; split; [reflexivity | exact Hlen]).
  all: try (eexists; split; [exact Hoff | reflexivity]).
  all: try (eexists; reflexivity).
  all: try (split; reflexivity).
  all: split; [| eexists; reflexivity].
  all: destruct (Tab.continuous_mean_std c) as [st|]; [|reflexivity].
  all: apply py_assert_Ok in Hstats; apply andb_prop in Hstats as [H0 H1];
    apply Z.eqb_eq in H0; apply Nat.eqb_eq in H1.
  all: repeat split; (assumption || reflexivity).
Qed.
End Constructors.

(** ** The offset table *)

Section Offsets.
Context `{K : Kernels}.

Lemma Tab_categories_offset_eq (categories : list Z) (nst : Z) :
  Tab.categories_offset categories nst = FT.categories_offset categories nst.
Proof. reflexivity. Qed.

Lemma Embedding_init_inv (n d : Z) (w : nat -> nat -> scalar) (e : Embedding) :
  Embedding_init n d w = Ok e ->
  0 <= n <= int64_max /\ num_embeddings e = n /\ length (emb_weight e) = Z.to_nat n.
Proof.
  unfold Embedding_init. intros H.
  destruct (n <? 0) eqn:H1; [discriminate|].
  destruct (d <? 0) eqn:H2; [discriminate|].
  destruct (int64_max <? n) eqn:H3; [discriminate|].
  destruct (int64_max <? d) eqn:H4; [discriminate|].
  simpl in H. injection H as <-. simpl.
  apply Z.ltb_ge in H1, H3. rewrite length_map, length_seq. auto.
Qed.

Lemma fmap_Ok_inv {A B} (f : A -> B) (m : result A) (b : B) :
  f <$> m = Ok b -> exists a, m = Ok a /\ b = f a.
Proof. destruct m as [a|e]; simpl; intros H; [|discriminate]. injection H as <-. eauto. Qed.

(** A constructed model with categorical fields holds the offset table of
    the specification, and a lookup table of [total_tokens] rows. *)
Lemma constructed_offsets (mc : model_config) (m : model) :
  construct mc = Ok m ->
  0 <= num_special_tokens_of mc ->
  categories_of mc <> [] ->
  categories_offset_of m
  = Some (offset_table (num_special_tokens_of mc) (categories_of mc))
  /\ total_tokens (categories_of mc) (num_special_tokens_of mc) <= int64_max
  /\ forallb (fun n => 0 <? n) (categories_of mc) = true.
Proof.
  intros Hc Hnst Hne. destruct mc as [c w|c w]; simpl in *.
  - apply fmap_Ok_inv in Hc as [self [Hinit ->]].
    apply FT_init_inv in Hinit as [Hpos _ _ _ _ Hcat _ _ _ _].
    rewrite (proj2 (Z.ltb_lt _ _) (py_sum_pos _ Hpos Hne)) in Hcat.
    destruct Hcat as [offset [e [Hoff [He [Hlk _]]]]].
    apply Embedding_init_inv in He as [[_ Hmax] _].
    rewrite categories_offset_exact in Hoff by assumption.
    injection Hoff as <-. simpl. rewrite Hlk. auto.
  - apply fmap_Ok_inv in Hc as [self [Hinit ->]].
    apply Tab_init_inv in Hinit as [Hpos _ _ _ _ [d [e [He _]]] _ _ Hoff _ _ _ _ _ _].
    rewrite (proj2 (Z.ltb_lt _ _) (py_sum_pos _ Hpos Hne)) in Hoff.
    destruct Hoff as [offset [Hoff Hlk]].
    apply Embedding_init_inv in He as [[_ Hmax] _].
    rewrite Tab_categories_offset_eq, categories_offset_exact in Hoff by assumption.
    injection Hoff as <-. simpl. rewrite Hlk. auto.
Qed.
End Offsets.

(** C5: for every valid field schema and special-token count, both models
    derive the category offset table as offset[0] = num_special_tokens and
    offset[i] = offset[i-1] + cardinality[i-1]; a model without categorical
    fields has no table. *)
Theorem offset_table_derived `{K : Kernels} (mc : model_config) (m : model) :
  construct mc = Ok m ->
  0 <= num_special_tokens_of mc ->
  forallb (fun n => 0 <? n) (categories_of mc) = true /\
  match categories_of mc with
  | [] => categories_offset_of m = None
  | _ :: _ =>
      exists offset,
        categories_offset_of m = Some offset /\
        length offset = length (categories_of mc) /\
        offset !! 0%nat = Some (num_special_tokens_of mc) /\
        forall (i : nat) (card : Z),
          categories_of mc !! i = Some card ->
          (S i < length (categories_of mc))%nat ->
          exists o, offset !! i = Some o /\ offset !! S i = Some (o + card)
  end.
Proof.
  intros Hc Hnst.
  destruct (categories_of mc) as [|c0 cs] eqn:Hcats.
  - split; [reflexivity|].
    destruct mc as [c w|c w]; simpl in *;
      apply fmap_Ok_inv in Hc as [self [Hinit ->]]; simpl.
    + apply FT_init_inv in Hinit as [_ _ _ _ _ Hcat _ _ _ _].
      rewrite Hcats in Hcat. simpl in Hcat. destruct Hcat as [-> _]. reflexivity.
    + apply Tab_init_inv in Hinit as [_ _ _ _ _ _ _ _ Hoff _ _ _ _ _ _].
      rewrite Hcats in Hoff. simpl in Hoff. rewrite Hoff. reflexivity.
  - destruct (constructed_offsets mc m Hc Hnst) as [Hoff [_ Hpos]];
      [rewrite Hcats; discriminate|].
    rewrite Hcats in Hoff, Hpos. split; [exact Hpos|].
    eexists. split; [exact Hoff|]. split; [apply offset_table_length|].
    split; [reflexivity|].
    intros i card Hi Hlt.
    exists (num_special_tokens_of mc + py_sum (take i (c0 :: cs))).
    rewrite !offset_table_lookup by lia.
    rewrite (py_sum_take_S _ _ _ Hi). split; [reflexivity | f_equal; lia].
Qed.

(** The specification's example: categories = [3, 5] with two special tokens
    gives the offsets [2, 5], in both models. *)
Lemma offset_table_derived_witness :
  (exists m, construct (Examples.ft 1 false) = Ok m /\ categories_offset_of m = Some [2; 5]) /\
  (exists m, construct (Examples.tab [3; 5] 2 1 None) = Ok m
             /\ categories_offset_of m = Some [2; 5]).
Proof.
  split.
  - destruct (result_check (construct (Examples.ft 1 false)) (fun _ => true))
      as (m & E & _); [vm_compute; reflexivity|].
    exists m. split; [exact E|].
    destruct (offset_table_derived (Examples.ft 1 false) m E) as [_ H];
      [cbv; discriminate|].
    destruct H as (offset & -> & Hlen & H0 & Hrec).
    destruct (Hrec 0%nat 3 eq_refl) as (o & Ho & H1); [apply Nat.lt_succ_diag_r|].
    destruct offset as [|a [|b [|? ?]]]; try discriminate.
    injection H0 as ->. injection Ho as <-. injection H1 as ->. reflexivity.
  - destruct (result_check (construct (Examples.tab [3; 5] 2 1 None)) (fun _ => true))
      as (m & E & _); [vm_compute; reflexivity|].
    exists m. split; [exact E|].
    destruct (offset_table_derived (Examples.tab [3; 5] 2 1 None) m E) as [_ H];
      [cbv; discriminate|].
    destruct H as (offset & -> & Hlen & H0 & Hrec).
    destruct (Hrec 0%nat 3 eq_refl) as (o & Ho & H1); [apply Nat.lt_succ_diag_r|].
    destruct offset as [|a [|b [|? ?]]]; try discriminate.
    injection H0 as ->. injection Ho as <-. injection H1 as ->. reflexivity.
Defined.

(** ** Global ids and table lookups *)

Section GlobalIds.
Context `{K : Kernels}.

Lemma broadcast_with_zip {A B C} (f : A -> B -> C) (xs : list A) (ys : list B) :
  length xs = length ys -> broadcast_with f xs ys = zip_with f xs ys.
Proof.
  destruct xs as [|x [|x' xs]], ys as [|y [|y' ys]]; simpl; intros H;
    try discriminate; reflexivity.
Qed.

Lemma offset_ids_in_range (categories : list Z) (nst : Z) (row : list Z) :
  valid_codes categories row ->
  int64_min <= nst ->
  nst + py_sum categories <= int64_max ->
  Forall (fun id => nst <= id < nst + py_sum categories)
         (zip_with add64 row (offset_table nst categories)).
Proof.
  unfold valid_codes. intros Hv. revert nst.
  induction Hv as [|code card row cats Hcode Hv IH]; intros nst Hlo Hhi.
  - constructor.
  - rewrite py_sum_cons in *.
    assert (Hnn : 0 <= py_sum cats).
    { clear -Hv. induction Hv as [|? ? ? ? ? _ IH]; [cbv; discriminate|].
      rewrite py_sum_cons. lia. }
    simpl. constructor.
    + rewrite add64_small by lia. lia.
    + eapply Forall_impl; [apply IH; lia|]. simpl. intros id Hid. lia.
Qed.

Lemma Embedding_forward_in_bounds (e : Embedding) (ids : tensor2 Z) :
  length (emb_weight e) = Z.to_nat (num_embeddings e) ->
  Forall (Forall (fun id => 0 <= id < num_embeddings e)) (rows ids) ->
  is_Ok (Embedding_forward e ids).
Proof.
  intros Hlen Hids. unfold Embedding_forward.
  apply mapM_Ok_Forall. eapply Forall_impl; [exact Hids|].
  intros row Hrow. apply mapM_Ok_Forall. eapply Forall_impl; [exact Hrow|].
  intros id [H0 H1]. unfold Embedding_lookup.
  rewrite (proj2 (Z.leb_le _ _) H0), (proj2 (Z.ltb_lt _ _) H1). simpl.
  destruct (nth_error (emb_weight e) (Z.to_nat id)) as [v|] eqn:E.
  - eexists. reflexivity.
  - apply nth_error_None in E. lia.
Qed.

(** The table a constructed model looks its ids up in has
    [total_tokens] rows. *)
Lemma constructed_lookup (mc : model_config) (m : model) (ids : tensor2 Z) :
  construct mc = Ok m ->
  categories_of mc <> [] ->
  Forall (Forall (fun id => 0 <= id < total_tokens (categories_of mc)
                                                   (num_special_tokens_of mc)))
         (rows ids) ->
  is_Ok (lookup_codes_of m ids).
Proof.
  intros Hc Hne Hids. unfold total_tokens in Hids.
  destruct mc as [c w|c w]; simpl in *;
    apply fmap_Ok_inv in Hc as [self [Hinit ->]]; simpl.
  - apply FT_init_inv in Hinit as [Hpos _ _ _ _ Hcat _ _ _ _].
    rewrite (proj2 (Z.ltb_lt _ _) (py_sum_pos _ Hpos Hne)) in Hcat.
    destruct Hcat as [offset [e [_ [He [_ Hlk]]]]].
    apply Embedding_init_inv in He as [_ [Hn Hlen]].
    unfold FT.lookup_codes, FT.getattr. rewrite Hlk. simpl.
    apply Embedding_forward_in_bounds; rewrite Hn; assumption.
  - apply Tab_init_inv in Hinit as [_ _ _ _ _ [d [e [He Hlk]]] _ _ _ _ _ _ _ _ _].
    apply Embedding_init_inv in He as [_ [Hn Hlen]].
    unfold Tab.lookup_codes, Tab.getattr. rewrite Hlk. simpl.
    apply Embedding_forward_in_bounds; rewrite Hn; assumption.
Qed.

Lemma constructed_offset_codes (mc : model_config) (m : model) (x_categ : tensor2 Z) :
  construct mc = Ok m ->
  0 <= num_special_tokens_of mc ->
  categories_of mc <> [] ->
  shape1 x_categ = length (categories_of mc) ->
  Forall (valid_codes (categories_of mc)) (rows x_categ) ->
  offset_codes_of m x_categ
  = Ok (Tensor2 (length (categories_of mc))
                (map (fun r => zip_with add64 r
                                 (offset_table (num_special_tokens_of mc)
                                               (categories_of mc)))
                     (rows x_categ))).
Proof.
  intros Hc Hnst Hne Hshape Hvalid.
  destruct (constructed_offsets mc m Hc Hnst Hne) as [Hoff _].
  assert (Hadd : add_offset x_categ (offset_table (num_special_tokens_of mc)
                                                  (categories_of mc))
                 = Ok (Tensor2 (length (categories_of mc))
                         (map (fun r => zip_with add64 r
                                 (offset_table (num_special_tokens_of mc)
                                               (categories_of mc)))
                              (rows x_categ)))).
  { unfold add_offset, broadcastable, broadcast_size.
    rewrite offset_table_length, Hshape, Nat.eqb_refl. simpl. f_equal.
    f_equal.
    - destruct (Nat.eqb (length (categories_of mc)) 1) eqn:E; [|reflexivity].
      apply Nat.eqb_eq in E. reflexivity.
    - apply map_ext_Forall. eapply Forall_impl; [exact Hvalid|].
      intros r Hr. apply broadcast_with_zip.
      rewrite offset_table_length. eapply Forall2_length. exact Hr. }
  destruct m as [self|self]; simpl in *.
  - unfold FT.offset_codes, FT.getattr.
    destruct (self !! "categories_offset") as [[]|]; try discriminate.
    injection Hoff as ->. simpl. exact Hadd.
  - unfold Tab.offset_codes, Tab.getattr.
    destruct (self !! "categories_offset") as [[]|]; try discriminate.
    injection Hoff as ->. simpl. exact Hadd.
Qed.
End GlobalIds.



(** ** The numerical field embedder *)

Section NumericalEmbedder.
Context `{K : Kernels}.

Lemma lookup_map {A B} (f : A -> B) (l : list A) (i : nat) :
  map f l !! i = option_map f (l !! i).
Proof.
  revert i. induction l as [|a l IH]; intros [|i]; simpl; try reflexivity.
  apply IH.
Qed.

Lemma lookup_zip_with_Some {A B C} (f : A -> B -> C) (l : list A) (k : list B)
      (i : nat) (a : A) (b : B) :
  l !! i = Some a -> k !! i = Some b -> zip_with f l k !! i = Some (f a b).
Proof.
  revert k i. induction l as [|a' l IH]; intros [|b' k] [|i] Ha Hb;
    try discriminate; simpl in *.
  - congruence.
  - apply IH; assumption.
Qed.

Lemma tabulate2_lookup (n d : Z) (w : nat -> nat -> scalar) (i : nat) (r : vec) :
  tabulate2 n d w !! i = Some r -> r = map (w i) (seq 0 (Z.to_nat d)).
Proof.
  unfold tabulate2. rewrite lookup_map.
  destruct (seq 0 (Z.to_nat n) !! i) as [j|] eqn:E; simpl; [|discriminate].
  intros H. injection H as <-.
  apply lookup_seq in E as [-> _]. reflexivity.
Qed.

(** One row of the embedder, field by field. *)
Lemma forward_row_lookup (self : NE.t) (r : list scalar) (i : nat)
      (v : scalar) (wi bi : vec) :
  length r = length (NE.weights self) ->
  length (NE.weights self) = length (NE.biases self) ->
  length wi = length bi ->
  r !! i = Some v ->
  NE.weights self !! i = Some wi ->
  NE.biases self !! i = Some bi ->
  NE.forward_row self r !! i = Some (zip_with fadd (map (fmul v) wi) bi).
Proof.
  intros Hr Hwb Hlen Hv Hw Hb. unfold NE.forward_row.
  rewrite (broadcast_with_zip _ (map (fun v => [v]) r)) by (rewrite length_map; exact Hr).
  rewrite broadcast_with_zip.
  2:{ rewrite length_zip_with, length_map, Hr, <- Hwb. apply Nat.min_id. }
  erewrite lookup_zip_with_Some; [| |exact Hb].
  2:{ apply lookup_zip_with_Some; [|exact Hw].
      rewrite lookup_map, Hv. reflexivity. }
  f_equal. simpl. apply broadcast_with_zip. rewrite length_map. exact Hlen.
Qed.
End NumericalEmbedder.

(** C10: on a batch of continuous feature vectors (batch x num-fields), the
    output of the numerical embedder for field i is value_i * weight_i +
    bias_i elementwise, with weight_i and bias_i of length dim, and it does
    not depend on the values of the other fields. *)
Theorem numerical_embedder_affine `{K : Kernels} (dim num_numerical_types : Z)
        (w : (nat -> nat -> scalar) * (nat -> nat -> scalar)) (x : tensor2 scalar) :
  shape1 x = Z.to_nat num_numerical_types ->
  wf_tensor2 x ->
  let self := NE.init dim num_numerical_types w in
  exists out,
    NE.forward self x = Ok out /\
    length out = shape0 x /\
    (forall (b i : nat) (row : list scalar) (v : scalar),
        rows x !! b = Some row -> row !! i = Some v ->
        exists weight_i bias_i embedded,
          NE.weights self !! i = Some weight_i /\
          NE.biases self !! i = Some bias_i /\
          length weight_i = Z.to_nat dim /\
          length bias_i = Z.to_nat dim /\
          out !! b = Some embedded /\
          embedded !! i = Some (zip_with fadd (map (fmul v) weight_i) bias_i)) /\
    (forall (x' : tensor2 scalar) (out' : batch) (b i : nat)
            (row row' : list scalar) (v : scalar),
        shape1 x' = Z.to_nat num_numerical_types -> wf_tensor2 x' ->
        NE.forward self x' = Ok out' ->
        rows x !! b = Some row -> rows x' !! b = Some row' ->
        row !! i = Some v -> row' !! i = Some v ->
        (out' !! b) ≫= (fun t => t !! i) = (out !! b) ≫= (fun t => t !! i)).
Proof.
  intros Hshape Hwf self.
  assert (Hlw : length (NE.weights self) = Z.to_nat num_numerical_types)
    by apply tabulate2_length.
  assert (Hlb : length (NE.biases self) = Z.to_nat num_numerical_types)
    by apply tabulate2_length.
  assert (Hfw : forall y : tensor2 scalar,
             shape1 y = Z.to_nat num_numerical_types ->
             NE.forward self y = Ok (map (NE.forward_row self) (rows y))).
  { intros y Hy. unfold NE.forward, broadcastable.
    rewrite Hlw, Hy, Nat.eqb_refl. reflexivity. }
  assert (Hfield : forall (y : tensor2 scalar) (b i : nat) (row : list scalar) (v : scalar),
             shape1 y = Z.to_nat num_numerical_types -> wf_tensor2 y ->
             rows y !! b = Some row -> row !! i = Some v ->
             exists weight_i bias_i,
               NE.weights self !! i = Some weight_i /\
               NE.biases self !! i = Some bias_i /\
               length weight_i = Z.to_nat dim /\
               length bias_i = Z.to_nat dim /\
               NE.forward_row self row !! i
               = Some (zip_with fadd (map (fmul v) weight_i) bias_i)).
  { intros y b i row v Hy Hwfy Hrow Hv.
    assert (Hlen : length row = Z.to_nat num_numerical_types).
    { unfold wf_tensor2 in Hwfy. rewrite Forall_lookup in Hwfy.
      rewrite (Hwfy b row Hrow). exact Hy. }
    assert (Hi : (i < Z.to_nat num_numerical_types)%nat).
    { rewrite <- Hlen. eapply lookup_lt_Some. exact Hv. }
    destruct (lookup_lt_is_Some_2 (NE.weights self) i) as [wi Hwi]; [lia|].
    destruct (lookup_lt_is_Some_2 (NE.biases self) i) as [bi Hbi]; [lia|].
    pose proof (tabulate2_lookup _ _ _ _ _ Hwi) as Ewi.
    pose proof (tabulate2_lookup _ _ _ _ _ Hbi) as Ebi.
    assert (Lwi : length wi = Z.to_nat dim)
      by (rewrite Ewi, length_map, length_seq; reflexivity).
    assert (Lbi : length bi = Z.to_nat dim)
      by (rewrite Ebi, length_map, length_seq; reflexivity).
    exists wi, bi. repeat split; try assumption.
    apply forward_row_lookup; try assumption; lia. }
  exists (map (NE.forward_row self) (rows x)).
  split; [apply Hfw; exact Hshape|].
  split; [apply length_map|].
  split.
  - intros b i row v Hrow Hv.
    destruct (Hfield x b i row v Hshape Hwf Hrow Hv) as (wi & bi & H1 & H2 & H3 & H4 & H5).
    exists wi, bi, (NE.forward_row self row).
    repeat split; try assumption.
    rewrite lookup_map, Hrow. reflexivity.
  - intros x' out' b i row row' v Hshape' Hwf' Hout' Hrow Hrow' Hv Hv'.
    rewrite Hfw in Hout' by exact Hshape'. injection Hout' as <-.
    rewrite !lookup_map, Hrow, Hrow'. simpl.
    destruct (Hfield x b i row v Hshape Hwf Hrow Hv) as (wi & bi & H1 & H2 & _ & _ & H5).
    destruct (Hfield x' b i row' v Hshape' Hwf' Hrow' Hv') as (wi' & bi' & H1' & H2' & _ & _ & H5').
    rewrite H5, H5'. congruence.
Qed.

(** Two fields of width four on the integer kernels: the first field of the
    row [1, 2] is embedded as 1 * weight_0 + bias_0. *)
Lemma numerical_embedder_affine_witness :
  exists out,
    NE.forward (K := Toy.kernels)
               (NE.init (K := Toy.kernels) 4 2
                        (fun i j => Z.of_nat (i + j + 1), fun i j => Z.of_nat (100 * i + j)))
               (Tensor2 2 [[1; 2]]) = Ok out /\
    out = [[[1; 3; 5; 7]; [104; 107; 110; 113]]].
Proof.
  destruct (numerical_embedder_affine (K := Toy.kernels) 4 2
              (fun i j => Z.of_nat (i + j + 1), fun i j => Z.of_nat (100 * i + j))
              (Tensor2 2 [[1; 2]])) as (out & Hout & _).
  - reflexivity.
  - repeat constructor.
  - exists out. split; [exact Hout|].
    vm_compute in Hout. injection Hout as <-. reflexivity.
Defined.

(** ** Validation at construction *)

Section Validation.
Context `{K : Kernels}.




End Validation.




(** ** Shape checks of forward *)

Section ShapeChecks.
Context `{K : Kernels}.

Lemma forward_rejects_categ (mc : model_config) (m : model)
      (x_categ : tensor2 Z) (x_cont : tensor2 scalar) (return_attn : bool) :
  construct mc = Ok m ->
  shape1 x_categ <> length (categories_of mc) ->
  forward_of m x_categ x_cont return_attn
  = Raise (AssertionError ("you must pass in " +:+ pretty (py_len (categories_of mc))
                             +:+ " values for your categories input")).
Proof.
  intros Hc Hshape.
  assert (Hneq : (Z.of_nat (shape1 x_categ) =? py_len (categories_of mc)) = false).
  { apply Z.eqb_neq. unfold py_len. lia. }
  destruct mc as [c w|c w]; simpl in *;
    apply fmap_Ok_inv in Hc as [self [Hinit ->]]; simpl.
  - apply FT_init_inv in Hinit as [_ _ Hn _ _ _ _ _ _ _].
    unfold FT.forward, FT.getattr. rewrite Hn. simpl. rewrite Hneq. reflexivity.
  - apply Tab_init_inv in Hinit as [_ _ Hn _ _ _ _ _ _ _ _ _ _ _ _].
    unfold Tab.forward, Tab.getattr. rewrite Hn. simpl. rewrite Hneq. reflexivity.
Qed.

Lemma Tab_forward_rejects_cont (c : Tab.config) (w : Tab.weights)
      (self : gmap string Tab.attr) (x_categ : tensor2 Z) (x_cont : tensor2 scalar)
      (return_attn : bool) :
  Tab.init c w = Ok self ->
  shape1 x_categ = length (Tab.categories c) ->
  is_Ok (Tab.forward_categ self x_categ return_attn) ->
  Z.of_nat (shape1 x_cont) <> Tab.num_continuous c ->
  Tab.forward self x_categ x_cont return_attn
  = Raise (AssertionError ("you must pass in " +:+ pretty (Tab.num_continuous c)
                             +:+ " values for your continuous input")).
Proof.
  intros Hinit Hshape [[xs1 attns] Hcat] Hneq.
  apply Tab_init_inv in Hinit as [_ _ Hn _ Hnc _ _ _ _ _ _ _ _ _ _].
  unfold Tab.forward, Tab.getattr. rewrite Hn. simpl.
  unfold py_len. rewrite Hshape, Z.eqb_refl. simpl.
  rewrite Hcat. simpl.
  unfold Tab.forward_cont, Tab.getattr. rewrite Hnc. simpl.
  rewrite (proj2 (Z.eqb_neq _ _) Hneq). reflexivity.
Qed.
End ShapeChecks.

(** C7, as the code has it: in both models a categorical input whose
    trailing dimension differs from the configured number of categorical
    fields is rejected with a message naming the expected count, whatever
    the continuous input is; TabTransformer also rejects a continuous input
    of the wrong width, with a message naming the expected count, once the
    categorical half of forward has run. *)
Theorem field_count_checks `{K : Kernels} (mc : model_config) (m : model)
        (x_categ : tensor2 Z) (x_cont : tensor2 scalar) (return_attn : bool) :
  construct mc = Ok m ->
  (shape1 x_categ <> length (categories_of mc) ->
   forward_of m x_categ x_cont return_attn
   = Raise (AssertionError ("you must pass in " +:+ pretty (py_len (categories_of mc))
                              +:+ " values for your categories input"))) /\
  (forall self : gmap string Tab.attr,
      m = TabModel self ->
      shape1 x_categ = length (categories_of mc) ->
      is_Ok (Tab.forward_categ self x_categ return_attn) ->
      Z.of_nat (shape1 x_cont) <> num_continuous_of mc ->
      forward_of m x_categ x_cont return_attn
      = Raise (AssertionError ("you must pass in " +:+ pretty (num_continuous_of mc)
                                 +:+ " values for your continuous input"))).
Proof.
  intros Hc. split.
  - intros Hshape. apply (forward_rejects_categ mc); assumption.
  - intros self -> Hshape Hok Hneq.
    destruct mc as [c w|c w]; simpl in Hc;
      apply fmap_Ok_inv in Hc as [self' [Hinit E]]; [discriminate|].
    injection E as ->. simpl.
    rewrite (Tab_forward_rejects_cont c w self' x_categ x_cont return_attn);
      auto.
Qed.

(** Five fields configured and four passed: both models name the five; and
    TabTransformer names its two continuous fields when three are passed. *)
Lemma field_count_checks_witness :
  (exists m, construct (Examples.ft 1 false) = Ok m /\
     forward_of m (Tensor2 1 [[0]]) (Tensor2 2 [[1; 2]]) false
     = Raise (AssertionError "you must pass in 2 values for your categories input")) /\
  (exists m, construct (Examples.tab [3; 5; 2; 4; 6] 2 1 None) = Ok m /\
     forward_of m (Tensor2 4 [[0; 0; 0; 0]]) (Tensor2 2 [[1; 2]]) false
     = Raise (AssertionError "you must pass in 5 values for your categories input")) /\
  (exists m, construct (Examples.tab [3; 5] 2 1 None) = Ok m /\
     forward_of m (Tensor2 2 [[0; 0]]) (Tensor2 3 [[1; 2; 3]]) false
     = Raise (AssertionError "you must pass in 2 values for your continuous input")).
Proof.
  split; [|split].
  - destruct (result_check (construct (Examples.ft 1 false)) (fun _ => true))
      as (m & E & _); [vm_compute; reflexivity|].
    exists m. split; [exact E|].
    apply (field_count_checks (Examples.ft 1 false) m _ _ _ E). discriminate.
  - destruct (result_check (construct (Examples.tab [3; 5; 2; 4; 6] 2 1 None))
                           (fun _ => true)) as (m & E & _); [vm_compute; reflexivity|].
    exists m. split; [exact E|].
    apply (field_count_checks (Examples.tab [3; 5; 2; 4; 6] 2 1 None) m _ _ _ E).
    discriminate.
  - destruct (result_check (construct (Examples.tab [3; 5] 2 1 None))
                (fun m => match m with
                          | TabModel self =>
                              match Tab.forward_categ self (Tensor2 2 [[0; 0]]) false with
                              | Ok _ => true
                              | Raise _ => false
                              end
                          | FTModel _ => false
                          end)) as (m & E & Hp); [vm_compute; reflexivity|].
    exists m. split; [exact E|].
    destruct m as [self|self]; [discriminate|].
    apply (proj2 (field_count_checks (Examples.tab [3; 5] 2 1 None) (TabModel self)
                    (Tensor2 2 [[0; 0]]) (Tensor2 3 [[1; 2; 3]]) false E) self).
    + reflexivity.
    + reflexivity.
    + destruct (Tab.forward_categ self (Tensor2 2 [[0; 0]]) false) as [r|e];
        [exists r; reflexivity | discriminate].
    + discriminate.
Defined.

(** C7 as stated fails for FTTransformer: its forward does not look at the
    width of the continuous input. Two continuous fields are configured,
    the input has one column, and the call returns logits. *)
Lemma ft_continuous_width_unchecked :
  exists m logits,
    construct (Examples.ft 1 false) = Ok m /\
    num_continuous_of (Examples.ft 1 false) = 2 /\
    shape1 (Tensor2 1 [[7]] : tensor2 Z) = 1%nat /\
    forward_of m (Tensor2 2 [[0; 0]]) (Tensor2 1 [[7]]) false = Ok (logits, None).
Proof.
  destruct (result_check (construct (Examples.ft 1 false))
              (fun m => match forward_of m (Tensor2 2 [[0; 0]]) (Tensor2 1 [[7]]) false with
                        | Ok (_, None) => true
                        | _ => false
                        end)) as (m & E & Hp); [vm_compute; reflexivity|].
  destruct (forward_of m (Tensor2 2 [[0; 0]]) (Tensor2 1 [[7]]) false)
    as [[logits [attns|]]|e] eqn:F; try discriminate.
  exists m, logits. split; [exact E|]. split; [reflexivity|]. split; [reflexivity|exact F].
Qed.

(** ** The layer stack, with and without attention maps *)

Section Capture.
Context `{K : Kernels}.

Lemma unpack2_wrong_length {A} (t : list A) :
  length t <> 2%nat -> unpack2 t = Raise ValueError.
Proof. destruct t as [|a [|b [|c t]]]; simpl; intros H; try reflexivity. lia. Qed.

Lemma FT_attention_forward (a : ft_transformer.Attention.t) (x : batch) (ra : bool) :
  0 < ft_transformer.Attention.heads a ->
  ft_transformer.Attention.forward a x ra
  = Ok (map (ft_transformer.Attention.attend a) x).
Proof.
  intros H. unfold ft_transformer.Attention.forward.
  rewrite (proj2 (Z.leb_gt _ _) H). reflexivity.
Qed.

(** Without attention maps, the loop is the residual stack. *)
Lemma FT_loop_false (t : FTT.t) ls (x : batch) (attns : list tokens) :
  Forall (fun l => 0 < ft_transformer.Attention.heads l.1) ls ->
  FTT.loop t false ls (x, attns) = Ok (ft_residual_stack ls x, attns).
Proof.
  intros H. revert x. induction H as [|[a f] ls Ha _ IH]; intros x.
  - reflexivity.
  - simpl in Ha. simpl. rewrite FT_attention_forward by exact Ha. simpl.
    destruct (FTT.checkpoint_grads t); simpl; apply IH.
Qed.

Lemma FT_forward_false (t : FTT.t) (x : batch) :
  Forall (fun l => 0 < ft_transformer.Attention.heads l.1) (FTT.layers t) ->
  FTT.forward t x false = Ok (FTT.Hidden (ft_residual_stack (FTT.layers t) x)).
Proof.
  intros H. unfold FTT.forward. rewrite FT_loop_false by exact H. reflexivity.
Qed.

(** With attention maps requested, a batch whose size is not two is never
    processed: the value of the attention block cannot be unpacked. *)
Lemma FT_forward_true_raises (t : FTT.t) (x : batch) :
  length x <> 2%nat -> exists e, FTT.forward t x true = Raise e.
Proof.
  intros Hx. unfold FTT.forward.
  destruct (FTT.layers t) as [|[a f] ls]; simpl.
  - eauto.
  - unfold ft_transformer.Attention.forward.
    destruct (ft_transformer.Attention.heads a <=? 0); simpl; [eauto|].
    rewrite unpack2_wrong_length by (rewrite length_map; exact Hx).
    simpl. eauto.
Qed.

(** TabTransformer's stack: its layers are PreNorm wrappers, which take no
    keyword argument. *)
Lemma Tab_forward_true_raises (t : TabT.t) (x : tab_transformer_pytorch.hidden) :
  exists e, TabT.forward t x true = Raise e.
Proof.
  unfold TabT.forward. destruct (TabT.layers t) as [|[a f] ls]; simpl; eauto.
Qed.

Lemma Tab_loop_false (t : TabT.t) ls (x : batch) (attns : list tokens) :
  Forall (fun l => 0 < tab_transformer_pytorch.Attention.heads
                        (tab_transformer_pytorch.PreNorm.fn l.1)) ls ->
  TabT.loop t false ls (tab_transformer_pytorch.Rank3 x, attns)
  = Ok (tab_transformer_pytorch.Rank3 (tab_residual_stack ls x), attns).
Proof.
  intros H. revert x. induction H as [|[a f] ls Ha _ IH]; intros x.
  - reflexivity.
  - simpl in Ha. simpl.
    unfold tab_transformer_pytorch.Attention.forward.
    rewrite (proj2 (Z.leb_gt _ _) Ha). simpl.
    destruct (TabT.checkpoint_grads t); simpl; apply IH.
Qed.

Lemma Tab_forward_false (t : TabT.t) (x : batch) :
  Forall (fun l => 0 < tab_transformer_pytorch.Attention.heads
                        (tab_transformer_pytorch.PreNorm.fn l.1)) (TabT.layers t) ->
  TabT.forward t (tab_transformer_pytorch.Rank3 x) false
  = Ok (TabT.Hidden (tab_transformer_pytorch.Rank3 (tab_residual_stack (TabT.layers t) x))).
Proof.
  intros H. unfold TabT.forward. rewrite Tab_loop_false by exact H. reflexivity.
Qed.
End Capture.

(** ** forward with attention maps requested *)

Section ForwardCapture.
Context `{K : Kernels}.

Lemma torch_cat_dim1_lengths {A} (xs : list (list (list A))) (x : list (list A)) :
  torch_cat_dim1 xs = Ok x ->
  xs <> [] /\ Forall (fun e => length e = length x) xs.
Proof.
  revert x. induction xs as [|a xs IH]; intros x H; [discriminate|].
  split; [discriminate|].
  destruct xs as [|b xs].
  - injection H as <-. repeat constructor.
  - change (torch_cat_dim1 (a :: b :: xs))
      with (y ← torch_cat_dim1 (b :: xs);
            if Nat.eqb (length a) (length y) then Ok (zip_with (@app A) a y)
            else Raise RuntimeError) in H.
    destruct (torch_cat_dim1 (b :: xs)) as [y|e] eqn:E; simpl in H; [|discriminate].
    destruct (Nat.eqb (length a) (length y)) eqn:L; [|discriminate].
    injection H as <-. apply Nat.eqb_eq in L.
    destruct (IH y eq_refl) as [_ Hall].
    assert (Hlen : length (zip_with (@app A) a y) = length y).
    { rewrite length_zip_with. lia. }
    constructor; [lia|].
    eapply Forall_impl; [exact Hall|]. simpl. intros e He. lia.
Qed.

Lemma add_offset_rows (x : tensor2 Z) (offset : list Z) (y : tensor2 Z) :
  add_offset x offset = Ok y -> shape0 y = shape0 x.
Proof.
  unfold add_offset. destruct (broadcastable _ _); [|discriminate].
  intros H. injection H as <-. unfold shape0. simpl. apply length_map.
Qed.

Lemma FT_embed_categ_lengths (self : gmap string FT.attr) (x_categ : tensor2 Z)
      (xs : list batch) :
  FT.embed_categ self x_categ = Ok xs ->
  Forall (fun e => length e = shape0 x_categ) xs.
Proof.
  unfold FT.embed_categ. intros H.
  apply bind_Ok_inv in H as [nuc [_ H]].
  destruct (0 <? nuc); [|injection H as <-; constructor].
  apply bind_Ok_inv in H as [ids [Hids H]].
  apply bind_Ok_inv in H as [emb [Hemb H]].
  injection H as <-. constructor; [|constructor].
  unfold FT.offset_codes in Hids. apply bind_Ok_inv in Hids as [off [_ Hids]].
  apply add_offset_rows in Hids.
  unfold FT.lookup_codes in Hemb. apply bind_Ok_inv in Hemb as [e [_ Hemb]].
  unfold Embedding_forward in Hemb. apply mapM_Ok_length in Hemb.
  unfold shape0 in *. lia.
Qed.

Lemma FT_embed_numer_lengths (self : gmap string FT.attr) (x_numer : tensor2 scalar)
      (xs : list batch) :
  FT.embed_numer self x_numer = Ok xs ->
  Forall (fun e => length e = shape0 x_numer) xs.
Proof.
  unfold FT.embed_numer. intros H.
  apply bind_Ok_inv in H as [nc [_ H]].
  destruct (0 <? nc); [|injection H as <-; constructor].
  apply bind_Ok_inv in H as [ne [_ H]].
  apply bind_Ok_inv in H as [y [Hy H]].
  injection H as <-. constructor; [|constructor].
  unfold NE.forward in Hy. destruct (broadcastable _ _); [|discriminate].
  injection Hy as <-. apply length_map.
Qed.

(** The batch that reaches the transformer has as many elements as the
    inputs have rows. *)
Lemma FT_tokens_length (self : gmap string FT.attr) (x_categ : tensor2 Z)
      (x_numer : tensor2 scalar) (xs1 xs2 : list batch) (x x' : batch) :
  FT.embed_categ self x_categ = Ok xs1 ->
  FT.embed_numer self x_numer = Ok xs2 ->
  torch_cat_dim1 (xs1 ++ xs2) = Ok x ->
  FT.prepend_cls self x = Ok x' ->
  length x' = shape0 x_categ \/ length x' = shape0 x_numer.
Proof.
  intros H1 H2 Hcat Hcls.
  apply FT_embed_categ_lengths in H1. apply FT_embed_numer_lengths in H2.
  apply torch_cat_dim1_lengths in Hcat as [Hne Hall].
  unfold FT.prepend_cls in Hcls. apply bind_Ok_inv in Hcls as [cls [_ Hcls]].
  injection Hcls as <-. rewrite length_map.
  destruct xs1 as [|a xs1].
  - destruct xs2 as [|b xs2]; [exfalso; apply Hne; reflexivity|].
    right. inversion H2; subst. inversion Hall; subst. lia.
  - left. inversion H1; subst. inversion Hall; subst. lia.
Qed.

Lemma FT_model_forward_true_raises (self : gmap string FT.attr)
      (x_categ : tensor2 Z) (x_numer : tensor2 scalar) :
  shape0 x_categ <> 2%nat -> shape0 x_numer <> 2%nat ->
  exists e, FT.forward self x_categ x_numer true = Raise e.
Proof.
  intros Hc Hn. unfold FT.forward.
  destruct (FT.getattr self "num_categories" ≫= FT.as_int) as [n|e]; simpl; [|eauto].
  destruct (py_assert _ _) as [[]|e]; simpl; [|eauto].
  destruct (FT.embed_categ self x_categ) as [xs1|e] eqn:E1; simpl; [|eauto].
  destruct (FT.embed_numer self x_numer) as [xs2|e] eqn:E2; simpl; [|eauto].
  destruct (torch_cat_dim1 (xs1 ++ xs2)) as [x|e] eqn:E3; simpl; [|eauto].
  destruct (FT.prepend_cls self x) as [x'|e] eqn:E4; simpl; [|eauto].
  destruct (FT.getattr self "transformer" ≫= FT.as_transformer) as [t|e]; simpl; [|eauto].
  destruct (FT_forward_true_raises t x') as [e ->]; [|simpl; eauto].
  destruct (FT_tokens_length _ _ _ _ _ _ _ E1 E2 E3 E4) as [-> | ->]; assumption.
Qed.

Lemma Tab_forward_categ_true (self : gmap string Tab.attr) (x_categ : tensor2 Z) :
  (exists e, Tab.forward_categ self x_categ true = Raise e) \/
  Tab.forward_categ self x_categ true = Ok ([], None).
Proof.
  unfold Tab.forward_categ.
  destruct (Tab.getattr self "num_unique_categories" ≫= Tab.as_int) as [n|e];
    simpl; [|eauto].
  destruct (0 <? n); [left | right; reflexivity].
  destruct (Tab.offset_codes self x_categ) as [ids|e]; simpl; [|eauto].
  destruct (Tab.lookup_codes self ids) as [emb|e]; simpl; [|eauto].
  destruct (Tab.getattr self "use_shared_categ_embed" ≫= Tab.as_bool) as [b|e];
    simpl; [|eauto].
  match goal with
  | |- exists e, (mbind _ ?m) = Raise e => destruct m as [emb'|e]; simpl; [|eauto]
  end.
  destruct (Tab.getattr self "transformer" ≫= Tab.as_transformer) as [t|e];
    simpl; [|eauto].
  destruct (Tab_forward_true_raises t (tab_transformer_pytorch.Rank3 emb')) as [e ->].
  simpl. eauto.
Qed.

Lemma Tab_model_forward_true_raises (self : gmap string Tab.attr)
      (x_categ : tensor2 Z) (x_cont : tensor2 scalar) :
  exists e, Tab.forward self x_categ x_cont true = Raise e.
Proof.
  unfold Tab.forward.
  destruct (Tab.getattr self "num_categories" ≫= Tab.as_int) as [n|e]; simpl; [|eauto].
  destruct (py_assert _ _) as [[]|e]; simpl; [|eauto].
  destruct (Tab_forward_categ_true self x_categ) as [[e ->] | ->]; simpl; [eauto|].
  destruct (Tab.forward_cont self x_cont) as [xs2|e]; simpl; [|eauto].
  destruct (torch_cat_dim1 xs2) as [x|e]; simpl; [|eauto].
  destruct (Tab.getattr self "mlp" ≫= Tab.as_mlp) as [mlp|e]; simpl; eauto.
Qed.
End ForwardCapture.

(** C1 fails on the code: a forward call that asks for the attention maps
    does not return them. FTTransformer raises unless the batch has exactly
    two rows, because the attention block returns one tensor and the layer
    loop unpacks it into two; TabTransformer always raises, because its
    layers are wrappers that take no keyword argument. *)
Theorem attention_maps_not_returned `{K : Kernels} (m : model)
        (x_categ : tensor2 Z) (x_cont : tensor2 scalar) :
  match m with
  | FTModel _ => shape0 x_categ <> 2%nat /\ shape0 x_cont <> 2%nat
  | TabModel _ => True
  end ->
  exists e, forward_of m x_categ x_cont true = Raise e.
Proof.
  destruct m as [self|self]; simpl.
  - intros [Hc Hn].
    destruct (FT_model_forward_true_raises self x_categ x_cont Hc Hn) as [e ->].
    simpl. eauto.
  - intros _.
    destruct (Tab_model_forward_true_raises self x_categ x_cont) as [e ->].
    simpl. eauto.
Qed.

(** A single valid row, attention maps requested, no fused attention: both
    example models raise, FTTransformer with the error of the unpacking. *)
Lemma attention_maps_not_returned_witness :
  (exists m, construct (Examples.ft 1 false) = Ok m /\
     forward_of m (Tensor2 2 [[0; 0]]) (Tensor2 2 [[1; 2]]) true = Raise ValueError) /\
  (exists m, construct (Examples.tab [3; 5] 2 1 None) = Ok m /\
     forward_of m (Tensor2 2 [[0; 0]]) (Tensor2 2 [[1; 2]]) true = Raise TypeError).
Proof.
  split.
  - destruct (result_check (construct (Examples.ft 1 false))
                (fun m => match m with
                          | FTModel _ =>
                              match forward_of m (Tensor2 2 [[0; 0]])
                                               (Tensor2 2 [[1; 2]]) true with
                              | Raise ValueError => true
                              | Ok _ => true
                              | _ => false
                              end
                          | TabModel _ => false
                          end)) as (m & E & Hp); [vm_compute; reflexivity|].
    exists m. split; [exact E|].
    destruct m as [self|self]; [|discriminate].
    destruct (attention_maps_not_returned (FTModel self) (Tensor2 2 [[0; 0]])
                                          (Tensor2 2 [[1; 2]])) as [e He];
      [split; discriminate|].
    rewrite He in Hp |- *. destruct e; try discriminate. reflexivity.
  - destruct (result_check (construct (Examples.tab [3; 5] 2 1 None))
                (fun m => match m with
                          | TabModel _ =>
                              match forward_of m (Tensor2 2 [[0; 0]])
                                               (Tensor2 2 [[1; 2]]) true with
                              | Raise TypeError => true
                              | Ok _ => true
                              | _ => false
                              end
                          | FTModel _ => false
                          end)) as (m & E & Hp); [vm_compute; reflexivity|].
    exists m. split; [exact E|].
    destruct m as [self|self]; [discriminate|].
    destruct (attention_maps_not_returned (TabModel self) (Tensor2 2 [[0; 0]])
                                          (Tensor2 2 [[1; 2]])) as [e He];
      [exact I|].
    rewrite He in Hp |- *. destruct e; try discriminate. reflexivity.
Defined.

Section BatchOfTwo.
Context `{K : Kernels}.

Lemma FT_feedforward_length (f : ft_transformer.FeedForward.t) (x : batch) :
  length (ft_transformer.FeedForward.forward f x) = length x.
Proof.
  unfold ft_transformer.FeedForward.forward, nn_Dropout, Linear_forward, LayerNorm_forward.
  rewrite !length_map. reflexivity.
Qed.

(** On a batch of exactly two elements the unpacking goes through: the
    first slice of the attention block's output is added to both elements,
    the second slice is recorded as the layer's "attention map". *)
Lemma FT_loop_true_pair (t : FTT.t) ls (x : batch) (attns : list tokens) :
  length x = 2%nat ->
  Forall (fun l => 0 < ft_transformer.Attention.heads l.1) ls ->
  exists (y : batch) (attns' : list tokens),
    FTT.loop t true ls (x, attns) = Ok (y, attns ++ attns') /\
    length y = 2%nat /\
    length attns' = length ls /\
    forall a f ls' x1 x2,
      ls = (a, f) :: ls' -> x = [x1; x2] ->
      attns' !! 0%nat = Some (ft_transformer.Attention.attend a x2).
Proof.
  intros Hx H. revert x attns Hx.
  induction H as [|[a f] ls Ha _ IH]; intros x attns Hx.
  - exists x, []. rewrite app_nil_r. repeat split; try assumption. discriminate.
  - simpl in Ha. destruct x as [|x1 [|x2 [|x3 x]]]; try discriminate. clear Hx.
    set (x' := batch_add
                 (ft_transformer.FeedForward.forward f
                    (tokens_add_batch (ft_transformer.Attention.attend a x1) [x1; x2]))
                 (tokens_add_batch (ft_transformer.Attention.attend a x1) [x1; x2])).
    assert (Hx' : length x' = 2%nat).
    { unfold x', batch_add. rewrite length_zip_with, FT_feedforward_length. reflexivity. }
    destruct (IH x' (attns ++ [ft_transformer.Attention.attend a x2]) Hx')
      as (y & attns' & Hloop & Hy & Hlen & _).
    exists y, (ft_transformer.Attention.attend a x2 :: attns').
    split.
    + simpl. rewrite FT_attention_forward by exact Ha. simpl.
      replace (attns ++ ft_transformer.Attention.attend a x2 :: attns')
        with ((attns ++ [ft_transformer.Attention.attend a x2]) ++ attns')
        by (rewrite <- app_assoc; reflexivity).
      destruct (FTT.checkpoint_grads t); exact Hloop.
    + split; [exact Hy|]. split; [simpl; congruence|].
      intros a0 f0 ls0 y1 y2 E1 E2. injection E1 as <- <- <-. injection E2 as <- <-.
      reflexivity.
Qed.
End BatchOfTwo.

(** C2 fails on the code: with the fused attention path selected and
    attention maps requested, a batch of exactly two rows is neither
    rejected nor sent through the explicit path. The call returns a trace
    with one entry per layer, and the entry is a slice of the attention
    block's output (tokens x dim), not an attention matrix. *)
Theorem fused_path_returns_output_slices `{K : Kernels} (t : FTT.t) (x1 x2 : tokens) :
  Forall (fun l => 0 < ft_transformer.Attention.heads l.1 /\
                   ft_transformer.Attention.use_flash_attn l.1 = true)
         (FTT.layers t) ->
  FTT.layers t <> [] ->
  exists (y : batch) (attns : list tokens),
    FTT.forward t [x1; x2] true = Ok (FTT.HiddenAttns y attns) /\
    length attns = length (FTT.layers t) /\
    forall a f ls,
      FTT.layers t = (a, f) :: ls ->
      attns !! 0%nat = Some (ft_transformer.Attention.attend a x2).
Proof.
  intros H Hne.
  assert (H' : Forall (fun l => 0 < ft_transformer.Attention.heads l.1) (FTT.layers t)).
  { eapply Forall_impl; [exact H|]. simpl. intros l [Hl _]. exact Hl. }
  destruct (FT_loop_true_pair t (FTT.layers t) [x1; x2] [] eq_refl H')
    as (y & attns & Hloop & _ & Hlen & Hfirst).
  exists y, attns. unfold FTT.forward. rewrite Hloop. simpl.
  destruct attns as [|a0 attns].
  - destruct (FTT.layers t); [congruence | discriminate].
  - simpl. split; [reflexivity|]. split; [exact Hlen|].
    intros a f ls E. apply (Hfirst a f ls x1 x2 E eq_refl).
Qed.

(** The stack of the example model with the fused path, on two batch
    elements of five tokens: the trace has two entries of five rows. *)
Lemma fused_path_returns_output_slices_witness :
  let t := FTT.init (K := Toy.kernels) 4 2 2 2 0 0 false true
                    (ft_transformer.FTTransformer.w_transformer (Toy.ft_weights 4 2 2 1)) in
  let x : list (list Z) := [[0; 0; 0; 0]; [1; 1; 1; 1]; [2; 2; 2; 2]; [3; 3; 3; 3]; [4; 4; 4; 4]] in
  exists y attns,
    FTT.forward (K := Toy.kernels) t [x; x] true = Ok (FTT.HiddenAttns y attns) /\
    length attns = 2%nat /\
    Forall (fun a : list (list Z) => length a = 5%nat) attns.
Proof.
  intros t x.
  destruct (fused_path_returns_output_slices (K := Toy.kernels) t x x)
    as (y & attns & Hfw & Hlen & _).
  - repeat constructor.
  - discriminate.
  - exists y, attns. split; [exact Hfw|]. split; [exact Hlen|].
    vm_compute in Hfw. injection Hfw as <- <-. repeat constructor.
Defined.

(** The same at the level of the model: categories = [3, 5], two continuous
    fields, depth 2, fused attention, a batch of two valid rows. The call
    returns logits and a trace of two entries of shape (5, 4): tokens x dim,
    where an attention matrix would be (2, 2, 5, 5). *)
Lemma fused_model_returns_output_slices :
  exists m logits attns,
    construct (Examples.ft 2 true) = Ok m /\
    forward_of m (Tensor2 2 [[0; 0]; [1; 1]]) (Tensor2 2 [[1; 2]; [3; 4]]) true
    = Ok (logits, Some attns) /\
    length attns = 2%nat /\
    Forall (fun a : list (list Z) =>
              length a = 5%nat /\ Forall (fun r => length r = 4%nat) a) attns.
Proof.
  destruct (result_check (construct (Examples.ft 2 true))
              (fun m => match forward_of m (Tensor2 2 [[0; 0]; [1; 1]])
                                         (Tensor2 2 [[1; 2]; [3; 4]]) true with
                        | Ok (_, Some attns) =>
                            Nat.eqb (length attns) 2 &&
                            forallb (fun a : list (list Z) =>
                                       Nat.eqb (length a) 5 &&
                                       forallb (fun r => Nat.eqb (length r) 4) a) attns
                        | _ => false
                        end)) as (m & E & Hp); [vm_compute; reflexivity|].
  destruct (forward_of m (Tensor2 2 [[0; 0]; [1; 1]]) (Tensor2 2 [[1; 2]; [3; 4]]) true)
    as [[logits [attns|]]|e] eqn:F; try discriminate.
  exists m, logits, attns. split; [exact E|]. split; [exact F|].
  apply andb_prop in Hp as [H1 H2]. apply Nat.eqb_eq in H1. split; [exact H1|].
  rewrite forallb_forall in H2. apply Forall_forall. intros a Ha.
  apply list_elem_of_In in Ha.
  specialize (H2 a Ha). apply andb_prop in H2 as [H3 H4]. apply Nat.eqb_eq in H3.
  split; [exact H3|]. rewrite forallb_forall in H4. apply Forall_forall.
  intros r Hr. apply list_elem_of_In in Hr. apply Nat.eqb_eq. apply H4. exact Hr.
Qed.

(** C4 holds on the path without attention maps and fails on the other:
    without capture the stack of either model is the residual recurrence of
    the specification; with capture no hidden state is produced at all
    (FTTransformer: for every batch whose size is not two). *)
Theorem hidden_state_with_and_without_capture `{K : Kernels} :
  (forall (t : FTT.t) (x : batch),
      Forall (fun l => 0 < ft_transformer.Attention.heads l.1) (FTT.layers t) ->
      length x <> 2%nat ->
      FTT.forward t x false = Ok (FTT.Hidden (ft_residual_stack (FTT.layers t) x)) /\
      exists e, FTT.forward t x true = Raise e) /\
  (forall (t : TabT.t) (x : batch),
      Forall (fun l => 0 < tab_transformer_pytorch.Attention.heads
                            (tab_transformer_pytorch.PreNorm.fn l.1)) (TabT.layers t) ->
      TabT.forward t (tab_transformer_pytorch.Rank3 x) false
      = Ok (TabT.Hidden (tab_transformer_pytorch.Rank3 (tab_residual_stack (TabT.layers t) x))) /\
      exists e, TabT.forward t (tab_transformer_pytorch.Rank3 x) true = Raise e).
Proof.
  split.
  - intros t x H Hx. split; [apply FT_forward_false; exact H|].
    apply FT_forward_true_raises; exact Hx.
  - intros t x H. split; [apply Tab_forward_false; exact H|].
    apply Tab_forward_true_raises.
Qed.

(** Both stacks of depth two on one batch element: a hidden state without
    capture, an error with it. *)
Lemma hidden_state_with_and_without_capture_witness :
  let ft := FTT.init (K := Toy.kernels) 4 2 2 2 0 0 false false
              (ft_transformer.FTTransformer.w_transformer (Toy.ft_weights 4 2 2 1)) in
  let tab := TabT.init (K := Toy.kernels) 8 2 2 2 0 0 2 false false
               (tab_transformer_pytorch.TabTransformer.w_transformer
                  (Toy.tab_weights 8 2 2 (fun _ => 1%nat))) in
  let x : list (list (list Z)) := [[[0; 0; 0; 0]; [1; 1; 1; 1]]] in
  let x8 : list (list (list Z)) := [[[0; 0; 0; 0; 0; 0; 0; 0]; [1; 1; 1; 1; 1; 1; 1; 1]]] in
  (is_Ok (FTT.forward (K := Toy.kernels) ft x false) /\
   exists e, FTT.forward (K := Toy.kernels) ft x true = Raise e) /\
  (is_Ok (TabT.forward (K := Toy.kernels) tab
                       (tab_transformer_pytorch.Rank3 (K := Toy.kernels) x8) false) /\
   exists e, TabT.forward (K := Toy.kernels) tab
                          (tab_transformer_pytorch.Rank3 (K := Toy.kernels) x8) true
             = Raise e).
Proof.
  intros ft tab x x8.
  destruct (hidden_state_with_and_without_capture (K := Toy.kernels)) as [HF HT].
  split.
  - destruct (HF ft x) as [H1 H2]; [repeat constructor | discriminate |].
    split; [eexists; exact H1 | exact H2].
  - destruct (HT tab x8) as [H1 H2]; [repeat constructor |].
    split; [eexists; exact H1 | exact H2].
Defined.

(** ** Embedding extraction, one row at a time *)

Section RowWiseProofs.
Context `{K : Kernels}.

Lemma zip_with_map_self {A B C} (g : B -> A -> C) (f : A -> B) (x : list A) :
  zip_with g (map f x) x = map (fun t => g (f t) t) x.
Proof. induction x as [|a x IH]; simpl; [reflexivity | rewrite IH; reflexivity]. Qed.

Lemma FT_feedforward_map (f : ft_transformer.FeedForward.t) (x : batch) :
  ft_transformer.FeedForward.forward f x = map (ft_feedforward_tokens f) x.
Proof.
  unfold ft_transformer.FeedForward.forward, ft_feedforward_tokens, nn_Dropout,
    Linear_forward, LayerNorm_forward.
  rewrite !map_map. apply map_ext. intros t. rewrite !map_map. reflexivity.
Qed.

(** The residual stack acts on every batch element separately. *)
Lemma ft_residual_stack_map ls (x : batch) :
  ft_residual_stack ls x = map (ft_example_stack ls) x.
Proof.
  revert x. induction ls as [|[a f] ls IH]; intros x.
  - simpl. symmetry. apply map_id.
  - unfold ft_residual_stack, ft_example_stack in *. simpl.
    rewrite IH. unfold batch_add.
    rewrite zip_with_map_self, FT_feedforward_map, zip_with_map_self, !map_map.
    reflexivity.
Qed.

Lemma FT_loop_false_cases (t : FTT.t) ls (x : batch) (attns : list tokens) :
  FTT.loop t false ls (x, attns)
  = if forallb (fun l => 0 <? ft_transformer.Attention.heads l.1) ls
    then Ok (ft_residual_stack ls x, attns)
    else Raise RuntimeError.
Proof.
  revert x. induction ls as [|[a f] ls IH]; intros x.
  - reflexivity.
  - simpl. unfold ft_transformer.Attention.forward.
    rewrite Z.leb_antisym. destruct (0 <? ft_transformer.Attention.heads a); simpl.
    + destruct (FTT.checkpoint_grads t); simpl; apply IH.
    + reflexivity.
Qed.

Lemma FT_forward_false_cases (t : FTT.t) (x : batch) :
  FTT.forward t x false
  = if forallb (fun l => 0 <? ft_transformer.Attention.heads l.1) (FTT.layers t)
    then Ok (FTT.Hidden (map (ft_example_stack (FTT.layers t)) x))
    else Raise RuntimeError.
Proof.
  unfold FTT.forward. rewrite FT_loop_false_cases.
  destruct (forallb _ _); simpl; [|reflexivity].
  rewrite ft_residual_stack_map. reflexivity.
Qed.

Lemma mapM_map {A B C} (f : B -> result C) (g : A -> B) (l : list A) :
  mapM f (map g l) = mapM (fun a => f (g a)) l.
Proof.
  induction l as [|a l IH]; simpl; [reflexivity|].
  destruct (f (g a)); simpl; [|reflexivity]. rewrite IH. reflexivity.
Qed.

Lemma mapM_zip_bind {A B C D} (F : A -> result C) (k : C -> B -> D)
      (r : list A) (s : list B) (v : list D) :
  length r = length s ->
  mapM (fun p => x ← F p.1; Ok (k x p.2)) (zip r s) = Ok v <->
  exists X, mapM F r = Ok X /\ v = zip_with k X s.
Proof.
  revert s v. induction r as [|a r IH]; intros [|b s] v Hlen; try discriminate.
  - simpl. split.
    + intros H. injection H as <-. exists []. split; reflexivity.
    + intros (X & HX & ->). injection HX as <-. reflexivity.
  - simpl in Hlen. injection Hlen as Hlen. simpl.
    destruct (F a) as [c|e]; simpl.
    + specialize (IH s). split.
      * intros H. apply bind_Ok_inv in H as (v' & Hv' & H). injection H as <-.
        apply IH in Hv' as (X & HX & ->); [|exact Hlen].
        exists (c :: X). rewrite HX. split; reflexivity.
      * intros (X & HX & ->). apply bind_Ok_inv in HX as (X' & HX' & HX).
        injection HX as <-.
        assert (Hm : mapM (fun p => x ← F p.1; Ok (k x p.2)) (zip r s)
                     = Ok (zip_with k X' s)).
        { apply IH; [exact Hlen|]. exists X'. split; [exact HX' | reflexivity]. }
        rewrite Hm. reflexivity.
    + split; [discriminate|]. intros (X & HX & _). discriminate.
Qed.

Lemma mapM_const_nil {A B} (r : list A) :
  mapM (fun _ : A => Ok (@nil B)) r = Ok (map (fun _ => []) r).
Proof. induction r as [|a r IH]; simpl; [reflexivity|]. rewrite IH. reflexivity. Qed.
End RowWiseProofs.

Section EmbedRowWise.
Context `{K : Kernels}.

Lemma map_zip_with {A B C D} (f : C -> D) (h : A -> B -> C) (X : list A) (Y : list B) :
  map f (zip_with h X Y) = zip_with (fun x y => f (h x y)) X Y.
Proof.
  revert Y. induction X as [|x X IH]; intros [|y Y]; simpl; try reflexivity.
  rewrite IH. reflexivity.
Qed.

Lemma zip_with_map_r {A B B' C} (h : A -> B' -> C) (g : B -> B') (X : list A) (Y : list B) :
  zip_with h X (map g Y) = zip_with (fun x y => h x (g y)) X Y.
Proof.
  revert Y. induction X as [|x X IH]; intros [|y Y]; simpl; try reflexivity.
  rewrite IH. reflexivity.
Qed.

Lemma zip_with_const_l {R A B C} (k : A -> B -> C) (a : A) (r : list R) (s : list B) :
  length r = length s ->
  zip_with k (map (fun _ => a) r) s = map (k a) s.
Proof.
  revert s. induction r as [|x r IH]; intros [|y s] H; try discriminate; simpl.
  - reflexivity.
  - injection H as H. rewrite IH by exact H. reflexivity.
Qed.

Lemma zip_with_ignore_r {A B C} (k : A -> C) (X : list A) (s : list B) :
  length X = length s ->
  zip_with (fun x _ => k x) X s = map k X.
Proof.
  revert s. induction X as [|x X IH]; intros [|y s] H; try discriminate; simpl.
  - reflexivity.
  - injection H as H. rewrite IH by exact H. reflexivity.
Qed.

Ltac both_fail :=
  split;
  [ let H := fresh in
    intros H;
    repeat (apply bind_Ok_inv in H as (? & ? & H));
    congruence
  | let Hh := fresh in
    intros (? & Hh & _);
    repeat (apply bind_Ok_inv in Hh as (? & ? & Hh));
    congruence ].

Ltac pass_guard t := destruct t; simpl; [|both_fail].

(** The last steps of [embed]: the CLS token in front, the transformer,
    the CLS token dropped. *)
Lemma FT_embed_tail (t : FTT.t) (cls : vec) (x v : batch) :
  (FTT.forward t (map (fun e => cls :: e) x) false ≫=
     fun r0 => match r0 with
               | FTT.Hidden x0 => Ok (map (fun e => List.tl e) x0)
               | FTT.HiddenAttns _ _ => Raise TypeError
               end) = Ok v <->
  forallb (fun l => 0 <? ft_transformer.Attention.heads l.1) (FTT.layers t) = true /\
  v = map (fun e => List.tl (ft_example_stack (FTT.layers t) (cls :: e))) x.
Proof.
  rewrite FT_forward_false_cases.
  destruct (forallb _ _); simpl.
  - rewrite !map_map. split.
    + intros H. injection H as <-. split; reflexivity.
    + intros [_ ->]. reflexivity.
  - split; [discriminate | intros [H _]; discriminate].
Qed.

Lemma embed_row_guard (b : bool) (h0 h : list Z -> vec -> result tokens) :
  (if b then Ok h0 else Raise RuntimeError) = Ok h <-> b = true /\ h = h0.
Proof.
  destruct b; split.
  - intros H. injection H as <-. split; reflexivity.
  - intros [_ ->]. reflexivity.
  - discriminate.
  - intros [H _]. discriminate.
Qed.

(** [embed] returns exactly when the attributes resolve, the shapes fit,
    and every row embeds; its value is then the list of the embedded rows. *)
Lemma FT_embed_rowwise (self : gmap string FT.attr) (c c' : nat)
      (r : list (list Z)) (s : list (list scalar)) (v : batch) :
  length r = length s ->
  FT.embed self (Tensor2 c r) (Tensor2 c' s) = Ok v <->
  exists h, embed_row_of self c c' = Ok h /\
            mapM (fun p => h p.1 p.2) (zip r s) = Ok v.
Proof.
  intros Hlen.
  unfold FT.embed, embed_row_of, FT.embed_categ, FT.embed_numer,
    FT.offset_codes, FT.lookup_codes, FT.prepend_cls, add_offset, NE.forward,
    Embedding_forward.
  simpl.
  pass_guard (FT.getattr self "num_unique_categories" ≫= FT.as_int).
  pass_guard (FT.getattr self "num_continuous" ≫= FT.as_int).
  destruct (0 <? a); destruct (0 <? a0); simpl.
  - pass_guard (FT.getattr self "categories_offset" ≫= FT.as_buffer).
    pass_guard (broadcastable c (length a1)).
    pass_guard (FT.getattr self "categorical_embeds" ≫= FT.as_embedding).
    pass_guard (FT.getattr self "numerical_embedder" ≫= FT.as_numerical_embedder).
    pass_guard (broadcastable c' (length (ft_transformer.NumericalEmbedder.weights a3))).
    pass_guard (FT.getattr self "cls_token" ≫= FT.as_parameter).
    pass_guard (FT.getattr self "transformer" ≫= FT.as_transformer).
    rewrite mapM_map. fold (categ_row a2 a1).
    split.
    + intros H. apply bind_Ok_inv in H as (xs1 & H1 & H).
      apply bind_Ok_inv in H1 as (X & HX & H1). injection H1 as <-.
      pose proof (mapM_Ok_length _ _ _ HX) as HlX.
      apply bind_Ok_inv in H as (x & Hx & H). simpl in Hx.
      rewrite length_map, HlX, Hlen, Nat.eqb_refl in Hx. injection Hx as <-.
      apply FT_embed_tail in H as [Hfa ->].
      eexists. split; [apply embed_row_guard; split; [exact Hfa | reflexivity]|].
      apply (proj2 (mapM_zip_bind
                      (categ_row a2 a1)
                      (fun x srow =>
                         List.tl (ft_example_stack (FTT.layers a5)
                                    (a4 :: x ++ NE.forward_row a3 srow)))
                      r s _ Hlen)).
      exists X. split; [exact HX|].
      rewrite map_zip_with, zip_with_map_r. reflexivity.
    + intros (h & Hh & Hm). apply embed_row_guard in Hh as [Hfa ->].
      apply (proj1 (mapM_zip_bind
                      (categ_row a2 a1)
                      (fun x srow =>
                         List.tl (ft_example_stack (FTT.layers a5)
                                    (a4 :: x ++ NE.forward_row a3 srow)))
                      r s _ Hlen)) in Hm as (X & HX & ->).
      pose proof (mapM_Ok_length _ _ _ HX) as HlX.
      rewrite HX. simpl. rewrite length_map, HlX, Hlen, Nat.eqb_refl. simpl.
      apply FT_embed_tail. split; [exact Hfa|].
      rewrite map_zip_with, zip_with_map_r. reflexivity.
  - pass_guard (FT.getattr self "categories_offset" ≫= FT.as_buffer).
    pass_guard (broadcastable c (length a1)).
    pass_guard (FT.getattr self "categorical_embeds" ≫= FT.as_embedding).
    pass_guard (FT.getattr self "cls_token" ≫= FT.as_parameter).
    pass_guard (FT.getattr self "transformer" ≫= FT.as_transformer).
    rewrite mapM_map. fold (categ_row a2 a1).
    split.
    + intros H. apply bind_Ok_inv in H as (xs1 & H1 & H).
      apply bind_Ok_inv in H1 as (X & HX & H1). injection H1 as <-.
      pose proof (mapM_Ok_length _ _ _ HX) as HlX.
      apply bind_Ok_inv in H as (x & Hx & H). simpl in Hx. injection Hx as <-.
      apply FT_embed_tail in H as [Hfa ->].
      eexists. split; [apply embed_row_guard; split; [exact Hfa | reflexivity]|].
      apply (proj2 (mapM_zip_bind
                      (categ_row a2 a1)
                      (fun x (_ : vec) =>
                         List.tl (ft_example_stack (FTT.layers a4) (a3 :: x ++ [])))
                      r s _ Hlen)).
      exists X. split; [exact HX|].
      rewrite zip_with_ignore_r by (rewrite HlX; exact Hlen).
      apply map_ext. intros x. rewrite app_nil_r. reflexivity.
    + intros (h & Hh & Hm). apply embed_row_guard in Hh as [Hfa ->].
      apply (proj1 (mapM_zip_bind
                      (categ_row a2 a1)
                      (fun x (_ : vec) =>
                         List.tl (ft_example_stack (FTT.layers a4) (a3 :: x ++ [])))
                      r s _ Hlen)) in Hm as (X & HX & ->).
      pose proof (mapM_Ok_length _ _ _ HX) as HlX.
      rewrite HX. simpl.
      apply FT_embed_tail. split; [exact Hfa|].
      rewrite zip_with_ignore_r by (rewrite HlX; exact Hlen).
      apply map_ext. intros x. rewrite app_nil_r. reflexivity.
  - pass_guard (FT.getattr self "numerical_embedder" ≫= FT.as_numerical_embedder).
    pass_guard (broadcastable c' (length (ft_transformer.NumericalEmbedder.weights a1))).
    pass_guard (FT.getattr self "cls_token" ≫= FT.as_parameter).
    pass_guard (FT.getattr self "transformer" ≫= FT.as_transformer).
    split.
    + intros H. apply FT_embed_tail in H as [Hfa ->].
      eexists. split; [apply embed_row_guard; split; [exact Hfa | reflexivity]|].
      apply (proj2 (mapM_zip_bind
                      (fun _ : list Z => Ok [])
                      (fun (x : tokens) srow =>
                         List.tl (ft_example_stack (FTT.layers a3)
                                    (a2 :: x ++ NE.forward_row a1 srow)))
                      r s _ Hlen)).
      eexists. split; [apply mapM_const_nil|].
      rewrite zip_with_const_l by exact Hlen. rewrite map_map. reflexivity.
    + intros (h & Hh & Hm). apply embed_row_guard in Hh as [Hfa ->].
      apply (proj1 (mapM_zip_bind
                      (fun _ : list Z => Ok [])
                      (fun (x : tokens) srow =>
                         List.tl (ft_example_stack (FTT.layers a3)
                                    (a2 :: x ++ NE.forward_row a1 srow)))
                      r s _ Hlen)) in Hm as (X & HX & ->).
      rewrite mapM_const_nil in HX. injection HX as <-.
      apply FT_embed_tail. split; [exact Hfa|].
      rewrite zip_with_const_l by exact Hlen. rewrite map_map. reflexivity.
  - both_fail.
Qed.
End EmbedRowWise.

(** ** The chunk loop of get_embeddings *)

Section Chunks.
Context {A : Type}.

Lemma slice_list_chunk (l : list A) (bs : Z) (k : nat) (n : nat) :
  0 < bs -> n = length l ->
  slice_list l (0 + Z.of_nat k * bs) (Z.min (0 + Z.of_nat k * bs + bs) (Z.of_nat n))
  = take (Z.to_nat bs) (drop (k * Z.to_nat bs) l).
Proof.
  intros Hbs ->. unfold slice_list.
  assert (Hstart : Z.to_nat (0 + Z.of_nat k * bs) = (k * Z.to_nat bs)%nat) by lia.
  rewrite Hstart.
  destruct (Z_le_gt_dec (0 + Z.of_nat k * bs + bs) (Z.of_nat (length l))) as [Hle|Hgt].
  - rewrite Z.min_l by exact Hle. f_equal. lia.
  - rewrite Z.min_r by lia. rewrite Nat2Z.id.
    rewrite (take_ge (drop _ _) (length l - k * Z.to_nat bs))
      by (rewrite length_drop; lia).
    rewrite (take_ge (drop _ _) (Z.to_nat bs))
      by (rewrite length_drop; lia).
    reflexivity.
Qed.

Lemma concat_chunks_from (b cnt j : nat) (l : list A) :
  concat (map (fun k => take b (drop (k * b) l)) (seq j cnt))
  = take (cnt * b) (drop (j * b) l).
Proof.
  revert j. induction cnt as [|cnt IH]; intros j.
  - reflexivity.
  - change (seq j (S cnt)) with (j :: seq (S j) cnt).
    rewrite map_cons, concat_cons, IH.
    replace (S j * b)%nat with (j * b + b)%nat by lia.
    rewrite <- drop_drop.
    replace (S cnt * b)%nat with (b + cnt * b)%nat by lia.
    apply take_take_drop.
Qed.

Lemma concat_chunks (b cnt : nat) (l : list A) :
  (length l <= cnt * b)%nat ->
  concat (map (fun k => take b (drop (k * b) l)) (seq 0 cnt)) = l.
Proof.
  intros Hlen. rewrite concat_chunks_from. simpl. apply take_ge. exact Hlen.
Qed.

Lemma chunk_count (n bs : Z) :
  0 < bs -> 0 <= n ->
  n <= Z.of_nat (Z.to_nat ((n - 0 + bs - 1) / bs)) * bs /\
  (0 < n -> (0 < Z.to_nat ((n - 0 + bs - 1) / bs))%nat).
Proof.
  intros Hbs Hn.
  assert (H0 : 0 <= (n - 0 + bs - 1) / bs) by (apply Z.div_pos; lia).
  rewrite Z2Nat.id by exact H0.
  pose proof (Z.div_mod (n - 0 + bs - 1) bs ltac:(lia)) as Hdm.
  pose proof (Z.mod_pos_bound (n - 0 + bs - 1) bs Hbs) as Hmod.
  split; [nia|].
  intros Hpos.
  assert (0 < (n - 0 + bs - 1) / bs); [|lia].
  apply Z.div_str_pos. lia.
Qed.
End Chunks.

Section MapMChunks.
Context {A B : Type}.

Lemma mapM_concat (f : A -> result B) (ls : list (list A)) :
  mapM f (concat ls) = (vs ← mapM (mapM f) ls; Ok (concat vs)).
Proof.
  induction ls as [|l ls IH]; simpl; [reflexivity|].
  rewrite mapM_app, IH.
  destruct (mapM f l) as [y|e]; simpl; [|reflexivity].
  destruct (mapM (mapM f) ls) as [vs|e]; simpl; reflexivity.
Qed.

Lemma mapM_Ok_ext {C} (f g : C -> result B) (l : list C) (vs : list B) :
  (forall a v, f a = Ok v <-> g a = Ok v) ->
  mapM f l = Ok vs <-> mapM g l = Ok vs.
Proof.
  intros Hfg. revert vs. induction l as [|a l IH]; intros vs; simpl; [reflexivity|].
  destruct (f a) as [b|e] eqn:Ef, (g a) as [b'|e'] eqn:Eg; simpl.
  - apply Hfg in Ef. rewrite Ef in Eg. injection Eg as <-.
    destruct (mapM f l) as [ws|e] eqn:Ew, (mapM g l) as [ws'|e'] eqn:Ew'; simpl.
    + pose proof (proj1 (IH ws) eq_refl) as H. injection H as <-. reflexivity.
    + pose proof (proj1 (IH ws) eq_refl) as H. discriminate.
    + pose proof (proj2 (IH ws') eq_refl) as H. discriminate.
    + split; discriminate.
  - apply Hfg in Ef. congruence.
  - apply Hfg in Eg. congruence.
  - split; discriminate.
Qed.

Lemma mapM_nonempty_Raise {C} (f : C -> result B) (l : list C) (e : exn) :
  l <> [] -> (forall a, f a = Raise e) -> mapM f l = Raise e.
Proof. destruct l as [|a l]; [congruence|]. intros _ H. simpl. rewrite H. reflexivity. Qed.
End MapMChunks.

Section ChunkedEmbeddings.
Context `{K : Kernels}.

Lemma bind_Ok_iff {A B} (m : result A) (f : A -> result B) (b : B) :
  m ≫= f = Ok b <-> exists a, m = Ok a /\ f a = Ok b.
Proof.
  split; [apply bind_Ok_inv|]. intros (a & -> & H). exact H.
Qed.

Lemma torch_cat_dim0_nonempty {A} (vs : list (list A)) :
  vs <> [] -> torch_cat_dim0 vs = Ok (concat vs).
Proof. destruct vs; [congruence | reflexivity]. Qed.

(** On a non-empty batch and with a positive chunk size, the chunked call
    returns a value exactly when the call on the whole batch does, and it is
    the same value. *)
Lemma FT_get_embeddings_chunked (self : gmap string FT.attr)
      (x_categ : tensor2 Z) (x_cont : tensor2 scalar) (batch_size : Z) (v : batch) :
  0 < batch_size ->
  rows x_categ <> [] ->
  shape0 x_categ = shape0 x_cont ->
  FT.get_embeddings self x_categ x_cont (Some batch_size) = Ok v <->
  FT.get_embeddings self x_categ x_cont None = Ok v.
Proof.
  destruct x_categ as [c r], x_cont as [c' s]. unfold shape0. simpl.
  intros Hbs Hne Hlen.
  set (b := Z.to_nat batch_size).
  set (cnt := Z.to_nat ((Z.of_nat (length r) - 0 + batch_size - 1) / batch_size)).
  destruct (chunk_count (Z.of_nat (length r)) batch_size Hbs ltac:(lia)) as [Hcover Hpos].
  fold cnt in Hcover, Hpos.
  assert (Hcnt : (0 < cnt)%nat).
  { apply Hpos. destruct r; [congruence | simpl; lia]. }
  assert (Hcov : (length (zip r s) <= cnt * b)%nat).
  { rewrite length_zip_with. unfold b. lia. }
  unfold FT.get_embeddings, py_range, shape0. simpl rows.
  rewrite (proj2 (Z.eqb_neq _ _)) by lia.
  rewrite (proj2 (Z.ltb_lt _ _) Hbs). fold cnt. simpl.
  rewrite mapM_map.
  (* every chunk, read row by row *)
  set (body := fun k : nat =>
                 FT.embed self
                   (slice0 (Tensor2 c r) (0 + Z.of_nat k * batch_size)
                           (Z.min (0 + Z.of_nat k * batch_size + batch_size)
                                  (Z.of_nat (length r))))
                   (slice0 (Tensor2 c' s) (0 + Z.of_nat k * batch_size)
                           (Z.min (0 + Z.of_nat k * batch_size + batch_size)
                                  (Z.of_nat (length r))))).
  set (g := fun k : nat =>
              (embed_row_of self c c' ≫= fun h =>
               mapM (fun p => h p.1 p.2) (take b (drop (k * b) (zip r s))))
              : result batch).
  assert (Hbody : forall k w, body k = Ok w <-> g k = Ok w).
  { intros k w. unfold body, g, slice0. simpl.
    rewrite (slice_list_chunk r batch_size k (length r) Hbs eq_refl).
    rewrite (slice_list_chunk s batch_size k (length r) Hbs Hlen).
    fold b. rewrite FT_embed_rowwise.
    2:{ rewrite !length_take, !length_drop. lia. }
    rewrite <- zip_with_take, <- zip_with_drop. rewrite bind_Ok_iff. reflexivity. }
  change (mapM (fun a => FT.embed self _ _) (seq 0 cnt)) with (mapM body (seq 0 cnt)).
  rewrite bind_Ok_iff.
  rewrite (FT_embed_rowwise self c c' r s v Hlen).
  split.
  - intros (vs & Hvs & Hcat).
    apply (mapM_Ok_ext body g _ _ Hbody) in Hvs.
    destruct (embed_row_of self c c') as [h|e] eqn:E.
    + exists h. split; [reflexivity|].
      unfold g in Hvs. simpl in Hvs.
      rewrite <- (mapM_map (mapM (fun p => h p.1 p.2))
                           (fun k => take b (drop (k * b) (zip r s)))) in Hvs.
      rewrite <- (concat_chunks b cnt (zip r s) Hcov), mapM_concat, Hvs. simpl.
      rewrite torch_cat_dim0_nonempty in Hcat.
      * exact Hcat.
      * apply mapM_Ok_length in Hvs. rewrite length_map, length_seq in Hvs.
        destruct vs; [simpl in Hvs; lia | discriminate].
    + rewrite (mapM_nonempty_Raise g (seq 0 cnt) e) in Hvs; [discriminate | |].
      * destruct cnt; [lia | discriminate].
      * intros k. reflexivity.
  - intros (h & E & Hm).
    rewrite <- (concat_chunks b cnt (zip r s) Hcov), mapM_concat in Hm.
    apply bind_Ok_inv in Hm as (vs & Hvs & Hm). injection Hm as <-.
    exists vs. split.
    + apply (mapM_Ok_ext body g _ _ Hbody). unfold g. rewrite E. simpl.
      rewrite mapM_map in Hvs. exact Hvs.
    + apply torch_cat_dim0_nonempty.
      apply mapM_Ok_length in Hvs. rewrite length_map, length_seq in Hvs.
      destruct vs; [simpl in Hvs; lia | discriminate].
Qed.
End ChunkedEmbeddings.

Section EmbeddingsReturn.
Context `{K : Kernels}.

Lemma categ_row_in_bounds (e : Embedding) (categories : list Z) (nst : Z) (row : list Z) :
  length (emb_weight e) = Z.to_nat (num_embeddings e) ->
  num_embeddings e = py_sum categories + nst ->
  0 <= nst ->
  py_sum categories + nst <= int64_max ->
  valid_codes categories row ->
  is_Ok (categ_row e (offset_table nst categories) row).
Proof.
  intros Hlen Hn Hnst Hmax Hv. unfold categ_row.
  rewrite broadcast_with_zip
    by (rewrite offset_table_length; eapply Forall2_length; exact Hv).
  apply mapM_Ok_Forall.
  eapply Forall_impl;
    [apply offset_ids_in_range; [exact Hv | unfold int64_min; lia | lia]|].
  simpl. intros id Hid. unfold Embedding_lookup.
  rewrite (proj2 (Z.leb_le 0 id)) by lia.
  rewrite (proj2 (Z.ltb_lt id _)) by lia. simpl.
  destruct (nth_error (emb_weight e) (Z.to_nat id)) as [v|] eqn:E.
  - eexists. reflexivity.
  - apply nth_error_None in E. lia.
Qed.

Lemma broadcastable_refl (n : nat) : broadcastable n n = true.
Proof. unfold broadcastable. rewrite Nat.eqb_refl. reflexivity. Qed.

(** On a constructed model with a positive number of heads, the embedding
    body returns on every input of the configured widths whose codes are
    valid. *)
Lemma FT_embed_returns (c : FT.config) (w : FT.weights) (self : gmap string FT.attr)
      (x_categ : tensor2 Z) (x_cont : tensor2 scalar) :
  FT.init c w = Ok self ->
  0 <= FT.num_special_tokens c ->
  0 < FT.heads c ->
  shape0 x_categ = shape0 x_cont ->
  valid_input c x_categ x_cont ->
  is_Ok (FT.embed self x_categ x_cont).
Proof.
  intros Hinit Hnst Hheads Hlen (Hs1 & Hv & Hs2).
  apply FT_init_inv in Hinit as [Hpos Hnn Hnc Hnu Hncont Hcat Hne Hcls Htr Hlog].
  destruct x_categ as [c0 r], x_cont as [c' s]. unfold shape0 in Hlen. simpl in *.
  subst c0 c'.
  assert (Hrow : exists h,
             embed_row_of self (length (FT.categories c))
                          (Z.to_nat (FT.num_continuous c)) = Ok h /\
             Forall (fun row => forall srow, is_Ok (h row srow)) r).
  { unfold embed_row_of, FT.getattr. rewrite Hnu. simpl.
    assert (Hcateg : exists categ,
               (if 0 <? py_sum (FT.categories c) then
                  offset ← match self !! "categories_offset" with
                           | Some v => Ok v
                           | None => Raise (AttributeError "categories_offset")
                           end ≫= FT.as_buffer;
                  if broadcastable (length (FT.categories c)) (length offset) then
                    e ← match self !! "categorical_embeds" with
                        | Some v => Ok v
                        | None => Raise (AttributeError "categorical_embeds")
                        end ≫= FT.as_embedding;
                    Ok (Some (categ_row e offset))
                  else Raise RuntimeError
                else Ok None) = Ok categ /\
               (categ = None -> FT.categories c = []) /\
               Forall (fun row => is_Ok (match categ with
                                         | Some f => f row
                                         | None => Ok []
                                         end)) r).
    { destruct (0 <? py_sum (FT.categories c)) eqn:Hsum.
      - destruct Hcat as (offset & e & Hoff & He & Lo & Le).
        apply Embedding_init_inv in He as (Hrange & Hn & Hlw).
        rewrite categories_offset_exact in Hoff
          by (try assumption; unfold total_tokens; lia).
        injection Hoff as <-.
        rewrite Lo, Le. simpl. rewrite offset_table_length, broadcastable_refl.
        eexists. split; [reflexivity|]. split; [discriminate|].
        eapply Forall_impl; [exact Hv|]. simpl. intros row Hr.
        apply (categ_row_in_bounds e (FT.categories c)); try assumption; lia.
      - exists None. split; [reflexivity|]. split.
        + intros _. destruct (FT.categories c) as [|a l] eqn:Ec; [reflexivity|].
          apply Z.ltb_ge in Hsum.
          pose proof (py_sum_pos (a :: l) Hpos ltac:(discriminate)). lia.
        + apply Forall_forall. intros row _. eexists. reflexivity. }
    destruct Hcateg as (categ & -> & Hnone & Hcrows). simpl.
    rewrite Hncont. simpl.
    assert (Hnumer : exists numer,
               (if 0 <? FT.num_continuous c then
                  ne ← match self !! "numerical_embedder" with
                       | Some v => Ok v
                       | None => Raise (AttributeError "numerical_embedder")
                       end ≫= FT.as_numerical_embedder;
                  if broadcastable (Z.to_nat (FT.num_continuous c))
                                   (length (ft_transformer.NumericalEmbedder.weights ne))
                  then Ok (Some (ft_transformer.NumericalEmbedder.forward_row ne))
                  else Raise RuntimeError
                else Ok None) = Ok numer /\
               (numer = None -> FT.num_continuous c <= 0)).
    { rewrite Hne. destruct (0 <? FT.num_continuous c) eqn:Hc.
      - simpl. rewrite tabulate2_length, broadcastable_refl.
        eexists. split; [reflexivity | discriminate].
      - exists None. split; [reflexivity|]. intros _. apply Z.ltb_ge in Hc. exact Hc. }
    destruct Hnumer as (numer & -> & Hnnone). simpl.
    assert (Hsome : categ = None -> numer = None -> False).
    { intros Hc Hn. rewrite (Hnone Hc) in Hnn. specialize (Hnnone Hn).
      unfold py_len in Hnn. simpl in Hnn. lia. }
    clear Hnone Hnnone.
    assert (Hall : forallb (fun l => 0 <? ft_transformer.Attention.heads l.1)
                     (map (fun i =>
                             (ft_transformer.Attention.init (FT.dim c) (FT.heads c)
                                (FT.dim_head c) (FT.attn_dropout c) (FT.use_flash_attn c)
                                (FT.w_transformer w i).1,
                              ft_transformer.FeedForward.init (FT.dim c) 4 (FT.ff_dropout c)
                                (FT.w_transformer w i).2))
                          (seq 0 (Z.to_nat (FT.depth c)))) = true).
    { apply forallb_forall. intros l Hl. apply in_map_iff in Hl as (i & <- & _).
      simpl. apply Z.ltb_lt. exact Hheads. }
    destruct categ as [f|]; [|destruct numer as [g|]; [|destruct (Hsome eq_refl eq_refl)]];
      simpl; rewrite Hcls, Htr; simpl; rewrite Hall;
      (eexists; split; [reflexivity|]);
      (eapply Forall_impl; [exact Hcrows|]); simpl; intros row [x Hx] srow;
      try rewrite Hx; simpl; eexists; reflexivity. }
  destruct Hrow as (h & Hh & Hrows).
  assert (Hm : is_Ok (mapM (fun p => h p.1 p.2) (zip r s))).
  { apply mapM_Ok_Forall. apply Forall_forall. intros [row srow] Hin.
    simpl. rewrite Forall_forall in Hrows. apply Hrows.
    eapply elem_of_zip_l. exact Hin. }
  destruct Hm as [v Hm]. exists v.
  apply (FT_embed_rowwise self _ _ r s v Hlen). exists h. split; assumption.
Qed.
End EmbeddingsReturn.

(** C9 fails on the code on the empty batch. For a constructed model with
    dropout probability 0 and a positive chunk size, on inputs with the same
    number of rows: on a non-empty batch [get_embeddings] with the chunk
    size returns a value exactly when [get_embeddings] with
    batch_size = None does, and it is the same value (on a valid input both
    return it); on the empty batch the loop over chunks runs no round,
    [torch.cat] of the empty list raises, and the call with
    batch_size = None returns the empty batch of embeddings. *)
Theorem chunked_embeddings_agree_unless_empty `{K : Kernels}
        (c : FT.config) (w : FT.weights) (self : gmap string FT.attr)
        (x_categ : tensor2 Z) (x_cont : tensor2 scalar) (batch_size : Z) :
  FT.init c w = Ok self ->
  FT.attn_dropout c = fzero ->
  FT.ff_dropout c = fzero ->
  0 < batch_size ->
  shape0 x_categ = shape0 x_cont ->
  (rows x_categ <> [] ->
   (forall v,
       FT.get_embeddings self x_categ x_cont (Some batch_size) = Ok v <->
       FT.get_embeddings self x_categ x_cont None = Ok v) /\
   (0 <= FT.num_special_tokens c ->
    0 < FT.heads c ->
    valid_input c x_categ x_cont ->
    exists v,
      FT.get_embeddings self x_categ x_cont (Some batch_size) = Ok v /\
      FT.get_embeddings self x_categ x_cont None = Ok v /\
      length v = shape0 x_categ)) /\
  (rows x_categ = [] ->
   FT.get_embeddings self x_categ x_cont (Some batch_size) = Raise RuntimeError /\
   (0 <= FT.num_special_tokens c ->
    0 < FT.heads c ->
    valid_input c x_categ x_cont ->
    FT.get_embeddings self x_categ x_cont None = Ok [])).
Proof.
  intros Hinit _ _ Hbs Hlen.
  assert (Hlength : forall v, FT.embed self x_categ x_cont = Ok v ->
                              length v = shape0 x_categ).
  { intros v Hv. destruct x_categ as [c0 r], x_cont as [c' s].
    unfold shape0 in *. simpl in *.
    apply (FT_embed_rowwise self c0 c' r s v Hlen) in Hv as (h & _ & Hm).
    apply mapM_Ok_length in Hm. rewrite Hm, length_zip_with. lia. }
  split.
  - intros Hne. split.
    + intros v. apply FT_get_embeddings_chunked; assumption.
    + intros Hnst Hheads Hvalid.
      destruct (FT_embed_returns c w self x_categ x_cont Hinit Hnst Hheads Hlen Hvalid)
        as [v Hv].
      exists v. split; [|split].
      * apply FT_get_embeddings_chunked; assumption.
      * exact Hv.
      * apply Hlength. exact Hv.
  - intros Hnil. split.
    + unfold FT.get_embeddings, py_range, shape0. rewrite Hnil.
      rewrite (proj2 (Z.eqb_neq _ _)) by lia.
      rewrite (proj2 (Z.ltb_lt _ _) Hbs).
      change (Z.of_nat (length (@nil (list Z))) - 0 + batch_size - 1)
        with (0 - 0 + batch_size - 1).
      rewrite Z.div_small by lia. reflexivity.
    + intros Hnst Hheads Hvalid.
      destruct (FT_embed_returns c w self x_categ x_cont Hinit Hnst Hheads Hlen Hvalid)
        as [v Hv].
      simpl. rewrite Hv. f_equal.
      apply Hlength in Hv. unfold shape0 in Hv. rewrite Hnil in Hv.
      destruct v; [reflexivity | discriminate].
Qed.

(** The example model, with chunks of two rows: on the empty batch the
    chunked call raises where the other returns the empty result; on three
    valid rows (one chunk of two rows and one of one row) both return the
    same three embeddings. *)
Lemma chunked_embeddings_agree_unless_empty_witness :
  exists self,
    FT.init (K := Toy.kernels) (Examples.ft_config 1 false) (Toy.ft_weights 4 2 2 1)
    = Ok self /\
    (FT.get_embeddings (K := Toy.kernels) self (Tensor2 2 []) (Tensor2 2 []) (Some 2)
     = Raise RuntimeError /\
     FT.get_embeddings (K := Toy.kernels) self (Tensor2 2 []) (Tensor2 2 []) None
     = Ok []) /\
    (exists v,
        FT.get_embeddings (K := Toy.kernels) self (Tensor2 2 [[0; 0]; [1; 1]; [2; 4]])
                          (Tensor2 2 [[1; 2]; [3; 4]; [5; 6]]) (Some 2) = Ok v /\
        FT.get_embeddings (K := Toy.kernels) self (Tensor2 2 [[0; 0]; [1; 1]; [2; 4]])
                          (Tensor2 2 [[1; 2]; [3; 4]; [5; 6]]) None = Ok v /\
        length v = 3%nat).
Proof.
  destruct (result_check
              (FT.init (K := Toy.kernels) (Examples.ft_config 1 false)
                       (Toy.ft_weights 4 2 2 1))
              (fun _ => true)) as (self & E & _); [vm_compute; reflexivity|].
  exists self. split; [exact E|]. split.
  - destruct (chunked_embeddings_agree_unless_empty (K := Toy.kernels) _ _ self
                (Tensor2 2 []) (Tensor2 2 []) 2 E) as [_ H];
      [reflexivity | reflexivity | lia | reflexivity |].
    destruct (H eq_refl) as [H1 H2]. split; [exact H1|].
    apply H2; [simpl; lia | simpl; lia |].
    split; [reflexivity|]. split; [constructor | reflexivity].
  - destruct (chunked_embeddings_agree_unless_empty (K := Toy.kernels) _ _ self
                (Tensor2 2 [[0; 0]; [1; 1]; [2; 4]])
                (Tensor2 2 [[1; 2]; [3; 4]; [5; 6]]) 2 E) as [H _];
      [reflexivity | reflexivity | lia | reflexivity |].
    destruct (H ltac:(discriminate)) as [_ H2].
    apply H2; [simpl; lia | simpl; lia |].
    split; [reflexivity|]. split; [|reflexivity].
    repeat constructor; simpl; lia.
Defined.

(** ** Embedding extraction of TabTransformer *)

Section TabEmbeddings.
Context `{K : Kernels}.




End TabEmbeddings.




(** * Further properties of the two files *)

(** ** The chunk loop of get_embeddings *)

Lemma chunk_start_in_batch (n bs : Z) (k : nat) :
  0 < bs -> 0 <= n ->
  (k < Z.to_nat ((n - 0 + bs - 1) / bs))%nat ->
  Z.of_nat k * bs < n.
Proof.
  intros Hbs Hn Hk.
  assert (H0 : 0 <= (n - 0 + bs - 1) / bs) by (apply Z.div_pos; lia).
  pose proof (Z.mul_div_le (n - 0 + bs - 1) bs Hbs) as Hle.
  assert (Z.of_nat k + 1 <= (n - 0 + bs - 1) / bs) by lia.
  nia.
Qed.


(** The loop [for i in range(0, x.size(0), batch_size)] with the slices
    [x[start:end]], end = min(start + batch_size, x.size(0)): for a positive
    chunk size the slices are never empty, hold at most [batch_size] rows,
    and put end to end they are the input. *)
Theorem chunk_slices_cover_batch {A} (l : list A) (batch_size : Z) :
  0 < batch_size ->
  exists starts,
    py_range 0 (Z.of_nat (length l)) batch_size = Ok starts /\
    concat (map (fun i => slice_list l i (Z.min (i + batch_size) (Z.of_nat (length l))))
                starts) = l /\
    Forall (fun i =>
              0 < Z.of_nat (length (slice_list l i (Z.min (i + batch_size)
                                                          (Z.of_nat (length l)))))
              <= batch_size)
           starts.
Proof.
  intros Hbs. unfold py_range.
  rewrite (proj2 (Z.eqb_neq _ _)) by lia.
  rewrite (proj2 (Z.ltb_lt _ _) Hbs).
  set (cnt := Z.to_nat ((Z.of_nat (length l) - 0 + batch_size - 1) / batch_size)).
  destruct (chunk_count (Z.of_nat (length l)) batch_size Hbs ltac:(lia)) as [Hcover _].
  fold cnt in Hcover.
  eexists. split; [reflexivity|]. split.
  - rewrite map_map.
    rewrite (map_ext_in _ (fun k => take (Z.to_nat batch_size)
                                         (drop (k * Z.to_nat batch_size) l))).
    + apply concat_chunks. lia.
    + intros k _. apply (slice_list_chunk l batch_size k (length l) Hbs eq_refl).
  - apply Forall_map. apply Forall_forall. intros k Hk.
    apply elem_of_seq in Hk. simpl.
    rewrite (slice_list_chunk l batch_size k (length l) Hbs eq_refl).
    pose proof (chunk_start_in_batch (Z.of_nat (length l)) batch_size k Hbs
                                     ltac:(lia) ltac:(fold cnt; lia)) as Hstart.
    rewrite length_take, length_drop. nia.
Qed.

(** Five rows in chunks of two: slices of two, two and one row. *)
Lemma chunk_slices_cover_batch_witness :
  exists starts,
    py_range 0 5 2 = Ok starts /\
    map (fun i => slice_list [10; 11; 12; 13; 14] i (Z.min (i + 2) 5)) starts
    = [[10; 11]; [12; 13]; [14]].
Proof.
  destruct (chunk_slices_cover_batch [10; 11; 12; 13; 14] 2) as (starts & H & _ & _);
    [lia|].
  exists starts. split; [exact H|].
  vm_compute in H. injection H as <-. reflexivity.
Defined.

(** ** Rows of a batch are embedded independently *)

(** On a constructed model with dropout probability 0, [get_embeddings]
    without a chunk size on two batches put one after the other returns the
    embeddings of the first followed by those of the second, and returns
    exactly when it returns on both: no row influences the embedding of
    another. *)
Theorem embeddings_of_concatenated_batches `{K : Kernels}
        (cfg : FT.config) (w : FT.weights) (self : gmap string FT.attr)
        (c c' : nat) (r1 r2 : list (list Z)) (s1 s2 : list (list scalar)) (v : batch) :
  FT.init cfg w = Ok self ->
  FT.attn_dropout cfg = fzero ->
  FT.ff_dropout cfg = fzero ->
  length r1 = length s1 ->
  length r2 = length s2 ->
  FT.get_embeddings self (Tensor2 c (r1 ++ r2)) (Tensor2 c' (s1 ++ s2)) None = Ok v <->
  exists v1 v2,
    FT.get_embeddings self (Tensor2 c r1) (Tensor2 c' s1) None = Ok v1 /\
    FT.get_embeddings self (Tensor2 c r2) (Tensor2 c' s2) None = Ok v2 /\
    v = v1 ++ v2.
Proof.
  intros _ _ _ H1 H2. simpl.
  rewrite (FT_embed_rowwise self c c' (r1 ++ r2) (s1 ++ s2) v)
    by (rewrite !length_app; lia).
  assert (Hzip : zip (r1 ++ r2) (s1 ++ s2) = zip r1 s1 ++ zip r2 s2)
    by (apply zip_with_app; exact H1).
  split.
  - intros (h & Hh & Hm). rewrite Hzip, mapM_app in Hm.
    apply bind_Ok_inv in Hm as (v1 & Hv1 & Hm).
    apply bind_Ok_inv in Hm as (v2 & Hv2 & Hm). injection Hm as <-.
    exists v1, v2. split; [|split; [|reflexivity]].
    + apply (FT_embed_rowwise self c c' r1 s1 v1 H1). eauto.
    + apply (FT_embed_rowwise self c c' r2 s2 v2 H2). eauto.
  - intros (v1 & v2 & Hv1 & Hv2 & ->).
    apply (FT_embed_rowwise self c c' r1 s1 v1 H1) in Hv1 as (h & Hh & Hm1).
    apply (FT_embed_rowwise self c c' r2 s2 v2 H2) in Hv2 as (h' & Hh' & Hm2).
    rewrite Hh in Hh'. injection Hh' as <-.
    exists h. split; [exact Hh|].
    rewrite Hzip, mapM_app, Hm1. simpl. rewrite Hm2. reflexivity.
Qed.

(** Two rows and one row of the example schema, and the three together. *)
Lemma embeddings_of_concatenated_batches_witness :
  exists self v1 v2,
    FT.init (K := Toy.kernels) (Examples.ft_config 1 false) (Toy.ft_weights 4 2 2 1)
    = Ok self /\
    FT.get_embeddings (K := Toy.kernels) self (Tensor2 2 [[0; 0]; [1; 1]])
                      (Tensor2 2 [[1; 2]; [3; 4]]) None = Ok v1 /\
    FT.get_embeddings (K := Toy.kernels) self (Tensor2 2 [[2; 4]])
                      (Tensor2 2 [[5; 6]]) None = Ok v2 /\
    FT.get_embeddings (K := Toy.kernels) self (Tensor2 2 [[0; 0]; [1; 1]; [2; 4]])
                      (Tensor2 2 [[1; 2]; [3; 4]; [5; 6]]) None = Ok (v1 ++ v2).
Proof.
  destruct (result_check
              (FT.init (K := Toy.kernels) (Examples.ft_config 1 false)
                       (Toy.ft_weights 4 2 2 1))
              (fun self =>
                 match FT.get_embeddings (K := Toy.kernels) self
                         (Tensor2 2 [[0; 0]; [1; 1]]) (Tensor2 2 [[1; 2]; [3; 4]]) None,
                       FT.get_embeddings (K := Toy.kernels) self
                         (Tensor2 2 [[2; 4]]) (Tensor2 2 [[5; 6]]) None with
                 | Ok _, Ok _ => true
                 | _, _ => false
                 end)) as (self & E & Hp); [vm_compute; reflexivity|].
  destruct (FT.get_embeddings (K := Toy.kernels) self
              (Tensor2 2 [[0; 0]; [1; 1]]) (Tensor2 2 [[1; 2]; [3; 4]]) None)
    as [v1|] eqn:E1; [|discriminate].
  destruct (FT.get_embeddings (K := Toy.kernels) self
              (Tensor2 2 [[2; 4]]) (Tensor2 2 [[5; 6]]) None)
    as [v2|] eqn:E2; [|discriminate].
  exists self, v1, v2. split; [exact E|]. split; [exact E1|]. split; [exact E2|].
  apply (proj2 (embeddings_of_concatenated_batches (K := Toy.kernels) _ _ self 2 2
                  [[0; 0]; [1; 1]] [[2; 4]] [[1; 2]; [3; 4]] [[5; 6]] (v1 ++ v2)
                  E eq_refl eq_refl eq_refl eq_refl)).
  exists v1, v2. auto.
Defined.

(** ** Chunk sizes that are not positive *)

(** A chunk size of zero makes [range] raise, and a negative one leaves the
    loop without a round and [torch.cat] with an empty list: with either,
    [get_embeddings] of FTTransformer raises on every model and input. *)
Theorem nonpositive_chunk_size_raises `{K : Kernels} (self : gmap string FT.attr)
        (x_categ : tensor2 Z) (x_cont : tensor2 scalar) (batch_size : Z) :
  batch_size <= 0 ->
  FT.get_embeddings self x_categ x_cont (Some batch_size)
  = Raise (if batch_size =? 0 then ValueError else RuntimeError).
Proof.
  intros Hbs. unfold FT.get_embeddings, py_range.
  destruct (batch_size =? 0) eqn:E0; [reflexivity|].
  apply Z.eqb_neq in E0.
  rewrite (proj2 (Z.ltb_ge _ _)) by lia. simpl.
  assert (Hcnt : Z.to_nat ((0 - Z.of_nat (shape0 x_categ) - batch_size - 1)
                           / - batch_size) = 0%nat).
  { assert ((0 - Z.of_nat (shape0 x_categ) - batch_size - 1) / - batch_size < 1);
      [|lia].
    apply Z.div_lt_upper_bound; lia. }
  rewrite Hcnt. reflexivity.
Qed.

Lemma nonpositive_chunk_size_raises_witness :
  FT.get_embeddings (K := Toy.kernels) ∅ (Tensor2 2 [[0; 0]]) (Tensor2 2 [[1; 2]]) (Some 0)
  = Raise ValueError /\
  FT.get_embeddings (K := Toy.kernels) ∅ (Tensor2 2 [[0; 0]]) (Tensor2 2 [[1; 2]]) (Some (-3))
  = Raise RuntimeError.
Proof.
  split.
  - apply (nonpositive_chunk_size_raises (K := Toy.kernels) ∅ (Tensor2 2 [[0; 0]])
             (Tensor2 2 [[1; 2]]) 0). lia.
  - apply (nonpositive_chunk_size_raises (K := Toy.kernels) ∅ (Tensor2 2 [[0; 0]])
             (Tensor2 2 [[1; 2]]) (-3)). lia.
Defined.

(** ** GEGLU *)

(** On a vector of even length, [GEGLU.forward] multiplies the first half by
    the GELU of the second half: the gates are the second half. *)
Theorem geglu_gates_second_half `{K : Kernels} (a b : vec) :
  length a = length b ->
  ft_transformer.GEGLU.forward (a ++ b) = zip_with fmul a (map F_gelu b).
Proof.
  intros Hlen. unfold ft_transformer.GEGLU.forward, chunk_nth, chunk.
  rewrite length_app, <- Hlen.
  destruct a as [|x a].
  - destruct b; [reflexivity | discriminate].
  - destruct b as [|y b]; [discriminate|].
    set (n := length (x :: a)).
    assert (Hn : Nat.div (n + n + 2 - 1) 2 = n).
    { replace (n + n + 2 - 1)%nat with (1 + n * 2)%nat by lia.
      rewrite Nat.div_add by lia. reflexivity. }
    rewrite Hn.
    assert (Hp : pieces 2 n ((x :: a) ++ y :: b) = [x :: a; y :: b]).
    { change (pieces 2 n ((x :: a) ++ y :: b))
        with (firstn n ((x :: a) ++ y :: b)
              :: pieces 1 n (skipn n ((x :: a) ++ y :: b))).
      unfold n. rewrite (take_app_length (x :: a) (y :: b)).
      rewrite (drop_app_length (x :: a) (y :: b)). rewrite Hlen.
      change (pieces 1 (length (y :: b)) (y :: b))
        with (firstn (length (y :: b)) (y :: b)
              :: pieces 0 (length (y :: b)) (skipn (length (y :: b)) (y :: b))).
      rewrite firstn_all. reflexivity. }
    rewrite Hp. reflexivity.
Qed.

Lemma geglu_gates_second_half_witness :
  ft_transformer.GEGLU.forward (K := Toy.kernels) [2; 3; 5; 7] = [10; 21].
Proof.
  apply (geglu_gates_second_half (K := Toy.kernels) [2; 3] [5; 7]). reflexivity.
Defined.

(** ** The layers of the MLP *)

Section MLPLayers.
Context `{K : Kernels}.

Lemma flat_map_fmap {A B C} (f : B -> list C) (g : A -> B) (l : list A) :
  flat_map f (g <$> l) = flat_map (fun x => f (g x)) l.
Proof. induction l as [|x l IH]; simpl; [reflexivity | f_equal; exact IH]. Qed.

Lemma MLP_build_spec (w : nat -> LinearW) (a : vec -> vec)
      (pairs : list (Z * Z)) :
  forall (ind n : nat) (act : option (vec -> vec)),
    pairs <> [] ->
    n = (ind + length pairs)%nat ->
    tab_transformer_pytorch.default act (map F_relu) = a ->
    tab_transformer_pytorch.MLP.build ind n pairs act w
    = flat_map (fun j =>
                  [tab_transformer_pytorch.MLP.MLinear
                     {| in_features := (nth j pairs (0, 0)).1;
                        out_features := (nth j pairs (0, 0)).2;
                        has_bias := true;
                        lin_weights := w (ind + j)%nat |};
                   tab_transformer_pytorch.MLP.MAct a])
               (seq 0 (length pairs - 1))
      ++ [tab_transformer_pytorch.MLP.MLinear
            {| in_features := (nth (length pairs - 1) pairs (0, 0)).1;
               out_features := (nth (length pairs - 1) pairs (0, 0)).2;
               has_bias := true;
               lin_weights := w (ind + (length pairs - 1))%nat |}].
Proof.
  induction pairs as [|[dim_in dim_out] rest IH]; intros ind n act Hne Hn Ha;
    [congruence|].
  simpl tab_transformer_pytorch.MLP.build.
  destruct rest as [|q rest'].
  - simpl in Hn. rewrite (proj2 (Z.leb_le _ _)) by lia.
    simpl. rewrite Nat.add_0_r. reflexivity.
  - simpl length in Hn. rewrite (proj2 (Z.leb_gt _ _)) by lia.
    rewrite Ha.
    rewrite (IH (S ind) n (Some a)) by (simpl; (discriminate || lia || reflexivity)).
    replace (length ((dim_in, dim_out) :: q :: rest') - 1)%nat
      with (S (length rest')) by (simpl; lia).
    replace (length (q :: rest') - 1)%nat with (length rest') by (simpl; lia).
    rewrite <- cons_seq, <- (fmap_S_seq 0).
    cbn [flat_map app nth fst snd]. rewrite Nat.add_0_r. f_equal. f_equal.
    rewrite flat_map_fmap. f_equal.
    + apply flat_map_ext. intros j. cbn [nth]. rewrite Nat.add_succ_r. reflexivity.
    + rewrite Nat.add_succ_r. reflexivity.
Qed.
End MLPLayers.

Lemma nth_dims_pairs (dims : list Z) (j : nat) :
  (S j < length dims)%nat ->
  nth j (zip (removelast dims) (List.tl dims)) (0, 0) = (nth j dims 0, nth (S j) dims 0).
Proof.
  revert j. induction dims as [|d ds IH]; intros j Hj; [simpl in Hj; lia|].
  destruct ds as [|d' ds']; [simpl in Hj; lia|].
  change (removelast (d :: d' :: ds')) with (d :: removelast (d' :: ds')).
  change (List.tl (d :: d' :: ds')) with (d' :: ds').
  destruct j as [|j]; [reflexivity|].
  change (nth (S j) (zip (d :: removelast (d' :: ds')) (d' :: ds')) (0, 0))
    with (nth j (zip (removelast (d' :: ds')) (List.tl (d' :: ds'))) (0, 0)).
  rewrite IH by (simpl in *; lia). reflexivity.
Qed.

Lemma length_dims_pairs (dims : list Z) :
  length (zip (removelast dims) (List.tl dims)) = (length dims - 1)%nat.
Proof.
  rewrite length_zip_with.
  assert (length (removelast dims) = (length dims - 1)%nat).
  { induction dims as [|d [|d' ds] IH]; try reflexivity.
    change (removelast (d :: d' :: ds)) with (d :: removelast (d' :: ds)).
    simpl length in *. rewrite IH. lia. }
  destruct dims; simpl in *; lia.
Qed.

(** [MLP.__init__] on [dims] of k + 2 entries builds k + 1 linear layers,
    layer j from dims[j] to dims[j + 1], with the activation (ReLU unless
    one is given) after each of them but the last; on fewer than two
    entries it builds nothing and [forward] is the identity. *)
Theorem mlp_layers `{K : Kernels} (dims : list Z) (act : option (vec -> vec))
        (w : nat -> LinearW) :
  let a := tab_transformer_pytorch.default act (map F_relu) in
  let lin j :=
    tab_transformer_pytorch.MLP.MLinear
      {| in_features := nth j dims 0; out_features := nth (S j) dims 0;
         has_bias := true; lin_weights := w j |} in
  (forall k : nat,
      length dims = S (S k) ->
      tab_transformer_pytorch.MLP.mlp (tab_transformer_pytorch.MLP.init dims act w)
      = flat_map (fun j => [lin j; tab_transformer_pytorch.MLP.MAct a]) (seq 0 k)
        ++ [lin k]) /\
  ((length dims <= 1)%nat ->
   forall x, tab_transformer_pytorch.MLP.forward
               (tab_transformer_pytorch.MLP.init dims act w) x = x).
Proof.
  intros a lin. split.
  - intros k Hk. unfold tab_transformer_pytorch.MLP.init.
    cbn [tab_transformer_pytorch.MLP.mlp].
    pose proof (length_dims_pairs dims) as Hlen. rewrite Hk in Hlen.
    cbv zeta.
    rewrite (MLP_build_spec w a (zip (removelast dims) (List.tl dims)) 0
               (length (zip (removelast dims) (List.tl dims))) act)
      by (reflexivity || (intros E; rewrite E in Hlen; simpl in Hlen; lia)).
    rewrite Hlen. replace (S (S k) - 1 - 1)%nat with k by lia.
    f_equal.
    + rewrite !flat_map_concat_map. f_equal. apply map_ext_in.
      intros j Hj. apply in_seq in Hj. unfold lin.
      rewrite nth_dims_pairs by lia. reflexivity.
    + unfold lin. rewrite nth_dims_pairs by lia. reflexivity.
  - intros Hle x. unfold tab_transformer_pytorch.MLP.init, tab_transformer_pytorch.MLP.forward.
    cbn [tab_transformer_pytorch.MLP.mlp].
    pose proof (length_dims_pairs dims) as Hlen.
    destruct (zip (removelast dims) (List.tl dims)) as [|p ps];
      [|simpl in Hlen; lia].
    simpl. apply map_id.
Qed.

(** The head of TabTransformer for an input of six entries and hidden
    multipliers (4, 2): three linear layers and two activations. *)
Lemma mlp_layers_witness :
  map (fun m => match m with
                | tab_transformer_pytorch.MLP.MLinear l =>
                    Some (in_features l, out_features l)
                | tab_transformer_pytorch.MLP.MAct _ => None
                end)
      (tab_transformer_pytorch.MLP.mlp
         (tab_transformer_pytorch.MLP.init (K := Toy.kernels) [6; 24; 12; 1] None
                                           (fun j => j)))
  = [Some (6, 24); None; Some (24, 12); None; Some (12, 1)].
Proof.
  rewrite (proj1 (mlp_layers (K := Toy.kernels) [6; 24; 12; 1] None (fun j => j))
                 2%nat eq_refl).
  reflexivity.
Defined.

(** ** Global ids of different fields *)

Lemma forallb_take {A} (p : A -> bool) (l : list A) (i : nat) :
  forallb p l = true -> forallb p (take i l) = true.
Proof.
  revert i. induction l as [|x l IH]; intros [|i] H; try reflexivity.
  simpl in *. apply andb_prop in H as [Hx Hl]. rewrite Hx, (IH i Hl). reflexivity.
Qed.

Lemma py_sum_take_mono (cs : list Z) (i j : nat) :
  forallb (fun n => 0 <? n) cs = true ->
  (i <= j)%nat ->
  py_sum (take i cs) <= py_sum (take j cs).
Proof.
  intros Hpos Hij.
  replace (take i cs) with (take i (take j cs)) by (rewrite take_take; f_equal; lia).
  apply py_sum_take_le. apply forallb_take. exact Hpos.
Qed.

(** In a constructed model of either class, the offsets keep the fields
    apart: a valid code of field i and a valid code of a later field j get
    different global ids, the first below the second, so no two fields share
    a row of the embedding table. *)
Theorem fields_have_disjoint_ids `{K : Kernels} (mc : model_config) (m : model)
        (i j : nat) (card_i card_j code code' : Z) :
  construct mc = Ok m ->
  0 <= num_special_tokens_of mc ->
  categories_of mc !! i = Some card_i ->
  categories_of mc !! j = Some card_j ->
  (i < j)%nat ->
  0 <= code < card_i ->
  0 <= code' < card_j ->
  exists offset o_i o_j,
    categories_offset_of m = Some offset /\
    offset !! i = Some o_i /\
    offset !! j = Some o_j /\
    add64 code o_i < add64 code' o_j.
Proof.
  intros Hc Hnst Hi Hj Hij Hcode Hcode'.
  assert (Hne : categories_of mc <> []) by (intros E; rewrite E in Hi; discriminate).
  destruct (constructed_offsets mc m Hc Hnst Hne) as (Hoff & Hmax & Hpos).
  pose proof (lookup_lt_Some _ _ _ Hi) as Hli.
  pose proof (lookup_lt_Some _ _ _ Hj) as Hlj.
  exists (offset_table (num_special_tokens_of mc) (categories_of mc)),
         (num_special_tokens_of mc + py_sum (take i (categories_of mc))),
         (num_special_tokens_of mc + py_sum (take j (categories_of mc))).
  split; [exact Hoff|].
  split; [apply offset_table_lookup; exact Hli|].
  split; [apply offset_table_lookup; exact Hlj|].
  pose proof (py_sum_take_S _ _ _ Hi) as HSi.
  pose proof (py_sum_take_S _ _ _ Hj) as HSj.
  pose proof (py_sum_take_mono (categories_of mc) (S i) j Hpos ltac:(lia)) as Hmono.
  pose proof (py_sum_take_le (categories_of mc) (S j) Hpos) as Htop.
  pose proof (py_sum_nonneg _ (forallb_take _ _ i Hpos)) as Hnn.
  unfold total_tokens in Hmax.
  rewrite !add64_small by (unfold int64_min; lia).
  lia.
Qed.

(** The example schema [3; 5] with two special tokens: the largest code of
    the first field gets id 4 and the smallest of the second id 5. *)
Lemma fields_have_disjoint_ids_witness :
  exists m offset,
    construct (Examples.ft 1 false) = Ok m /\
    categories_offset_of m = Some offset /\
    offset !! 0%nat = Some 2 /\ offset !! 1%nat = Some 5 /\
    add64 2 2 < add64 0 5.
Proof.
  destruct (result_check (construct (Examples.ft 1 false)) (fun _ => true))
    as (m & E & _); [vm_compute; reflexivity|].
  destruct (fields_have_disjoint_ids (Examples.ft 1 false) m 0 1 3 5 2 0 E)
    as (offset & o_i & o_j & Hoff & Hi & Hj & Hlt);
    try reflexivity; try (simpl; lia).
  exists m, offset. split; [exact E|]. split; [exact Hoff|].
  destruct (constructed_offsets (Examples.ft 1 false) m E) as (Hoff' & _);
    [simpl; lia | discriminate |].
  rewrite Hoff' in Hoff. injection Hoff as <-.
  split; [reflexivity|]. split; [reflexivity|].
  injection Hi as <-. injection Hj as <-. exact Hlt.
Defined.


(** ** The divisor of the shared embedding *)

(** [shared_categ_dim_divisor] is read only when the shared category
    embedding is switched on: with it on, a divisor of zero makes the
    construction of TabTransformer raise ZeroDivisionError (for a schema
    that passes the two assertions); with it off, the construction does the
    same whatever the divisor is. *)
Theorem shared_embed_divisor `{K : Kernels} (c : Tab.config) (w : Tab.weights)
        (d : Z) :
  let c' :=
    {| Tab.categories := Tab.categories c; Tab.num_continuous := Tab.num_continuous c;
       Tab.dim := Tab.dim c; Tab.depth := Tab.depth c; Tab.heads := Tab.heads c;
       Tab.dim_head := Tab.dim_head c; Tab.dim_out := Tab.dim_out c;
       Tab.mlp_hidden_mults := Tab.mlp_hidden_mults c; Tab.mlp_act := Tab.mlp_act c;
       Tab.num_special_tokens := Tab.num_special_tokens c;
       Tab.continuous_mean_std := Tab.continuous_mean_std c;
       Tab.attn_dropout := Tab.attn_dropout c; Tab.ff_dropout := Tab.ff_dropout c;
       Tab.use_shared_categ_embed := Tab.use_shared_categ_embed c;
       Tab.shared_categ_dim_divisor := d;
       Tab.checkpoint_grads := Tab.checkpoint_grads c;
       Tab.use_flash_attn := Tab.use_flash_attn c |} in
  (forallb (fun n => 0 <? n) (Tab.categories c) = true ->
   0 < py_len (Tab.categories c) + Tab.num_continuous c ->
   Tab.use_shared_categ_embed c = true ->
   Tab.shared_categ_dim_divisor c = 0 ->
   Tab.init c w = Raise ZeroDivisionError) /\
  (Tab.use_shared_categ_embed c = false ->
   Tab.init c' w = Tab.init c w).
Proof.
  intros c'. split.
  - intros Hpos Hnn Hshared Hdiv. unfold Tab.init.
    rewrite Hpos, (proj2 (Z.ltb_lt _ _) Hnn), Hshared, Hdiv. reflexivity.
  - intros Hshared. unfold Tab.init, c'.
    cbn [Tab.categories Tab.num_continuous Tab.dim Tab.depth Tab.heads Tab.dim_head
         Tab.dim_out Tab.mlp_hidden_mults Tab.mlp_act Tab.num_special_tokens
         Tab.continuous_mean_std Tab.attn_dropout Tab.ff_dropout
         Tab.use_shared_categ_embed Tab.shared_categ_dim_divisor
         Tab.checkpoint_grads Tab.use_flash_attn].
    rewrite Hshared. reflexivity.
Qed.

(** The example schema with the shared embedding on and a divisor of zero. *)
Lemma shared_embed_divisor_witness :
  let c := Examples.tab_config [3; 5] 2 1 None in
  let c0 :=
    {| Tab.categories := Tab.categories c; Tab.num_continuous := Tab.num_continuous c;
       Tab.dim := Tab.dim c; Tab.depth := Tab.depth c; Tab.heads := Tab.heads c;
       Tab.dim_head := Tab.dim_head c; Tab.dim_out := Tab.dim_out c;
       Tab.mlp_hidden_mults := Tab.mlp_hidden_mults c; Tab.mlp_act := Tab.mlp_act c;
       Tab.num_special_tokens := Tab.num_special_tokens c;
       Tab.continuous_mean_std := Tab.continuous_mean_std c;
       Tab.attn_dropout := Tab.attn_dropout c; Tab.ff_dropout := Tab.ff_dropout c;
       Tab.use_shared_categ_embed := true;
       Tab.shared_categ_dim_divisor := 0;
       Tab.checkpoint_grads := Tab.checkpoint_grads c;
       Tab.use_flash_attn := Tab.use_flash_attn c |} in
  Tab.init (K := Toy.kernels) c0 (Toy.tab_weights 8 2 2 (fun _ => 1%nat))
  = Raise ZeroDivisionError.
Proof.
  intros c c0.
  apply (proj1 (shared_embed_divisor (K := Toy.kernels) c0
                  (Toy.tab_weights 8 2 2 (fun _ => 1%nat)) 0)); reflexivity.
Defined.

(** ** A stack without layers *)

(** With [depth <= 0] the loop over the layers runs no round: [forward]
    returns its input unchanged, and with attention maps requested
    [torch.stack] gets an empty list and raises; in both files. *)
Theorem stack_without_layers `{K : Kernels} (dim depth heads dim_head : Z)
        (attn_dropout ff_dropout : scalar) (checkpoint_grads use_flash_attn : bool) :
  depth <= 0 ->
  (forall w (x : batch),
      let t := FTT.init dim depth heads dim_head attn_dropout ff_dropout
                        checkpoint_grads use_flash_attn w in
      FTT.forward t x false = Ok (FTT.Hidden x) /\
      FTT.forward t x true = Raise RuntimeError) /\
  (forall w (x : tab_transformer_pytorch.hidden),
      let t := TabT.init dim depth heads dim_head attn_dropout ff_dropout 2
                         checkpoint_grads use_flash_attn w in
      TabT.forward t x false = Ok (TabT.Hidden x) /\
      TabT.forward t x true = Raise RuntimeError).
Proof.
  intros Hd.
  assert (Hz : Z.to_nat depth = 0%nat) by lia.
  split; intros w x t; unfold t, FTT.forward, FTT.init, TabT.forward, TabT.init;
    simpl; rewrite Hz; simpl; split; reflexivity.
Qed.

Lemma stack_without_layers_witness :
  FTT.forward (K := Toy.kernels)
              (FTT.init (K := Toy.kernels) 4 0 2 2 0 0 false false
                        (ft_transformer.FTTransformer.w_transformer (Toy.ft_weights 4 2 2 1)))
              [[[1; 2; 3; 4]]] true
  = Raise RuntimeError.
Proof.
  apply (proj1 (stack_without_layers (K := Toy.kernels) 4 0 2 2 0 0 false false
                  ltac:(lia))).
Defined.

(** ** Shapes along the FTTransformer pipeline *)

Section Shapes.
Context `{K : Kernels}.

Lemma merge_heads_length (out : list tokens) (n : nat) :
  out <> [] ->
  Forall (fun t => length t = n) out ->
  length (merge_heads out) = n.
Proof.
  induction out as [|t out IH]; intros Hne Hall; [congruence|].
  apply Forall_cons in Hall as [Ht Hout].
  destruct out as [|t' out']; [exact Ht|].
  change (merge_heads (t :: t' :: out'))
    with (zip_with (@app scalar) t (merge_heads (t' :: out'))).
  rewrite length_zip_with, Ht, IH by (assumption || discriminate). lia.
Qed.

Lemma split_heads_shape (h : nat) (t : tokens) :
  length (split_heads h t) = h /\
  Forall (fun x => length x = length t) (split_heads h t).
Proof.
  unfold split_heads. split.
  - rewrite length_map, length_seq. reflexivity.
  - apply Forall_map. apply Forall_forall. intros i _. simpl.
    apply length_map.
Qed.

Lemma Forall_zip_with_l {A B C} (P : C -> Prop) (f : A -> B -> C)
      (l : list A) (k : list B) :
  Forall (fun x => forall y, P (f x y)) l -> Forall P (zip_with f l k).
Proof.
  intros H. revert k. induction H as [|x l Hx _ IH]; intros [|y k]; simpl;
    constructor; auto.
Qed.

(** Without the fused kernel, attention keeps the number of tokens. *)
Lemma attend_length (a : ft_transformer.Attention.t) (t : tokens) :
  0 < ft_transformer.Attention.heads a ->
  ft_transformer.Attention.use_flash_attn a = false ->
  length (ft_transformer.Attention.attend a t) = length t.
Proof.
  intros Hh Hf. unfold ft_transformer.Attention.attend. rewrite Hf.
  rewrite length_map. unfold nn_Dropout.
  set (h := Z.to_nat (ft_transformer.Attention.heads a)).
  set (x := map (linear (lin_weights (ft_transformer.Attention.to_qkv a)))
                (map (layer_norm (ln_weights (ft_transformer.Attention.norm a))) t)).
  assert (Hx : forall i, length (map (chunk_nth 3 i) x) = length t)
    by (intros i; unfold x; rewrite !length_map; reflexivity).
  destruct (split_heads_shape h (map (chunk_nth 3 0) x)) as [Lq Fq].
  destruct (split_heads_shape h (map (chunk_nth 3 1) x)) as [Lk Fk].
  destruct (split_heads_shape h (map (chunk_nth 3 2) x)) as [Lv Fv].
  rewrite Hx in Fq, Fk, Fv.
  apply merge_heads_length.
  - intros E. apply (f_equal length) in E. rewrite !length_zip_with in E.
    rewrite !length_map, length_zip_with, Lq, Lk, Lv in E. simpl in E.
    unfold h in E. lia.
  - apply Forall_zip_with_l. apply Forall_map. apply Forall_zip_with_l.
    eapply Forall_impl; [exact Fq|]. simpl. intros qh Hq kh vh.
    unfold einsum_av, einsum_qk. rewrite !length_map. exact Hq.
Qed.

Lemma tokens_add_length (s t : tokens) :
  length s = length t -> length (tokens_add s t) = length t.
Proof. intros H. unfold tokens_add. rewrite length_zip_with. lia. Qed.

Lemma ft_example_stack_length
      (layers : list (ft_transformer.Attention.t * ft_transformer.FeedForward.t))
      (t : tokens) :
  Forall (fun l => 0 < ft_transformer.Attention.heads l.1 /\
                   ft_transformer.Attention.use_flash_attn l.1 = false) layers ->
  length (ft_example_stack layers t) = length t.
Proof.
  intros H. revert t. unfold ft_example_stack.
  induction H as [|l layers [Hh Hf] _ IH]; intros t; [reflexivity|].
  simpl fold_left. rewrite IH.
  rewrite tokens_add_length; unfold ft_feedforward_tokens; rewrite ?length_map;
    rewrite tokens_add_length; try reflexivity; apply attend_length; assumption.
Qed.

Lemma FT_init_layers (c : FT.config) (w : FT.weights) :
  Forall (fun l => ft_transformer.Attention.heads l.1 = FT.heads c /\
                   ft_transformer.Attention.use_flash_attn l.1 = FT.use_flash_attn c)
         (FTT.layers (FTT.init (FT.dim c) (FT.depth c) (FT.heads c) (FT.dim_head c)
                               (FT.attn_dropout c) (FT.ff_dropout c)
                               (FT.checkpoint_grads c) (FT.use_flash_attn c)
                               (FT.w_transformer w))).
Proof.
  unfold FTT.init. simpl. apply Forall_map. apply Forall_forall. intros i _.
  split; reflexivity.
Qed.


End Shapes.

Lemma mapM_Ok_with {A B} (P : B -> Prop) (f : A -> result B) (l : list A) :
  Forall (fun a => exists b, f a = Ok b /\ P b) l ->
  exists v, mapM f l = Ok v /\ length v = length l /\ Forall P v.
Proof.
  induction 1 as [|a l (b & Hb & Pb) _ (v & Hv & Hl & Pv)]; simpl.
  - exists []. repeat split. constructor.
  - rewrite Hb. simpl. rewrite Hv. simpl. exists (b :: v).
    split; [reflexivity|]. split; [simpl; rewrite Hl; reflexivity|].
    constructor; assumption.
Qed.




(** ** Forward of FTTransformer on a valid input *)

Lemma bind_Ok_eq {A B} (m : result A) (f : A -> result B) (a : A) :
  m = Ok a -> m ≫= f = f a.
Proof. intros ->. reflexivity. Qed.

Section ForwardReturns.
Context `{K : Kernels}.

Lemma first_token_Ok (y : batch) :
  Forall (fun t => t <> []) y ->
  exists l, FT.first_token y = Ok l /\ length l = length y.
Proof.
  intros H. unfold FT.first_token.
  destruct (mapM_Ok_with (fun _ : vec => True)
              (fun t : tokens => match t with v :: _ => Ok v | [] => Raise IndexError end)
              y) as (l & Hl & Hlen & _).
  - eapply Forall_impl; [exact H|]. simpl. intros [|v t] Ht; [congruence|].
    exists v. split; [reflexivity | exact I].
  - exists l. split; assumption.
Qed.
End ForwardReturns.

(** On a constructed FTTransformer without the fused kernel, with a positive
    number of heads, [forward] without attention maps on an input of the
    configured categorical width with valid codes returns logits, one entry
    per row. *)
Theorem ft_forward_returns_logits `{K : Kernels} (c : FT.config) (w : FT.weights)
        (self : gmap string FT.attr) (x_categ : tensor2 Z) (x_numer : tensor2 scalar) :
  FT.init c w = Ok self ->
  FT.use_flash_attn c = false ->
  0 < FT.heads c ->
  0 <= FT.num_special_tokens c ->
  valid_input c x_categ x_numer ->
  shape0 x_categ = shape0 x_numer ->
  exists logits,
    FT.forward self x_categ x_numer false = Ok (FT.Logits logits) /\
    length logits = shape0 x_categ.
Proof.
  intros Hinit Hflash Hheads Hnst Hvalid Hlen.
  destruct (FT_embed_returns c w self x_categ x_numer Hinit Hnst Hheads Hlen Hvalid)
    as [v Hv].
  destruct Hvalid as (Hs1 & _ & _).
  apply FT_init_inv in Hinit as [_ _ Hnc _ _ _ _ Hcls Htr (ln & lin & Hlog)].
  unfold FT.embed in Hv.
  apply bind_Ok_inv in Hv as (xs1 & E1 & Hv).
  apply bind_Ok_inv in Hv as (xs2 & E2 & Hv).
  apply bind_Ok_inv in Hv as (x & E3 & Hv).
  apply bind_Ok_inv in Hv as (x' & E4 & Hv).
  apply bind_Ok_inv in Hv as (T & E5 & Hv).
  apply bind_Ok_inv in Hv as (r & E6 & _).
  pose proof (FT_tokens_length self x_categ x_numer xs1 xs2 x x' E1 E2 E3 E4) as Hlx.
  assert (Hx' : x' = map (fun t => map (FT.w_cls_token w) (seq 0 (Z.to_nat (FT.dim c))) :: t) x).
  { unfold FT.prepend_cls, FT.getattr in E4. rewrite Hcls in E4. simpl in E4.
    injection E4 as <-. reflexivity. }
  assert (HT : T = FTT.init (FT.dim c) (FT.depth c) (FT.heads c) (FT.dim_head c)
                            (FT.attn_dropout c) (FT.ff_dropout c)
                            (FT.checkpoint_grads c) (FT.use_flash_attn c)
                            (FT.w_transformer w)).
  { unfold FT.getattr in E5. rewrite Htr in E5. simpl in E5. congruence. }
  pose proof (FT_init_layers c w) as Hlayers. rewrite <- HT in Hlayers.
  rewrite FT_forward_false in E6
    by (eapply Forall_impl; [exact Hlayers|]; simpl; intros l [-> _]; exact Hheads).
  injection E6 as <-.
  destruct (first_token_Ok (ft_residual_stack (FTT.layers T) x')) as (l & Hl & Hll).
  { rewrite ft_residual_stack_map. apply Forall_map. rewrite Hx'. apply Forall_map.
    apply Forall_forall. intros t _. simpl. intros E.
    apply (f_equal length) in E. rewrite ft_example_stack_length in E; [discriminate|].
    eapply Forall_impl; [exact Hlayers|]. simpl. intros l0 [-> ->]. split; assumption. }
  eexists. split.
  - unfold FT.forward.
    rewrite (bind_Ok_eq (FT.getattr self "num_categories" ≫= FT.as_int)
                        _ (py_len (FT.categories c)))
      by (unfold FT.getattr; rewrite Hnc; reflexivity).
    rewrite Hs1. unfold py_len. rewrite Z.eqb_refl. unfold py_assert.
    rewrite (bind_Ok_eq (Ok tt) _ tt eq_refl).
    rewrite (bind_Ok_eq _ _ _ E1), (bind_Ok_eq _ _ _ E2), (bind_Ok_eq _ _ _ E3),
      (bind_Ok_eq _ _ _ E4), (bind_Ok_eq _ _ _ E5).
    rewrite FT_forward_false
      by (eapply Forall_impl; [exact Hlayers|]; simpl; intros l0 [-> _]; exact Hheads).
    rewrite (bind_Ok_eq _ _ _ eq_refl).
    rewrite (bind_Ok_eq _ _ _ Hl).
    rewrite (bind_Ok_eq (FT.getattr self "to_logits" ≫= FT.as_sequential) _ (ln, lin))
      by (unfold FT.getattr; rewrite Hlog; reflexivity).
    reflexivity.
  - rewrite length_map, Hll, ft_residual_stack_map, length_map.
    destruct Hlx as [-> | ->]; [reflexivity | symmetry; exact Hlen].
Qed.

(** Two rows of the example schema: two logits. *)
Lemma ft_forward_returns_logits_witness :
  exists self logits,
    FT.init (K := Toy.kernels) (Examples.ft_config 2 false) (Toy.ft_weights 4 2 2 1)
    = Ok self /\
    FT.forward (K := Toy.kernels) self (Tensor2 2 [[0; 0]; [2; 4]])
               (Tensor2 2 [[1; 2]; [3; 4]]) false = Ok (FT.Logits logits) /\
    length logits = 2%nat.
Proof.
  destruct (result_check
              (FT.init (K := Toy.kernels) (Examples.ft_config 2 false)
                       (Toy.ft_weights 4 2 2 1))
              (fun _ => true)) as (self & E & _); [vm_compute; reflexivity|].
  destruct (ft_forward_returns_logits (K := Toy.kernels) _ _ self
              (Tensor2 2 [[0; 0]; [2; 4]]) (Tensor2 2 [[1; 2]; [3; 4]]) E)
    as (logits & H1 & H2).
  - reflexivity.
  - simpl. lia.
  - simpl. lia.
  - split; [reflexivity|]. split; [|reflexivity]. repeat constructor; simpl; lia.
  - reflexivity.
  - exists self, logits. split; [exact E|]. split; assumption.
Defined.

(** ** Forward of TabTransformer *)

Section TabForward.
Context `{K : Kernels}.

Lemma zip_with_mean_std {A B} (f g : A -> A -> A) (a b : B -> A)
      (r : list A) (S : list B) :
  zip_with f (zip_with g r (map a S)) (map b S)
  = zip_with (fun v m => f (g v (a m)) (b m)) r S.
Proof.
  revert S. induction r as [|v r IH]; intros [|m S]; simpl; try reflexivity.
  rewrite IH. reflexivity.
Qed.

(** The continuous half of [forward] on a constructed model, for an input
    of the configured width. *)
Lemma Tab_forward_cont_constructed (c : Tab.config) (w : Tab.weights)
      (self : gmap string Tab.attr) (x_cont : tensor2 scalar) :
  Tab.init c w = Ok self ->
  Z.of_nat (shape1 x_cont) = Tab.num_continuous c ->
  if 0 <? Tab.num_continuous c then
    exists ln,
      Tab.forward_cont self x_cont
      = Ok [map (layer_norm (ln_weights ln))
                (match Tab.continuous_mean_std c with
                 | Some s =>
                     map (fun r =>
                            broadcast_with fdiv
                              (broadcast_with fsub r
                                 (map (fun m => nth 0 m fzero) (rows s)))
                              (map (fun m => nth 1 m fzero) (rows s)))
                         (rows x_cont)
                 | None => rows x_cont
                 end)]
  else Tab.forward_cont self x_cont = Ok [].
Proof.
  intros Hinit Hw.
  apply Tab_init_inv in Hinit as [_ _ _ _ Hnc _ _ _ _ Hstats _ _ _ _ _].
  unfold Tab.forward_cont, Tab.getattr. rewrite Hnc. simpl.
  rewrite Hw, Z.eqb_refl. simpl.
  destruct (0 <? Tab.num_continuous c) eqn:Hc; [|reflexivity].
  destruct Hstats as [Hs [ln Hln]]. exists ln.
  destruct (Tab.continuous_mean_std c) as [s|].
  - destruct Hs as (Hs0 & Hs1 & ->). simpl.
    unfold Tab.unbind_mean_std. rewrite Hs1. simpl.
    unfold Tab.standardize. rewrite length_map.
    assert (Hb : broadcastable (shape1 x_cont) (length (rows s)) = true).
    { unfold shape0 in Hs0. replace (length (rows s)) with (shape1 x_cont) by lia.
      apply broadcastable_refl. }
    rewrite Hb. simpl. rewrite Hln. reflexivity.
  - rewrite Hs. simpl. rewrite Hln. reflexivity.
Qed.

Lemma Tab_init_layers (c : Tab.config) (w : Tab.weights) :
  Forall (fun l => tab_transformer_pytorch.Attention.heads
                     (tab_transformer_pytorch.PreNorm.fn l.1) = Tab.heads c)
         (TabT.layers (TabT.init (Tab.dim c) (Tab.depth c) (Tab.heads c)
                                 (Tab.dim_head c) (Tab.attn_dropout c) (Tab.ff_dropout c)
                                 2 (Tab.checkpoint_grads c) (Tab.use_flash_attn c)
                                 (Tab.w_transformer w))).
Proof.
  unfold TabT.init. simpl. apply Forall_map. apply Forall_forall. intros i _.
  reflexivity.
Qed.

Lemma tab_residual_stack_length ls (x : batch) :
  length (tab_residual_stack ls x) = length x.
Proof.
  revert x. unfold tab_residual_stack.
  induction ls as [|l ls IH]; intros x; [reflexivity|].
  simpl fold_left. rewrite IH. unfold batch_add, tab_feedforward, tab_attention.
  rewrite !length_zip_with, !length_map, !length_zip_with, !length_map. lia.
Qed.

(** The categorical half of [forward] without attention maps, on a
    constructed model and a valid batch of codes. *)
Lemma Tab_forward_categ_constructed (c : Tab.config) (w : Tab.weights)
      (self : gmap string Tab.attr) (x_categ : tensor2 Z) :
  Tab.init c w = Ok self ->
  0 < Tab.heads c ->
  0 <= Tab.num_special_tokens c ->
  shape1 x_categ = length (Tab.categories c) ->
  Forall (valid_codes (Tab.categories c)) (rows x_categ) ->
  if 0 <? py_sum (Tab.categories c) then
    exists flat : list vec,
      Tab.forward_categ self x_categ false = Ok ([flat], None) /\
      length flat = shape0 x_categ
  else Tab.forward_categ self x_categ false = Ok ([], None).
Proof.
  intros Hinit Hheads Hnst Hs Hv.
  pose proof (Tab_init_inv c w self Hinit)
    as [Hpos _ _ Hnu _ _ Hus Hshared _ _ Htr _ _ _ _].
  unfold Tab.forward_categ.
  rewrite (bind_Ok_eq (Tab.getattr self "num_unique_categories" ≫= Tab.as_int)
                      _ (py_sum (Tab.categories c)))
    by (unfold Tab.getattr; rewrite Hnu; reflexivity).
  destruct (0 <? py_sum (Tab.categories c)) eqn:Hsum; [|reflexivity].
  assert (Hne : Tab.categories c <> []).
  { intros E. rewrite E in Hsum. discriminate. }
  assert (Hcon : construct (TabConfig c w) = Ok (TabModel self))
    by (simpl; rewrite Hinit; reflexivity).
  pose proof (constructed_offset_codes (TabConfig c w) (TabModel self) x_categ
                Hcon Hnst Hne Hs Hv) as Hoff.
  simpl in Hoff.
  destruct (constructed_offsets (TabConfig c w) (TabModel self) Hcon Hnst Hne)
    as (_ & Hmax & _). simpl in Hmax.
  rewrite (bind_Ok_eq _ _ _ Hoff).
  destruct (constructed_lookup (TabConfig c w) (TabModel self)
              (Tensor2 (length (Tab.categories c))
                 (map (fun r => zip_with add64 r
                                  (offset_table (Tab.num_special_tokens c)
                                                (Tab.categories c)))
                      (rows x_categ))) Hcon Hne) as [ce Hce].
  { simpl. apply Forall_map. eapply Forall_impl; [exact Hv|].
    intros r Hr. simpl. unfold total_tokens in *.
    eapply Forall_impl;
      [apply offset_ids_in_range; [exact Hr | unfold int64_min; lia | lia]|].
    simpl. intros id Hid. lia. }
  simpl in Hce. rewrite (bind_Ok_eq _ _ _ Hce).
  assert (Hlce : length ce = shape0 x_categ).
  { unfold Tab.lookup_codes in Hce. apply bind_Ok_inv in Hce as (e & _ & Hce).
    unfold Embedding_forward in Hce. apply mapM_Ok_length in Hce.
    simpl in Hce. rewrite length_map in Hce. exact Hce. }
  rewrite (bind_Ok_eq (Tab.getattr self "use_shared_categ_embed" ≫= Tab.as_bool)
                      _ (Tab.use_shared_categ_embed c))
    by (unfold Tab.getattr; rewrite Hus; reflexivity).
  assert (Hshare : exists ce' : batch,
             (if Tab.use_shared_categ_embed c then
                shared_category_embed ←
                  Tab.getattr self "shared_category_embed" ≫= Tab.as_parameter;
                if Nat.eqb (shape1 (Tensor2 (length (Tab.categories c))
                                      (map (fun r => zip_with add64 r
                                              (offset_table (Tab.num_special_tokens c)
                                                            (Tab.categories c)))
                                           (rows x_categ))))
                           (length shared_category_embed)
                then Ok (map (fun t => zip_with (@app scalar) t shared_category_embed) ce)
                else Raise RuntimeError
              else Ok ce) = Ok ce' /\ length ce' = length ce).
  { destruct (Tab.use_shared_categ_embed c).
    - destruct Hshared as (p & Hp & Hlp).
      unfold Tab.getattr. rewrite Hp. simpl. rewrite Hlp, Nat.eqb_refl.
      eexists. split; [reflexivity|]. apply length_map.
    - exists ce. split; reflexivity. }
  destruct Hshare as (ce' & Hce' & Hlce').
  rewrite (bind_Ok_eq _ _ _ Hce').
  rewrite (bind_Ok_eq (Tab.getattr self "transformer" ≫= Tab.as_transformer) _ _)
    by (unfold Tab.getattr; rewrite Htr; reflexivity).
  rewrite Tab_forward_false
    by (eapply Forall_impl; [apply Tab_init_layers|]; simpl; intros l ->; exact Hheads).
  rewrite (bind_Ok_eq _ _ _ eq_refl).
  eexists. split; [reflexivity|].
  simpl. rewrite length_map, tab_residual_stack_length. lia.
Qed.
End TabForward.

(** On a constructed TabTransformer with a positive number of heads,
    [forward] without attention maps on inputs of the configured widths with
    valid codes returns logits, one entry per row. *)
Theorem tab_forward_returns_logits `{K : Kernels} (c : Tab.config) (w : Tab.weights)
        (self : gmap string Tab.attr) (x_categ : tensor2 Z) (x_cont : tensor2 scalar) :
  Tab.init c w = Ok self ->
  0 < Tab.heads c ->
  0 <= Tab.num_special_tokens c ->
  shape1 x_categ = length (Tab.categories c) ->
  Forall (valid_codes (Tab.categories c)) (rows x_categ) ->
  Z.of_nat (shape1 x_cont) = Tab.num_continuous c ->
  shape0 x_categ = shape0 x_cont ->
  exists logits,
    Tab.forward self x_categ x_cont false = Ok (Tab.Logits logits) /\
    length logits = shape0 x_categ.
Proof.
  intros Hinit Hheads Hnst Hs Hv Hw Hlen.
  pose proof (Tab_forward_categ_constructed c w self x_categ Hinit Hheads Hnst Hs Hv)
    as Hcat.
  pose proof (Tab_forward_cont_constructed c w self x_cont Hinit Hw) as Hcont.
  pose proof (Tab_init_inv c w self Hinit)
    as [Hpos Hnn Hnc _ _ _ _ _ _ _ _ (mlp & Hmlp) _ _ _].
  unfold Tab.forward.
  rewrite (bind_Ok_eq (Tab.getattr self "num_categories" ≫= Tab.as_int)
                      _ (py_len (Tab.categories c)))
    by (unfold Tab.getattr; rewrite Hnc; reflexivity).
  rewrite Hs. unfold py_len at 1. rewrite Z.eqb_refl. unfold py_assert.
  rewrite (bind_Ok_eq (Ok tt) _ tt eq_refl).
  assert (Hx : exists x : list vec,
             (xs ← Tab.forward_categ self x_categ false;
              let '(xs1, attns) := xs in
              xs2 ← Tab.forward_cont self x_cont;
              x ← torch_cat_dim1 (xs1 ++ xs2);
              Ok (x, attns)) = Ok (x, None) /\ length x = shape0 x_categ).
  { destruct (0 <? py_sum (Tab.categories c)) eqn:Hsum.
    - destruct Hcat as (flat & -> & Hlf). simpl.
      destruct (0 <? Tab.num_continuous c).
      + destruct Hcont as (ln & ->). simpl.
        rewrite length_map.
        assert (Hrows : length (match Tab.continuous_mean_std c with
                                | Some s =>
                                    map (fun r =>
                                           broadcast_with fdiv
                                             (broadcast_with fsub r
                                                (map (fun m => nth 0 m fzero) (rows s)))
                                             (map (fun m => nth 1 m fzero) (rows s)))
                                        (rows x_cont)
                                | None => rows x_cont
                                end) = shape0 x_cont)
          by (destruct (Tab.continuous_mean_std c); [apply length_map | reflexivity]).
        rewrite Hrows, Hlf, Hlen, Nat.eqb_refl.
        eexists. split; [reflexivity|].
        rewrite length_zip_with, length_map, Hrows, Hlf. lia.
      + rewrite Hcont. simpl. eexists. split; [reflexivity | exact Hlf].
    - rewrite Hcat. simpl.
      assert (Hnil : Tab.categories c = []).
      { destruct (Tab.categories c) as [|a l] eqn:Ec; [reflexivity|].
        apply Z.ltb_ge in Hsum.
        pose proof (py_sum_pos (a :: l) Hpos ltac:(discriminate)). lia. }
      rewrite Hnil in Hnn. unfold py_len in Hnn. simpl in Hnn.
      rewrite (proj2 (Z.ltb_lt _ _)) in Hcont by lia.
      destruct Hcont as (ln & ->). simpl.
      eexists. split; [reflexivity|]. rewrite length_map.
      destruct (Tab.continuous_mean_std c); [rewrite length_map|]; symmetry; exact Hlen. }
  destruct Hx as (x & Hx & Hlx).
  apply bind_Ok_inv in Hx as ([xs1 attns] & E1 & Hx).
  apply bind_Ok_inv in Hx as (xs2 & E2 & Hx).
  apply bind_Ok_inv in Hx as (x0 & E3 & Hx).
  injection Hx as -> ->.
  rewrite (bind_Ok_eq _ _ _ E1). cbv beta iota.
  rewrite (bind_Ok_eq _ _ _ E2), (bind_Ok_eq _ _ _ E3).
  rewrite (bind_Ok_eq (Tab.getattr self "mlp" ≫= Tab.as_mlp) _ mlp)
    by (unfold Tab.getattr; rewrite Hmlp; reflexivity).
  simpl. eexists. split; [reflexivity|].
  unfold tab_transformer_pytorch.MLP.forward. rewrite length_map. exact Hlx.
Qed.

Lemma tab_forward_returns_logits_witness :
  exists self logits,
    Tab.init (K := Toy.kernels) (Examples.tab_config [3; 5] 2 1 None)
             (Toy.tab_weights 8 2 2 (fun i => match i with O => 72 | 1 => 36 | _ => 1 end)%nat)
    = Ok self /\
    Tab.forward (K := Toy.kernels) self (Tensor2 2 [[0; 0]; [2; 4]])
                (Tensor2 2 [[1; 2]; [3; 4]]) false = Ok (Tab.Logits logits) /\
    length logits = 2%nat.
Proof.
  destruct (result_check
              (Tab.init (K := Toy.kernels) (Examples.tab_config [3; 5] 2 1 None)
                 (Toy.tab_weights 8 2 2
                    (fun i => match i with O => 72 | 1 => 36 | _ => 1 end)%nat))
              (fun _ => true)) as (self & E & _); [vm_compute; reflexivity|].
  destruct (tab_forward_returns_logits (K := Toy.kernels) _ _ self
              (Tensor2 2 [[0; 0]; [2; 4]]) (Tensor2 2 [[1; 2]; [3; 4]]) E)
    as (logits & H1 & H2).
  - simpl. lia.
  - simpl. lia.
  - reflexivity.
  - repeat constructor; simpl; lia.
  - reflexivity.
  - reflexivity.
  - exists self, logits. split; [exact E|]. split; assumption.
Defined.

(** With no categorical field the loop that would define [attns] is never
    entered: a constructed TabTransformer whose schema has only continuous
    fields computes the logits and then raises UnboundLocalError when the
    attention maps are requested. *)
Theorem tab_attention_maps_without_categories `{K : Kernels} (c : Tab.config)
        (w : Tab.weights) (self : gmap string Tab.attr)
        (x_categ : tensor2 Z) (x_cont : tensor2 scalar) :
  Tab.init c w = Ok self ->
  Tab.categories c = [] ->
  shape1 x_categ = 0%nat ->
  Z.of_nat (shape1 x_cont) = Tab.num_continuous c ->
  Tab.forward self x_categ x_cont true = Raise (UnboundLocalError "attns") /\
  is_Ok (Tab.forward self x_categ x_cont false).
Proof.
  intros Hinit Hnil Hs Hw.
  pose proof (Tab_forward_cont_constructed c w self x_cont Hinit Hw) as Hcont.
  pose proof (Tab_init_inv c w self Hinit)
    as [Hpos Hnn Hnc Hnu _ _ _ _ _ _ _ (mlp & Hmlp) _ _ _].
  rewrite Hnil in Hnn, Hnc, Hnu. unfold py_len in Hnn. simpl in Hnn.
  rewrite (proj2 (Z.ltb_lt _ _)) in Hcont by lia.
  destruct Hcont as (ln & Hcont).
  assert (Hcat : forall ra, Tab.forward_categ self x_categ ra = Ok ([], None)).
  { intros ra. unfold Tab.forward_categ, Tab.getattr. rewrite Hnu. reflexivity. }
  assert (Hfw : forall ra,
             Tab.forward self x_categ x_cont ra
             = if negb ra
               then Ok (Tab.Logits
                          (tab_transformer_pytorch.MLP.forward mlp
                             (map (layer_norm (ln_weights ln))
                                  (match Tab.continuous_mean_std c with
                                   | Some s =>
                                       map (fun r =>
                                              broadcast_with fdiv
                                                (broadcast_with fsub r
                                                   (map (fun m => nth 0 m fzero) (rows s)))
                                                (map (fun m => nth 1 m fzero) (rows s)))
                                           (rows x_cont)
                                   | None => rows x_cont
                                   end))))
               else Raise (UnboundLocalError "attns")).
  { intros ra. unfold Tab.forward.
    rewrite (bind_Ok_eq (Tab.getattr self "num_categories" ≫= Tab.as_int) _ 0)
      by (unfold Tab.getattr; rewrite Hnc; reflexivity).
    rewrite Hs. simpl py_assert.
    rewrite (bind_Ok_eq (Ok tt) _ tt eq_refl).
    rewrite (bind_Ok_eq _ _ _ (Hcat ra)). cbv beta iota.
    rewrite (bind_Ok_eq _ _ _ Hcont).
    rewrite app_nil_l. cbn [torch_cat_dim1].
    rewrite (bind_Ok_eq (Ok _) _ _ eq_refl).
    rewrite (bind_Ok_eq (Tab.getattr self "mlp" ≫= Tab.as_mlp) _ mlp)
      by (unfold Tab.getattr; rewrite Hmlp; reflexivity).
    reflexivity. }
  split.
  - rewrite (Hfw true). reflexivity.
  - rewrite (Hfw false). eexists. reflexivity.
Qed.

Lemma tab_attention_maps_without_categories_witness :
  exists self,
    Tab.init (K := Toy.kernels) (Examples.tab_config [] 2 1 None)
             (Toy.tab_weights 8 2 2 (fun _ => 1%nat)) = Ok self /\
    Tab.forward (K := Toy.kernels) self (Tensor2 0 [[]]) (Tensor2 2 [[1; 2]]) true
    = Raise (UnboundLocalError "attns").
Proof.
  destruct (result_check
              (Tab.init (K := Toy.kernels) (Examples.tab_config [] 2 1 None)
                        (Toy.tab_weights 8 2 2 (fun _ => 1%nat)))
              (fun _ => true)) as (self & E & _); [vm_compute; reflexivity|].
  exists self. split; [exact E|].
  apply (tab_attention_maps_without_categories (K := Toy.kernels) _ _ self
           (Tensor2 0 [[]]) (Tensor2 2 [[1; 2]]) E); reflexivity.
Defined.

(** The continuous half of TabTransformer's [forward], on a constructed
    model with continuous fields and a well-formed input of the configured
    width: with statistics, value i of every row has column 0 of row i of the
    statistics subtracted and is divided by column 1 as it is, before the
    layer norm; without statistics the rows go to the layer norm unchanged. *)
Theorem continuous_input_standardised `{K : Kernels} (c : Tab.config) (w : Tab.weights)
        (self : gmap string Tab.attr) (x_cont : tensor2 scalar) :
  Tab.init c w = Ok self ->
  0 < Tab.num_continuous c ->
  Z.of_nat (shape1 x_cont) = Tab.num_continuous c ->
  wf_tensor2 x_cont ->
  exists ln,
    Tab.forward_cont self x_cont
    = Ok [map (fun r =>
                 layer_norm (ln_weights ln)
                   (match Tab.continuous_mean_std c with
                    | Some s =>
                        zip_with (fun v m => fdiv (fsub v (nth 0 m fzero)) (nth 1 m fzero))
                                 r (rows s)
                    | None => r
                    end))
              (rows x_cont)].
Proof.
  intros Hinit Hnc Hw Hwf.
  pose proof (Tab_forward_cont_constructed c w self x_cont Hinit Hw) as Hcont.
  pose proof (Tab_init_inv c w self Hinit)
    as [_ _ _ _ _ _ _ _ _ Hstats _ _ _ _ _].
  rewrite (proj2 (Z.ltb_lt _ _) Hnc) in Hcont, Hstats.
  destruct Hcont as (ln & ->). exists ln. f_equal. f_equal.
  destruct (Tab.continuous_mean_std c) as [s|]; [|reflexivity].
  destruct Hstats as [(Hs0 & _ & _) _]. unfold shape0 in Hs0.
  rewrite map_map. apply map_ext_Forall.
  eapply Forall_impl; [exact Hwf|]. simpl. intros r Hr. f_equal.
  rewrite (broadcast_with_zip fsub) by (rewrite length_map; lia).
  rewrite broadcast_with_zip by (rewrite length_zip_with, !length_map; lia).
  apply zip_with_mean_std.
Qed.

(** Two continuous fields with statistics (mean, divisor) = (1, 2) and
    (3, 4): the row [7; 11] becomes [(7 - 1) / 2; (11 - 3) / 4] = [3; 2]. *)
Lemma continuous_input_standardised_witness :
  exists self,
    Tab.init (K := Toy.kernels)
             (Examples.tab_config [3; 5] 2 1 (Some (Tensor2 2 [[1; 2]; [3; 4]])))
             (Toy.tab_weights 8 2 2 (fun _ => 1%nat)) = Ok self /\
    Tab.forward_cont (K := Toy.kernels) self (Tensor2 2 [[7; 11]]) = Ok [[[3; 2]]].
Proof.
  destruct (result_check
              (Tab.init (K := Toy.kernels)
                 (Examples.tab_config [3; 5] 2 1 (Some (Tensor2 2 [[1; 2]; [3; 4]])))
                 (Toy.tab_weights 8 2 2 (fun _ => 1%nat)))
              (fun _ => true)) as (self & E & _); [vm_compute; reflexivity|].
  exists self. split; [exact E|].
  destruct (continuous_input_standardised (K := Toy.kernels) _ _ self
              (Tensor2 2 [[7; 11]]) E) as (ln & ->).
  - simpl. lia.
  - reflexivity.
  - repeat constructor.
  - reflexivity.
Defined.

(** ** Lookups in the embedding table *)

Section TableBounds.
Context `{K : Kernels}.

Lemma mapM_Raise_Exists {A B} (f : A -> result B) (l : list A) (e : exn) :
  (forall a e', f a = Raise e' -> e' = e) ->
  Exists (fun a => f a = Raise e) l ->
  mapM f l = Raise e.
Proof.
  intros Hall H. induction H as [a l Ha|a l _ IH]; simpl.
  - rewrite Ha. reflexivity.
  - destruct (f a) as [b|e'] eqn:E; simpl.
    + rewrite IH. reflexivity.
    + rewrite (Hall a e' E). reflexivity.
Qed.

Lemma Embedding_lookup_raises (e : Embedding) (id : Z) (e' : exn) :
  Embedding_lookup e id = Raise e' -> e' = IndexError.
Proof.
  unfold Embedding_lookup.
  destruct ((0 <=? id) && (id <? num_embeddings e)); [|congruence].
  destruct (nth_error _ _); congruence.
Qed.

Lemma mapM_raises_only {A B} (f : A -> result B) (l : list A) (e e' : exn) :
  (forall a e', f a = Raise e' -> e' = e) ->
  mapM f l = Raise e' -> e' = e.
Proof.
  intros Hall. induction l as [|a l IH]; simpl; [discriminate|].
  destruct (f a) as [b|e0] eqn:E; simpl.
  - destruct (mapM f l) as [k|e1]; simpl; [discriminate|].
    intros H. apply IH. congruence.
  - intros H. injection H as <-. exact (Hall a e0 E).
Qed.

Lemma Embedding_forward_out_of_table (e : Embedding) (ids : tensor2 Z) :
  Exists (Exists (fun id => id < 0 \/ num_embeddings e <= id)) (rows ids) ->
  Embedding_forward e ids = Raise IndexError.
Proof.
  intros H. unfold Embedding_forward. apply mapM_Raise_Exists.
  - intros row e'. apply mapM_raises_only. apply Embedding_lookup_raises.
  - eapply Exists_impl; [exact H|]. simpl. intros row Hrow.
    apply mapM_Raise_Exists; [apply Embedding_lookup_raises|].
    eapply Exists_impl; [exact Hrow|]. simpl. intros id Hid.
    unfold Embedding_lookup.
    destruct (0 <=? id) eqn:H0; simpl; [|reflexivity].
    apply Z.leb_le in H0. rewrite (proj2 (Z.ltb_ge _ _)) by lia. reflexivity.
Qed.
End TableBounds.

(** The lookup of a constructed model of either class, on any tensor of
    ids: it returns when every id lies in [0, total_tokens), whether or not
    the id belongs to the field of its column, and raises IndexError as soon
    as one id lies outside the table. *)
Theorem lookup_checks_table_bounds_only `{K : Kernels} (mc : model_config) (m : model)
        (ids : tensor2 Z) :
  construct mc = Ok m ->
  categories_of mc <> [] ->
  (Forall (Forall (fun id => 0 <= id < total_tokens (categories_of mc)
                                                    (num_special_tokens_of mc)))
          (rows ids) ->
   is_Ok (lookup_codes_of m ids)) /\
  (Exists (Exists (fun id => id < 0 \/ total_tokens (categories_of mc)
                                                    (num_special_tokens_of mc) <= id))
          (rows ids) ->
   lookup_codes_of m ids = Raise IndexError).
Proof.
  intros Hc Hne. split; [apply (constructed_lookup mc m ids Hc Hne)|].
  intros Hex. unfold total_tokens in Hex.
  destruct mc as [c w|c w]; simpl in *;
    apply fmap_Ok_inv in Hc as [self [Hinit ->]]; simpl.
  - apply FT_init_inv in Hinit as [Hpos _ _ _ _ Hcat _ _ _ _].
    rewrite (proj2 (Z.ltb_lt _ _) (py_sum_pos _ Hpos Hne)) in Hcat.
    destruct Hcat as [offset [e [_ [He [_ Hlk]]]]].
    apply Embedding_init_inv in He as [_ [Hn _]].
    unfold FT.lookup_codes, FT.getattr. rewrite Hlk. simpl.
    apply Embedding_forward_out_of_table. rewrite Hn. exact Hex.
  - apply Tab_init_inv in Hinit as [_ _ _ _ _ [d [e [He Hlk]]] _ _ _ _ _ _ _ _ _].
    apply Embedding_init_inv in He as [_ [Hn _]].
    unfold Tab.lookup_codes, Tab.getattr. rewrite Hlk. simpl.
    apply Embedding_forward_out_of_table. rewrite Hn. exact Hex.
Qed.

(** The example schema [3; 5] with two special tokens has a table of ten
    rows: the ids [5; 9], which are what the codes [3; 4] become, are looked
    up although 3 is no code of the first field, and the id 10 raises. *)
Lemma lookup_checks_table_bounds_only_witness :
  exists m,
    construct (Examples.ft 1 false) = Ok m /\
    is_Ok (lookup_codes_of m (Tensor2 2 [[5; 9]])) /\
    lookup_codes_of m (Tensor2 2 [[2; 10]]) = Raise IndexError.
Proof.
  destruct (result_check (construct (Examples.ft 1 false)) (fun _ => true))
    as (m & E & _); [vm_compute; reflexivity|].
  exists m. split; [exact E|]. split.
  - apply (proj1 (lookup_checks_table_bounds_only (Examples.ft 1 false) m
                    (Tensor2 2 [[5; 9]]) E ltac:(discriminate))).
    repeat constructor; vm_compute; congruence.
  - apply (proj2 (lookup_checks_table_bounds_only (Examples.ft 1 false) m
                    (Tensor2 2 [[2; 10]]) E ltac:(discriminate))).
    constructor. apply Exists_cons_tl. constructor. right. vm_compute. congruence.
Defined.

(** ** Embedding extraction of a TabTransformer without categorical fields *)

(** A constructed TabTransformer whose schema has only continuous fields
    fails in [get_embeddings] as well: the body skips the categorical
    lookup and stops at [self.numerical_embedder], which the constructor
    never defines. *)
Theorem tab_get_embeddings_continuous_only `{K : Kernels} (c : Tab.config)
        (w : Tab.weights) (self : gmap string Tab.attr)
        (x_categ : tensor2 Z) (x_cont : tensor2 scalar) (batch_size : option Z) :
  Tab.init c w = Ok self ->
  Tab.categories c = [] ->
  (exists e, Tab.get_embeddings self x_categ x_cont batch_size = Raise e) /\
  Tab.get_embeddings self x_categ x_cont None
  = Raise (AttributeError "numerical_embedder").
Proof.
  intros Hinit Hnil.
  apply Tab_init_inv in Hinit
    as [_ Hnn _ Hnu Hnc _ _ _ _ _ _ _ _ Hne _].
  rewrite Hnil in Hnn, Hnu. unfold py_len in Hnn. simpl in Hnn.
  assert (Hbody : forall xc xn,
             Tab.embed self xc xn = Raise (AttributeError "numerical_embedder")).
  { intros xc xn. unfold Tab.embed, Tab.getattr. rewrite Hnu. simpl.
    rewrite Hnc. simpl. rewrite (proj2 (Z.ltb_lt _ _)) by lia.
    rewrite Hne. reflexivity. }
  split; [|apply Hbody].
  destruct batch_size as [b|]; simpl; [|eexists; apply Hbody].
  destruct (py_range 0 (Z.of_nat (shape0 x_categ)) b) as [starts|e];
    [|exists e; reflexivity].
  simpl. destruct starts as [|i starts].
  - exists RuntimeError. reflexivity.
  - eexists. simpl. rewrite Hbody. reflexivity.
Qed.

Lemma tab_get_embeddings_continuous_only_witness :
  exists self,
    Tab.init (K := Toy.kernels) (Examples.tab_config [] 2 1 None)
             (Toy.tab_weights 8 2 2 (fun _ => 1%nat)) = Ok self /\
    Tab.get_embeddings (K := Toy.kernels) self (Tensor2 0 [[]]) (Tensor2 2 [[1; 2]]) None
    = Raise (AttributeError "numerical_embedder").
Proof.
  destruct (result_check
              (Tab.init (K := Toy.kernels) (Examples.tab_config [] 2 1 None)
                        (Toy.tab_weights 8 2 2 (fun _ => 1%nat)))
              (fun _ => true)) as (self & E & _); [vm_compute; reflexivity|].
  exists self. split; [exact E|].
  apply (proj2 (tab_get_embeddings_continuous_only (K := Toy.kernels) _ _ self
                  (Tensor2 0 [[]]) (Tensor2 2 [[1; 2]]) None E eq_refl)).
Defined.

(** ** The shape of the attention block's output *)

(** Without the fused kernel and with a positive number of heads,
    [Attention.forward] returns, whatever the value of [return_attn], one
    value: a batch with as many elements as its input and as many tokens in
    each. *)
Theorem attention_keeps_batch_and_tokens `{K : Kernels}
        (a : ft_transformer.Attention.t) (x : batch) (return_attn : bool) :
  0 < ft_transformer.Attention.heads a ->
  ft_transformer.Attention.use_flash_attn a = false ->
  exists y,
    ft_transformer.Attention.forward a x return_attn = Ok y /\
    Forall2 (fun t u => length u = length t) x y.
Proof.
  intros Hh Hf. unfold ft_transformer.Attention.forward.
  rewrite (proj2 (Z.leb_gt _ _) Hh). eexists. split; [reflexivity|].
  induction x as [|t x IH]; simpl; constructor; [|exact IH].
  apply attend_length; assumption.
Qed.

Lemma attention_keeps_batch_and_tokens_witness :
  let a := ft_transformer.Attention.init (K := Toy.kernels) 4 2 2 0 false
             (tt, 12%nat, 4%nat) in
  exists y,
    ft_transformer.Attention.forward (K := Toy.kernels) a
      [[[1; 2; 3; 4]; [5; 6; 7; 8]; [0; 0; 0; 1]]] true = Ok y /\
    Forall2 (fun t u : list (list Z) => length u = length t)
            [[[1; 2; 3; 4]; [5; 6; 7; 8]; [0; 0; 0; 1]]] y.
Proof.
  intros a.
  apply (attention_keeps_batch_and_tokens (K := Toy.kernels) a
           [[[1; 2; 3; 4]; [5; 6; 7; 8]; [0; 0; 0; 1]]] true); [simpl; lia | reflexivity].
Defined.

(** ** Gradient checkpointing *)

Section Checkpointing.
Context `{K : Kernels}.

Lemma FT_loop_checkpoint layers (b ra : bool) ls (st : batch * list tokens) :
  FTT.loop {| FTT.layers := layers; FTT.checkpoint_grads := b |} ra ls st
  = FTT.loop {| FTT.layers := layers; FTT.checkpoint_grads := false |} ra ls st.
Proof.
  revert st. induction ls as [|[a f] ls IH]; intros [x attns]; [reflexivity|].
  cbn [FTT.loop].
  replace (FTT.layer {| FTT.layers := layers; FTT.checkpoint_grads := b |} ra
                     (x, attns) (a, f))
    with (FTT.layer {| FTT.layers := layers; FTT.checkpoint_grads := false |} ra
                    (x, attns) (a, f))
    by (destruct b, ra; reflexivity).
  destruct (FTT.layer _ ra (x, attns) (a, f)) as [st'|e]; [|reflexivity].
  apply IH.
Qed.

Lemma Tab_loop_checkpoint layers (b ra : bool) ls
      (st : tab_transformer_pytorch.hidden * list tokens) :
  TabT.loop {| TabT.layers := layers; TabT.checkpoint_grads := b |} ra ls st
  = TabT.loop {| TabT.layers := layers; TabT.checkpoint_grads := false |} ra ls st.
Proof.
  revert st. induction ls as [|[a f] ls IH]; intros [x attns]; [reflexivity|].
  cbn [TabT.loop].
  replace (TabT.layer {| TabT.layers := layers; TabT.checkpoint_grads := b |} ra
                      (x, attns) (a, f))
    with (TabT.layer {| TabT.layers := layers; TabT.checkpoint_grads := false |} ra
                     (x, attns) (a, f))
    by (destruct b, ra; reflexivity).
  destruct (TabT.layer _ ra (x, attns) (a, f)) as [st'|e]; [|reflexivity].
  apply IH.
Qed.
End Checkpointing.

(** The two copies of the layer body, with and without
    [torch.utils.checkpoint], compute the same: in both files the value (or
    the error) of [Transformer.forward] does not depend on
    [checkpoint_grads]. *)
Theorem checkpointing_keeps_results `{K : Kernels} (checkpoint_grads return_attn : bool) :
  (forall layers (x : batch),
      FTT.forward {| FTT.layers := layers; FTT.checkpoint_grads := checkpoint_grads |}
                  x return_attn
      = FTT.forward {| FTT.layers := layers; FTT.checkpoint_grads := false |}
                    x return_attn) /\
  (forall layers (x : tab_transformer_pytorch.hidden),
      TabT.forward {| TabT.layers := layers; TabT.checkpoint_grads := checkpoint_grads |}
                   x return_attn
      = TabT.forward {| TabT.layers := layers; TabT.checkpoint_grads := false |}
                     x return_attn).
Proof.
  split; intros layers x.
  - unfold FTT.forward. cbn [FTT.layers]. rewrite FT_loop_checkpoint. reflexivity.
  - unfold TabT.forward. cbn [TabT.layers]. rewrite Tab_loop_checkpoint. reflexivity.
Qed.
